(** * navdb: flight-plan expansion against a navigation database

    A shallow embedding of [main.py] (classes [AIRACcycle], [WayPoint] and
    its subclasses, [Route], [NavDB]) and the properties of its
    specification.

    Conventions of the embedding.
    - A Python [str] is a Rocq [string]; a character is a code point below
      256, classified as Python classifies the Latin-1 range.
    - A Python [float] is a binary64 [float] of the kernel, so that the
      arithmetic of the coordinate decoder is bit-exact.
    - An instance of a class is a record carrying [id], the identity that
      Python's default [==] compares (no class of the program but
      [AIRACcycle] defines [__eq__]).
    - A raised exception is the [Raise] branch of [result]; logging is not
      modelled.
    - What the program imports from other libraries (the geodesic solver,
      [datetime], the general case of [float(str)]) is the class
      [Externals]. *)

From Stdlib Require Import String Ascii NArith ZArith QArith Qabs Floats Uint63 List Lia Bool.
From stdpp Require Import base option list gmap strings.

Open Scope string_scope.
Open Scope list_scope.

(** ** Exceptions and results *)

Inductive exn : Type :=
  | ElementNotFoundError (elem : string)
  | ElementAmbiguousError (elem : string)
  | NotOnAirwayError (fix_name awy_name : string)
  | IllegalCharacterError (elem : string)
  | UnnamedFormatError (elem : string)
  | UnnamedOutOfBounds (elem : string)
  | WrongAIRACcycleError (file : string)
  | ValueError
  | KeyError (key : string)
  | IndexError
  | AttributeError
  | AssertionError.

Inductive result (A : Type) : Type :=
  | Ok (a : A)
  | Raise (e : exn).
Arguments Ok {A} a.
Arguments Raise {A} e.

Definition bind {A B : Type} (r : result A) (k : A -> result B) : result B :=
  match r with
  | Ok a => k a
  | Raise e => Raise e
  end.

Notation "'let*' x ':=' r 'in' k" := (bind r (fun x => k))
  (at level 10, x name, r at level 100, k at level 200).

(** [try: r except: raise e], the bare [except] of the source. *)
Definition try_except {A : Type} (r : result A) (e : exn) : result A :=
  match r with
  | Ok a => Ok a
  | Raise _ => Raise e
  end.

Definition of_option {A : Type} (o : option A) (e : exn) : result A :=
  match o with
  | Some a => Ok a
  | None => Raise e
  end.

(** ** Python strings *)

Module Py.

Definition code (c : ascii) : N := N_of_ascii c.

Definition between (lo hi : N) (c : ascii) : bool :=
  ((lo <=? code c) && (code c <=? hi))%N.

(** [c.isdecimal()]: the digits 0-9. *)
Definition isdecimal_c (c : ascii) : bool := between 48 57 c.

(** [c.isdigit()]: the decimal digits and the superscripts 2, 3 and 1. *)
Definition isdigit_c (c : ascii) : bool :=
  isdecimal_c c || (code c =? 178)%N || (code c =? 179)%N || (code c =? 185)%N.

(** [c.isnumeric()]: the above and the three vulgar fractions. *)
Definition isnumeric_c (c : ascii) : bool :=
  isdigit_c c || between 188 190 c.

(** [c.isalpha()]: the letters of Latin-1. *)
Definition isalpha_c (c : ascii) : bool :=
  between 65 90 c || between 97 122 c
  || (code c =? 170)%N || (code c =? 181)%N || (code c =? 186)%N
  || between 192 214 c || between 216 246 c || between 248 255 c.

Definition isalnum_c (c : ascii) : bool :=
  isalpha_c c || isdecimal_c c || isdigit_c c || isnumeric_c c.

(** [c.isspace()], also what [split()] and [strip()] take as blank. *)
Definition isspace_c (c : ascii) : bool :=
  between 9 13 c || between 28 32 c || (code c =? 133)%N || (code c =? 160)%N.

Fixpoint forall_c (p : ascii -> bool) (s : string) : bool :=
  match s with
  | EmptyString => true
  | String c s' => p c && forall_c p s'
  end.

Fixpoint count_c (p : ascii -> bool) (s : string) : nat :=
  match s with
  | EmptyString => 0
  | String c s' => (if p c then 1 else 0) + count_c p s'
  end.

Definition nonempty (s : string) : bool :=
  match s with EmptyString => false | String _ _ => true end.

(** [s.isalpha()], [s.isdigit()], [s.isalnum()]: false on the empty string. *)
Definition isalpha (s : string) : bool := nonempty s && forall_c isalpha_c s.
Definition isdigit (s : string) : bool := nonempty s && forall_c isdigit_c s.
Definition isalnum (s : string) : bool := nonempty s && forall_c isalnum_c s.

(** [s.count(c)] for a one-character [c]. *)
Definition count (c : ascii) (s : string) : nat := count_c (Ascii.eqb c) s.

(** [s.replace(c, '')] for a one-character [c]. *)
Fixpoint remove (c : ascii) (s : string) : string :=
  match s with
  | EmptyString => EmptyString
  | String a s' => if Ascii.eqb a c then remove c s' else String a (remove c s')
  end.

(** [s[a:b]] for [0 <= a], [0 <= b]: clamped to the string. *)
Definition slice (a b : nat) (s : string) : string := substring a (b - a) s.

(** [s[a:]]. *)
Definition slice_from (a : nat) (s : string) : string :=
  substring a (String.length s - a) s.

(** [s[i]] for [0 <= i]. *)
Definition item (i : nat) (s : string) : result ascii :=
  of_option (String.get i s) IndexError.

(** [c in (a, b)] and [c == a] on the character [s[i]] of a string known to
    be long enough; a missing character compares unequal. *)
Definition char_is (i : nat) (s : string) (c : ascii) : bool :=
  match String.get i s with
  | Some a => Ascii.eqb a c
  | None => false
  end.

Fixpoint lstrip_by (blank : ascii -> bool) (s : string) : string :=
  match s with
  | EmptyString => EmptyString
  | String c s' => if blank c then lstrip_by blank s' else s
  end.

Fixpoint rstrip_by (blank : ascii -> bool) (s : string) : string :=
  match s with
  | EmptyString => EmptyString
  | String c s' =>
      match rstrip_by blank s' with
      | EmptyString => if blank c then EmptyString else String c EmptyString
      | r => String c r
      end
  end.

(** [s.rstrip()] and [s.strip()]. *)
Definition rstrip (s : string) : string := rstrip_by isspace_c s.
Definition strip (s : string) : string := rstrip_by isspace_c (lstrip_by isspace_c s).

(** The blanks that [int(s)] and [float(s)] drop around a number: those of
    [isspace] but for the four separators 28 to 31. *)
Definition isblank_number_c (c : ascii) : bool :=
  between 9 13 c || (code c =? 32)%N || (code c =? 133)%N || (code c =? 160)%N.

Definition strip_number (s : string) : string :=
  rstrip_by isblank_number_c (lstrip_by isblank_number_c s).

(** [s.split()]: the maximal blank-free runs of [s], in order.  [cur] is
    the run being read, reversed into place when it ends. *)
Fixpoint split_aux (cur : string) (s : string) : list string :=
  match s with
  | EmptyString => if nonempty cur then [cur] else []
  | String c s' =>
      if isspace_c c
      then (if nonempty cur then cur :: split_aux EmptyString s'
            else split_aux EmptyString s')
      else split_aux (cur +:+ String c EmptyString) s'
  end.

Definition split (s : string) : list string := split_aux EmptyString s.

(** [sub in s]. *)
Fixpoint contains (sub s : string) : bool :=
  String.prefix sub s
  || match s with
     | EmptyString => false
     | String _ s' => contains sub s'
     end.

(** [l.index(x)] on a list of strings. *)
Fixpoint index (x : string) (l : list string) : option nat :=
  match l with
  | [] => None
  | y :: l' => if String.eqb y x then Some 0 else option_map S (index x l')
  end.

(** [range(a, b, 1)] and [range(a, b, -1)] on naturals. *)
Definition range_up (a b : nat) : list nat := seq a (b - a).
Definition range_down (a b : nat) : list nat := map (fun k => a - k) (seq 0 (a - b)).

(** [int(s)] on a string short of the limit on the number of digits:
    blanks dropped, an optional sign, decimal digits with single
    underscores between them. *)
Fixpoint digits_val (acc : Z) (prev_digit : bool) (s : string) : option Z :=
  match s with
  | EmptyString => if prev_digit then Some acc else None
  | String c s' =>
      if isdecimal_c c then digits_val (10 * acc + (Z.of_N (code c) - 48)) true s'
      else if Ascii.eqb c "_" then
        (if prev_digit then
           match s' with
           | EmptyString => None
           | String _ _ => digits_val acc false s'
           end
         else None)
      else None
  end.

Definition int (s : string) : result Z :=
  let body := strip_number s in
  let parsed :=
    match body with
    | String "+" r => digits_val 0 false r
    | String "-" r => option_map Z.opp (digits_val 0 false r)
    | _ => digits_val 0 false body
    end in
  of_option parsed ValueError.

End Py.


(** ** External collaborators *)

(** The libraries the program calls and this development does not define:
    - [geod_Inverse_s12 lat1 lon1 lat2 lon2] is the float
      [geod.Inverse(lat1, lon1, lat2, lon2)['s12']], which may be NaN;
    - [float_rest] is [float(s)] on the strings [Py.float] below does not
      decide itself ([None] for [ValueError]);
    - [strptime], [strftime] are those of [datetime], [str_upper] is
      [str.upper]. *)
Class Externals : Type := {
  geod_Inverse_s12 : float -> float -> float -> float -> float;
  float_rest : string -> option float;
  datetime : Type;
  strptime : string -> string -> option datetime;
  strftime : datetime -> string -> string;
  str_upper : string -> string
}.

Module PyFloat.

(** The rational a binary64 denotes; none for the infinities and NaN. *)
Definition to_Q (f : float) : option Q :=
  match FloatOps.Prim2SF f with
  | SpecFloat.S754_zero _ => Some 0%Q
  | SpecFloat.S754_finite s m e =>
      let v := if (0 <=? e)%Z then inject_Z (Z.pos m * 2 ^ e)
               else Z.pos m # Z.to_pos (2 ^ (- e)) in
      Some (if s then Qopp v else v)
  | _ => None
  end.

Section WithExternals.
Context {E : Externals}.

Definition of_Z (z : Z) : float := PrimFloat.of_uint63 (Uint63.of_Z z).

(** A plain decimal literal [d+ ('.' d* )?] as its digits read as one
    integer, with the number of digits after the point. *)
Fixpoint decimal_literal (seen_point : bool) (ndig : nat) (m : Z) (k : nat)
    (s : string) : option (Z * nat * nat) :=
  match s with
  | EmptyString => if (0 <? ndig)%nat then Some (m, k, ndig) else None
  | String c s' =>
      if Py.isdecimal_c c then
        decimal_literal seen_point (S ndig) (10 * m + (Z.of_N (Py.code c) - 48))
          (if seen_point then S k else k) s'
      else if Ascii.eqb c "." then
        (if seen_point || (ndig =? 0)%nat then None
         else decimal_literal true ndig m k s')
      else None
  end.

(** [float(s)].  Blanks around the number are dropped and a sign is read.
    A plain decimal literal of at most 15 digits denotes the quotient of
    two integers that binary64 represents exactly, and Python returns the
    binary64 nearest to it, which is what one IEEE division returns.
    Every other string is left to [float_rest]. *)
Definition unsigned (s : string) : option PrimFloat.float :=
  match decimal_literal false 0 0 0 s with
  | Some (m, k, ndig) =>
      if (ndig <=? 15)%nat then Some (of_Z m / of_Z (10 ^ Z.of_nat k))%float
      else None
  | None => None
  end.

Definition float (s : string) : result PrimFloat.float :=
  let parsed :=
    match Py.strip_number s with
    | String "+" r => unsigned r
    | String "-" r => option_map PrimFloat.opp (unsigned r)
    | body => unsigned body
    end in
  match parsed with
  | Some f => Ok f
  | None => of_option (float_rest s) ValueError
  end.

End WithExternals.
End PyFloat.


(** ** Waypoints *)

Module WayPoint.

(** An instance of [WayPoint] or of one of its subclasses, which add no
    attribute. *)
Record t : Type := Make {
  id : N;
  name : string;
  lat : float;
  lon : float;
  type : string;
  descr : string
}.

(** [WayPoint(_name, _lat, _lon)] allocated at [i]. *)
Definition __init__ (i : N) (_name : string) (_lat _lon : float) : t :=
  {| id := i; name := _name; lat := _lat; lon := _lon; type := "WPT"; descr := "" |}.

(** [a == b]: identity, as the class has no [__eq__]. *)
Definition eqb (a b : t) : bool := (id a =? id b)%N.

(** [a == b] where [b] may be [None]. *)
Definition eqb_opt (a : t) (b : option t) : bool :=
  match b with
  | Some b' => eqb a b'
  | None => false
  end.

(** [copy.copy(w)]: the attributes of [w] in a new instance. *)
Definition copy (i : N) (w : t) : t :=
  {| id := i; name := name w; lat := lat w; lon := lon w;
     type := type w; descr := descr w |}.

Section WithExternals.
Context {E : Externals}.

(** [self.distTo(_wpt2)]; reading [.lat] of [None] is an [AttributeError]. *)
Definition distTo (self : t) (_wpt2 : option t) : result float :=
  match _wpt2 with
  | Some w2 => Ok (geod_Inverse_s12 (lat self) (lon self) (lat w2) (lon w2))
  | None => Raise AttributeError
  end.

End WithExternals.
End WayPoint.

Definition NavAid (i : N) (_name : string) (_lat _lon : float)
    (_type _descr : string) : WayPoint.t :=
  {| WayPoint.id := i; WayPoint.name := _name;
     WayPoint.lat := _lat; WayPoint.lon := _lon;
     WayPoint.type := _type; WayPoint.descr := _descr |}.

Definition Airport (i : N) (_name : string) (_lat _lon : float)
    (_descr : string) : WayPoint.t :=
  {| WayPoint.id := i; WayPoint.name := _name;
     WayPoint.lat := _lat; WayPoint.lon := _lon;
     WayPoint.type := "ARP"; WayPoint.descr := _descr |}.

Definition Runway (i : N) (_name : string) (_lat _lon : float)
    (_descr : string) : WayPoint.t :=
  {| WayPoint.id := i; WayPoint.name := _name;
     WayPoint.lat := _lat; WayPoint.lon := _lon;
     WayPoint.type := "RWY"; WayPoint.descr := _descr |}.

(** ** The unnamed-waypoint decoder *)

Module UnnamedWaypoint.
Section WithExternals.
Context {E : Externals}.

Definition one_of (i : nat) (s : string) (a b : ascii) : bool :=
  Py.char_is i s a || Py.char_is i s b.

Definition digit_at (i : nat) (s : string) : bool :=
  match String.get i s with
  | Some c => Py.isdigit_c c
  | None => false
  end.

(** [-1. if _name[i] == c else 1.] *)
Definition sign_at (i : nat) (s : string) (c : ascii) : float :=
  if Py.char_is i s c then (-1)%float else 1%float.

(** [sgn * (float(d) + float(m) / 60.)] *)
Definition deg_min (sgn : float) (d m : string) : result float :=
  let* fd := PyFloat.float d in
  let* fm := PyFloat.float m in
  Ok (sgn * (fd + fm / 60))%float.

(** The format test and the coordinates of each layout, selected by the
    length of the token. *)
Definition well_formed (fixlen : nat) (_name : string) : bool :=
  match fixlen with
  | 16 => one_of 0 _name "N" "S" && one_of 8 _name "E" "W"
          && Py.char_is 7 _name "/" && Py.char_is 5 _name "."
          && Py.char_is 14 _name "." && Py.isdigit (Py.slice 1 5 _name)
          && digit_at 6 _name && Py.isdigit (Py.slice 9 14 _name)
          && digit_at 15 _name
  | 12 => one_of 4 _name "N" "S" && one_of 11 _name "E" "W"
          && Py.char_is 5 _name "/" && Py.isdigit (Py.slice 0 4 _name)
          && Py.isdigit (Py.slice 6 11 _name)
  | 15 => one_of 6 _name "N" "S" && one_of 14 _name "E" "W"
          && Py.char_is 4 _name "." && Py.char_is 12 _name "."
          && Py.isdigit (Py.slice 0 4 _name) && digit_at 5 _name
          && Py.isdigit (Py.slice 7 12 _name) && digit_at 13 _name
  | 11 => one_of 4 _name "N" "S" && one_of 10 _name "E" "W"
          && Py.isdigit (Py.slice 0 4 _name) && Py.isdigit (Py.slice 5 10 _name)
  | 5 => Py.char_is 0 _name "H" && Py.isdigit (Py.slice 1 5 _name)
  | 7 => one_of 2 _name "N" "S" && one_of 6 _name "E" "W"
         && Py.isdigit (Py.slice 0 2 _name) && Py.isdigit (Py.slice 3 6 _name)
  | _ => false
  end.

Definition coordinates (fixlen : nat) (_name : string) : result (float * float) :=
  match fixlen with
  | 16 =>
      let latsgn := sign_at 0 _name "S" in
      let lonsgn := sign_at 8 _name "W" in
      let* lat := deg_min latsgn (Py.slice 1 3 _name) (Py.slice 3 7 _name) in
      let* lon := deg_min lonsgn (Py.slice 9 12 _name) (Py.slice 12 16 _name) in
      Ok (lat, lon)
  | 12 =>
      let latsgn := sign_at 4 _name "S" in
      let lonsgn := sign_at 11 _name "W" in
      let* lat := deg_min latsgn (Py.slice 0 2 _name) (Py.slice 2 4 _name) in
      let* lon := deg_min lonsgn (Py.slice 6 9 _name) (Py.slice 9 11 _name) in
      Ok (lat, lon)
  | 15 =>
      let latsgn := sign_at 6 _name "S" in
      let lonsgn := sign_at 14 _name "W" in
      let* lat := deg_min latsgn (Py.slice 0 2 _name) (Py.slice 2 6 _name) in
      let* lon := deg_min lonsgn (Py.slice 7 10 _name) (Py.slice 10 14 _name) in
      Ok (lat, lon)
  | 11 =>
      let latsgn := sign_at 4 _name "S" in
      let lonsgn := sign_at 10 _name "W" in
      let* lat := deg_min latsgn (Py.slice 0 2 _name) (Py.slice 2 4 _name) in
      let* lon := deg_min lonsgn (Py.slice 5 8 _name) (Py.slice 8 10 _name) in
      Ok (lat, lon)
  | 5 =>
      let* d := PyFloat.float (Py.slice 1 3 _name) in
      let* m := PyFloat.float (Py.slice 3 5 _name) in
      Ok (1 * (d + 0.5), (-1) * m)%float
  | 7 =>
      let latsgn := sign_at 2 _name "S" in
      let lonsgn := sign_at 6 _name "W" in
      let* d := PyFloat.float (Py.slice 0 2 _name) in
      let* m := PyFloat.float (Py.slice 3 6 _name) in
      Ok (latsgn * d, lonsgn * m)%float
  | _ => Raise (UnnamedFormatError _name)
  end.

(** [(lat < -90.) or (lat > 90.) or (lon < -180.) or (lon > 180.)] *)
Definition out_of_bounds (lat lon : float) : bool :=
  (lat <? -90)%float || (90 <? lat)%float
  || (lon <? -180)%float || (180 <? lon)%float.

(** [UnnamedWaypoint(_name)] allocated at [i]. *)
Definition __init__ (i : N) (_name : string) : result WayPoint.t :=
  let fixlen := String.length _name in
  if negb (well_formed fixlen _name) then Raise (UnnamedFormatError _name)
  else
    let* ll := coordinates fixlen _name in
    if out_of_bounds (fst ll) (snd ll) then Raise (UnnamedOutOfBounds _name)
    else
      Ok {| WayPoint.id := i; WayPoint.name := _name;
            WayPoint.lat := fst ll; WayPoint.lon := snd ll;
            WayPoint.type := "uWPT"; WayPoint.descr := "" |}.

End WithExternals.
End UnnamedWaypoint.


(** ** The validity cycle *)

Module AIRACcycle.
Section WithExternals.
Context {E : Externals}.

Record t : Type := Make {
  cycle : Z;
  date_begin : datetime;
  date_end : datetime;
  date_str : string
}.

(** [AIRACcycle(_str)] *)
Definition __init__ (_str : string) : result t :=
  if negb (Py.contains "AIRAC" (Py.slice 1 6 _str)) then Raise AssertionError
  else
    let* c := Py.int (Py.slice 15 19 _str) in
    let* b := of_option (strptime (Py.slice 21 32 _str) "%d/%b/%Y") ValueError in
    let* e := of_option (strptime (Py.slice 35 46 _str) "%d/%b/%Y") ValueError in
    Ok {| cycle := c; date_begin := b; date_end := e;
          date_str := str_upper (strftime b "%d%b%y" +:+ " - " +:+ strftime e "%d%b%y") |}.

(** [self == _other] *)
Definition __eq__ (self _other : t) : bool := (cycle self =? cycle _other)%Z.

End WithExternals.
End AIRACcycle.

(** ** Routes *)

Module Route.

Record t : Type := Make {
  name : string;
  _wpts : list WayPoint.t;
  _wptnames : list string
}.

(** [Route(_name)] *)
Definition __init__ (_name : string) : t :=
  {| name := _name; _wpts := []; _wptnames := [] |}.

(** [self.addWaypoint(_wpt)] *)
Definition addWaypoint (self : t) (_wpt : WayPoint.t) : t :=
  {| name := name self;
     _wpts := _wpts self ++ [_wpt];
     _wptnames := _wptnames self ++ [WayPoint.name _wpt] |}.

(** [[self._wpts[i] for i in indices]], an [IndexError] past the end. *)
Fixpoint collect (wpts : list WayPoint.t) (indices : list nat)
    : result (list WayPoint.t) :=
  match indices with
  | [] => Ok []
  | i :: rest =>
      let* w := of_option (wpts !! i) IndexError in
      let* ws := collect wpts rest in
      Ok (w :: ws)
  end.

(** [self.getWaypoints(_entry, _exit)] *)
Definition getWaypoints (self : t) (_entry _exit : string)
    : result (list WayPoint.t) :=
  let* _entry_index :=
    of_option (Py.index _entry (_wptnames self))
      (NotOnAirwayError _entry (name self)) in
  let* _exit_index :=
    of_option (Py.index _exit (_wptnames self))
      (NotOnAirwayError _exit (name self)) in
  if (_exit_index <? _entry_index)%nat
  then collect (_wpts self) (Py.range_down _entry_index _exit_index)
  else collect (_wpts self) (Py.range_up _entry_index _exit_index).

End Route.

(** ** The database *)

(** The five files of a data directory, each as the lines that iterating
    over the open file yields. *)
Record navdata : Type := {
  wpNavAID_txt : list string;
  wpNavFIX_txt : list string;
  wpNavAPT_txt : list string;
  airports_dat : list string;
  wpNavRTE_txt : list string
}.

Module NavDB.
Section WithExternals.
Context {E : Externals}.

(** [next_id] is the first identity no instance of the database has. *)
Record t : Type := Make {
  airac : option AIRACcycle.t;
  _awys : gmap string Route.t;
  _wpts : gmap string (list WayPoint.t);
  _nonavaids : nat;
  _nofixes : nat;
  _norwys : nat;
  _noarpts : nat;
  _noawys : nat;
  next_id : N
}.

(** *** Loading *)

(** The body of [if "AIRAC" in l[1:6]: ...], which each of the five loops
    repeats with the file name [label] it reports. *)
Definition check_cycle (label : string) (airac : option AIRACcycle.t)
    (l : string) : result (option AIRACcycle.t) :=
  if Py.contains "AIRAC" (Py.slice 1 6 l) then
    match airac with
    | None =>
        let* c := AIRACcycle.__init__ l in
        Ok (Some c)
    | Some a =>
        let* c := AIRACcycle.__init__ l in
        if negb (AIRACcycle.__eq__ c a) then Raise (WrongAIRACcycleError label)
        else Ok (Some a)
    end
  else Ok airac.

(** [l[0] == ";"] *)
Definition is_comment (l : string) : result bool :=
  let* c := Py.item 0 l in
  Ok (Ascii.eqb c ";").

(** [wpts.setdefault(name, []).append(w)] *)
Definition setdefault_append (wpts : gmap string (list WayPoint.t))
    (name : string) (w : WayPoint.t) : gmap string (list WayPoint.t) :=
  <[name := default [] (wpts !! name) ++ [w]]> wpts.

(** What the four loops over point files carry from line to line. *)
Record points : Type := {
  p_airac : option AIRACcycle.t;
  p_wpts : gmap string (list WayPoint.t);
  p_nold : nat;
  p_next : N
}.

(** The data lines of the four point files. *)
Definition navaid_line (i : N) (l : string) : result WayPoint.t :=
  let name := Py.rstrip (Py.slice 24 28 l) in
  let* lat := PyFloat.float (Py.slice 33 43 l) in
  let* lon := PyFloat.float (Py.slice 43 54 l) in
  Ok (NavAid i name lat lon (Py.rstrip (Py.slice 29 33 l)) (Py.rstrip (Py.slice 0 24 l))).

Definition fix_line (i : N) (l : string) : result WayPoint.t :=
  let name := Py.rstrip (Py.slice 0 5 l) in
  let* lat := PyFloat.float (Py.slice 29 39 l) in
  let* lon := PyFloat.float (Py.slice_from 39 l) in
  Ok (WayPoint.__init__ i name lat lon).

Definition runway_line (i : N) (l : string) : result WayPoint.t :=
  let name := Py.strip (Py.slice 24 28 l +:+ "R" +:+ Py.slice 28 31 l) in
  let* lat := PyFloat.float (Py.slice 39 49 l) in
  let* lon := PyFloat.float (Py.slice 49 60 l) in
  Ok (Runway i name lat lon (Py.strip (Py.slice 0 24 l))).

Definition airport_line (i : N) (l : string) : result WayPoint.t :=
  let name := Py.slice 0 4 l in
  let* lat := PyFloat.float (Py.slice 4 14 l) in
  let* lon := PyFloat.float (Py.slice_from 14 l) in
  Ok (Airport i name lat lon "").

(** One iteration of [for l in f] over a point file. *)
Definition point_step (label : string) (data : N -> string -> result WayPoint.t)
    (st : points) (l : string) : result points :=
  let* comment := is_comment l in
  if comment then
    let* a := check_cycle label (p_airac st) l in
    Ok {| p_airac := a; p_wpts := p_wpts st; p_nold := p_nold st; p_next := p_next st |}
  else
    let* w := data (p_next st) l in
    Ok {| p_airac := p_airac st;
          p_wpts := setdefault_append (p_wpts st) (WayPoint.name w) w;
          p_nold := S (p_nold st);
          p_next := N.succ (p_next st) |}.

Fixpoint point_loop (label : string) (data : N -> string -> result WayPoint.t)
    (st : points) (f : list string) : result points :=
  match f with
  | [] => Ok st
  | l :: f' =>
      let* st' := point_step label data st l in
      point_loop label data st' f'
  end.

(** What the loop over the airways file carries. *)
Record airways : Type := {
  a_airac : option AIRACcycle.t;
  a_awys : gmap string Route.t;
  a_cawy : option Route.t;
  a_nold : nat;
  a_next : N
}.

(** A data line of the airways file, after [l.split()] gave five fields. *)
Definition airway_line (st : airways) (name wptname lats lons : string)
    : result airways :=
  let cawy := match a_cawy st with
              | Some r => r
              | None => Route.__init__ name
              end in
  if String.eqb (Route.name cawy) name then
    let* lat := PyFloat.float lats in
    let* lon := PyFloat.float lons in
    Ok {| a_airac := a_airac st; a_awys := a_awys st;
          a_cawy := Some (Route.addWaypoint cawy (WayPoint.__init__ (a_next st) wptname lat lon));
          a_nold := a_nold st; a_next := N.succ (a_next st) |}
  else
    let awys := <[Route.name cawy := cawy]> (a_awys st) in
    let* lat := PyFloat.float lats in
    let* lon := PyFloat.float lons in
    Ok {| a_airac := a_airac st; a_awys := awys;
          a_cawy := Some (Route.addWaypoint (Route.__init__ name)
                            (WayPoint.__init__ (a_next st) wptname lat lon));
          a_nold := S (a_nold st); a_next := N.succ (a_next st) |}.

Definition airway_step (st : airways) (l : string) : result airways :=
  let* comment := is_comment l in
  if comment then
    let* a := check_cycle "wpNavRTE.txt" (a_airac st) l in
    Ok {| a_airac := a; a_awys := a_awys st; a_cawy := a_cawy st;
          a_nold := a_nold st; a_next := a_next st |}
  else
    match Py.split l with
    | [name; nr; wptname; lats; lons] => airway_line st name wptname lats lons
    | _ => Raise ValueError
    end.

Fixpoint airway_loop (st : airways) (f : list string) : result airways :=
  match f with
  | [] => Ok st
  | l :: f' =>
      let* st' := airway_step st l in
      airway_loop st' f'
  end.

(** The [else] of the loop: [nold += 1; awys[cawy.name] = cawy], where
    reading [.name] of [None] is an [AttributeError]. *)
Definition airway_flush (st : airways) : result airways :=
  match a_cawy st with
  | Some cawy =>
      Ok {| a_airac := a_airac st;
            a_awys := <[Route.name cawy := cawy]> (a_awys st);
            a_cawy := a_cawy st; a_nold := S (a_nold st); a_next := a_next st |}
  | None => Raise AttributeError
  end.

Definition load_airways (st : airways) (f : list string) : result airways :=
  let* st' := airway_loop st f in
  airway_flush st'.

(** [self._load(datadir)], with the directory as its five files. *)
Definition _load (self : t) (d : navdata) : result t :=
  let st0 := {| p_airac := airac self; p_wpts := ∅; p_nold := 0; p_next := next_id self |} in
  let* st1 := point_loop "wpNavAID.txt" navaid_line st0 (wpNavAID_txt d) in
  let nonavaids := p_nold st1 in
  let* st2 := point_loop "wpNavFIX.txt" fix_line
                {| p_airac := p_airac st1; p_wpts := p_wpts st1; p_nold := 0;
                   p_next := p_next st1 |} (wpNavFIX_txt d) in
  let nofixes := p_nold st2 in
  (* the loop over wpNavAPT.txt reports the name of the fix file *)
  let* st3 := point_loop "wpNavFIX.txt" runway_line
                {| p_airac := p_airac st2; p_wpts := p_wpts st2; p_nold := 0;
                   p_next := p_next st2 |} (wpNavAPT_txt d) in
  let norwys := p_nold st3 in
  let* st4 := point_loop "airports.dat" airport_line
                {| p_airac := p_airac st3; p_wpts := p_wpts st3; p_nold := 0;
                   p_next := p_next st3 |} (airports_dat d) in
  let noarpts := p_nold st4 in
  let* st5 := load_airways
                {| a_airac := p_airac st4; a_awys := ∅; a_cawy := None;
                   a_nold := 0; a_next := p_next st4 |} (wpNavRTE_txt d) in
  Ok {| airac := a_airac st5; _awys := a_awys st5; _wpts := p_wpts st4;
        _nonavaids := nonavaids; _nofixes := nofixes; _norwys := norwys;
        _noarpts := noarpts; _noawys := a_nold st5; next_id := a_next st5 |}.

(** [NavDB(datadir)] *)
Definition __init__ (d : navdata) : result t :=
  _load {| airac := None; _awys := ∅; _wpts := ∅; _nonavaids := 0; _nofixes := 0;
           _norwys := 0; _noarpts := 0; _noawys := 0; next_id := 0 |} d.

(** [self.reload(datadir)] *)
Definition reload (self : t) (d : navdata) : result t :=
  _load {| airac := None; _awys := ∅; _wpts := ∅;
           _nonavaids := _nonavaids self; _nofixes := _nofixes self;
           _norwys := _norwys self; _noarpts := _noarpts self;
           _noawys := _noawys self; next_id := next_id self |} d.

(** *** Resolving a name *)

(** [min(l)] on floats.  Python holds the first item and replaces the item
    it holds by the next one when [next < held], a comparison that is false
    as soon as one side is NaN.  What it returns is an item of the list, the
    object itself, so it is given here by its position and its value:
    [min_from i m k l] is the item held after [l], whose first item is at
    position [k], when [m] at position [i] is held before. *)
Fixpoint min_from (i : nat) (m : float) (k : nat) (l : list float) : nat * float :=
  match l with
  | [] => (i, m)
  | x :: l' =>
      if (x <? m)%float then min_from k x (S k) l' else min_from i m (S k) l'
  end.

Definition py_min (l : list float) : result (nat * float) :=
  match l with
  | [] => Raise ValueError
  | x :: l' => Ok (min_from 0 x 1 l')
  end.

(** [l.index(x)] where [x] is the item of [l] at position [i]: the first
    position whose item is [x] itself or compares equal to it.  A NaN is
    equal to no float, itself included, and is found by identity only.
    [index_from k i x l] searches [l], whose first item is at position
    [k]. *)
Fixpoint index_from (k i : nat) (x : float) (l : list float) : option nat :=
  match l with
  | [] => None
  | y :: l' =>
      if (k =? i)%nat || (y =? x)%float then Some k
      else index_from (S k) i x l'
  end.

Definition py_index (m : nat * float) (l : list float) : result nat :=
  of_option (index_from 0 (fst m) (snd m) l) ValueError.

(** [[w.distTo(_close_wpt) for w in wpt_pot]] *)
Fixpoint distances (wpt_pot : list WayPoint.t) (_close_wpt : option WayPoint.t)
    : result (list float) :=
  match wpt_pot with
  | [] => Ok []
  | w :: rest =>
      let* d := WayPoint.distTo w _close_wpt in
      let* ds := distances rest _close_wpt in
      Ok (d :: ds)
  end.

(** [self.getClosest(_name, _close_wpt)] *)
Definition getClosest (self : t) (_name : string) (_close_wpt : option WayPoint.t)
    : result WayPoint.t :=
  let* wpt_pot := of_option (_wpts self !! _name) (ElementNotFoundError _name) in
  match wpt_pot with
  | [w] => Ok w
  | _ =>
      match _close_wpt with
      | None => Raise (ElementAmbiguousError _name)
      | Some _ =>
          let* wpt_dst := distances wpt_pot _close_wpt in
          let* m := py_min wpt_dst in
          let* k := py_index m wpt_dst in
          of_option (wpt_pot !! k) IndexError
      end
  end.

(** *** Classifying a token *)

Definition no_dir (_elem : string) : nat :=
  Py.count "N" _elem + Py.count "S" _elem + Py.count "W" _elem + Py.count "E" _elem.

Definition mem_nat (n : nat) (l : list nat) : bool := existsb (Nat.eqb n) l.

(** [self.getFPLelemtype(_elem)]; [None] is Python's, returned when the end
    of the function is reached. *)
Definition getFPLelemtype (self : t) (_elem : string) : option string :=
  let no_aph := Py.count_c Py.isalpha_c _elem in
  let no_dig := Py.count_c Py.isdigit_c _elem in
  let no_dir := no_dir _elem in
  let no_tot := String.length _elem in
  if String.eqb _elem "DCT" then Some "dct"
  else if (no_dir =? 2)%nat && mem_nat no_tot [7; 11; 12; 15; 16]%nat
          && (5 <=? no_dig)%nat then Some "ufx"
  else if (no_tot =? 5)%nat && Py.char_is 0 _elem "H" && (no_dig =? 4)%nat
       then Some "ufx"
  else if (no_tot =? 4)%nat && Py.contains "NAT" (Py.slice 0 3 _elem) then
         (if match String.get 3 _elem with
             | Some c => Py.isalpha_c c
             | None => false
             end
          then Some "nat" else None)
  else if (no_tot =? 4)%nat && (no_dig =? 0)%nat then Some "apt"
  else if mem_nat no_tot [7; 8]%nat && Py.char_is 4 _elem "R"
          && Py.isdigit (Py.slice 5 7 _elem) then Some "rwy"
  else if (no_aph =? 1)%nat && (4 <=? no_dig)%nat then Some "fix"
  else if Py.isalpha _elem && (no_tot <? 6)%nat then Some "fix"
  else if bool_decide (is_Some (_awys self !! _elem)) then Some "awy"
  else if bool_decide (is_Some (_wpts self !! _elem)) then Some "fix"
  else Some "prc".

(** [t == s] for the result [t] of the classifier. *)
Definition is_type (t : option string) (s : string) : bool :=
  match t with
  | Some x => String.eqb x s
  | None => false
  end.

(** *** Expanding a flight plan *)

(** The variables of the resolution loop: [wpts], [last_wpt], [apts_found],
    and the next free identity. *)
Record expansion : Type := {
  e_wpts : list WayPoint.t;
  e_last : option WayPoint.t;
  e_apts : nat;
  e_next : N
}.

(** [if wpt: wpts.append(wpt); last_wpt = wpt] *)
Definition append_if (st : expansion) (wpt : option WayPoint.t) : expansion :=
  match wpt with
  | Some w => {| e_wpts := e_wpts st ++ [w]; e_last := Some w;
                 e_apts := e_apts st; e_next := e_next st |}
  | None => st
  end.

(** [not elem.replace('/','').replace('.','').isalnum() or elem.count("/") > 1] *)
Definition illegal (elem : string) : bool :=
  negb (Py.isalnum (Py.remove "." (Py.remove "/" elem)))
  || (1 <? Py.count "/" elem)%nat.

Fixpoint validate (fpl_arr : list string) : result unit :=
  match fpl_arr with
  | [] => Ok tt
  | elem :: rest =>
      if illegal elem then Raise (IllegalCharacterError elem) else validate rest
  end.

(** [self._wpts[key][0]] *)
Definition first_candidate (self : t) (key : string) : result WayPoint.t :=
  let* l := of_option (_wpts self !! key) (KeyError key) in
  of_option (head l) IndexError.

(** [fpl_arr[i]] *)
Definition token (fpl_arr : list string) (i : nat) : result string :=
  of_option (fpl_arr !! i) IndexError.

Definition expand_awy (self : t) (fpl_arr : list string) (i : nat)
    (st : expansion) : result expansion :=
  let* awy_start := token fpl_arr (i - 1) in
  let* awy_end := token fpl_arr (i + 1) in
  let* awy_name := token fpl_arr i in
  let* awy := of_option (_awys self !! awy_name) (ElementNotFoundError awy_name) in
  let* awy_wpts := Route.getWaypoints awy awy_start awy_end in
  let* last := of_option (last awy_wpts) IndexError in
  Ok {| e_wpts := e_wpts st ++ tail awy_wpts; e_last := Some last;
        e_apts := e_apts st; e_next := e_next st |}.

Definition expand_prc (self : t) (fpl_arr : list string) (i : nat)
    (st : expansion) : result expansion :=
  let* prev := token fpl_arr (i - 1) in
  let pelem := getFPLelemtype self prev in
  let* next := token fpl_arr (i + 1) in
  let nelem := getFPLelemtype self next in
  (* it's a SID *)
  let* sid :=
    if is_type nelem "fix" && (is_type pelem "rwy" || is_type pelem "arp") then
      let* ref := first_candidate self (Py.slice 0 4 prev) in
      let* w := getClosest self next (Some ref) in
      Ok (Some w)
    else Ok None in
  (* it's a STAR *)
  let* wpt :=
    if is_type pelem "fix" && (is_type nelem "rwy" || is_type nelem "arp") then
      let* ref := first_candidate self (Py.slice 0 4 next) in
      let* w := getClosest self prev (Some ref) in
      Ok (if WayPoint.eqb_opt w (e_last st) then None else Some w)
    else Ok sid in
  Ok (append_if st wpt).

Definition expand_apt (self : t) (elem : string) (st : expansion)
    : result expansion :=
  if (e_apts st <? 2)%nat then
    let* arp := try_except (first_candidate self elem) (ElementNotFoundError elem) in
    Ok {| e_wpts := e_wpts st ++ [arp]; e_last := Some arp;
          e_apts := S (e_apts st); e_next := e_next st |}
  else Ok st.

(** The literal [0.1]: the binary64 nearest to one tenth. *)
Definition proximity : float := 0x1.999999999999ap-4%float.

Definition expand_ufx (elem : string) (st : expansion) : result expansion :=
  let* wpt := UnnamedWaypoint.__init__ (e_next st) elem in
  let st' := {| e_wpts := e_wpts st; e_last := e_last st; e_apts := e_apts st;
                e_next := N.succ (e_next st) |} in
  let* d := WayPoint.distTo wpt (e_last st) in
  Ok (append_if st' (if (d <? proximity)%float then None else Some wpt)).

Definition expand_fix (self : t) (elem : string) (st : expansion)
    : result expansion :=
  let* wpt := getClosest self elem (e_last st) in
  Ok (append_if st (if WayPoint.eqb_opt wpt (e_last st) then None else Some wpt)).

(** The body of [for i in range(fpl_sz)]. *)
Definition expand_step (self : t) (fpl_arr : list string) (i : nat)
    (st : expansion) : result expansion :=
  let fpl_sz := length fpl_arr in
  let* elem := token fpl_arr i in
  let elem_type := getFPLelemtype self elem in
  let neighbours := (1 <=? i)%nat && (i + 1 <? fpl_sz)%nat in
  if is_type elem_type "awy" && neighbours then expand_awy self fpl_arr i st
  else if is_type elem_type "prc" && neighbours then expand_prc self fpl_arr i st
  else if is_type elem_type "apt" || is_type elem_type "rwy"
       then expand_apt self elem st
  else if is_type elem_type "ufx" then expand_ufx elem st
  else if is_type elem_type "fix" then expand_fix self elem st
  else Ok st.

Fixpoint expand_loop (self : t) (fpl_arr : list string) (indices : list nat)
    (st : expansion) : result expansion :=
  match indices with
  | [] => Ok st
  | i :: rest =>
      let* st' := expand_step self fpl_arr i st in
      expand_loop self fpl_arr rest st'
  end.

(** [[copy.copy(w) for w in wpts]] *)
Fixpoint copies (i : N) (wpts : list WayPoint.t) : list WayPoint.t :=
  match wpts with
  | [] => []
  | w :: rest => WayPoint.copy i w :: copies (N.succ i) rest
  end.

Definition expand_init (self : t) : expansion :=
  {| e_wpts := []; e_last := None; e_apts := 0; e_next := next_id self |}.

(** [self.expandFPL(_fpl)] *)
Definition expandFPL (self : t) (_fpl : string) : result (list WayPoint.t) :=
  let fpl_arr := Py.split _fpl in
  let fpl_sz := length fpl_arr in
  let* _ := validate fpl_arr in
  let* st := expand_loop self fpl_arr (seq 0 fpl_sz) (expand_init self) in
  Ok (copies (e_next st) (e_wpts st)).

End WithExternals.
End NavDB.

(** ** A stand-in for the external collaborators

    Used to run the program on concrete inputs: the distance is the taxicab
    distance of the coordinates, computed in binary64 and so NaN when a
    coordinate is, dates are kept as their text, and beyond plain decimal
    literals [float] knows [nan] only. *)

Module Standin.

Definition taxicab (lat1 lon1 lat2 lon2 : float) : float :=
  (abs (lat1 - lat2) + abs (lon1 - lon2))%float.

Definition float_nan (s : string) : option float :=
  if String.eqb (Py.strip_number s) "nan" then Some nan else None.

#[export] Instance externals : Externals := {|
  geod_Inverse_s12 := taxicab;
  float_rest := float_nan;
  datetime := string;
  strptime := fun s _ => Some s;
  strftime := fun d _ => d;
  str_upper := fun s => s
|}.

End Standin.

(** ** Example data *)

Module Example.

(** A database before anything is loaded into it. *)
Definition blank : @NavDB.t Standin.externals :=
  NavDB.Make None ∅ ∅ 0 0 0 0 0 0.

(** A small data directory: two airports, a fix that two places share, an
    airway of four fixes. *)
Definition files : navdata := {|
  wpNavAID_txt := [";AIRAC Cycle : 2011 (08/Oct/2020 - 04/Nov/2020)"];
  wpNavFIX_txt := ["BOGNA                        51.702500  -1.358333";
                   "BOGNA                        10.000000  20.000000";
                   "NATO                         40.000000   4.000000"];
  wpNavAPT_txt := [];
  airports_dat := ["EGLL 51.477500  -0.461389"; "EGKK 51.148056  -0.190278"];
  wpNavRTE_txt := ["L9 001 ALPHA 50.0 1.0"; "L9 002 BRAVO 50.5 1.5";
                   "L9 003 CHARL 51.0 2.0"; "L9 004 DELTA 51.5 2.5"]
|}.

Definition db : @NavDB.t Standin.externals :=
  match NavDB.__init__ files with
  | Ok d => d
  | Raise _ => blank
  end.

(** Directories whose header lines disagree on the cycle: the navaid file
    against the runway file, and against the fix file. *)
Definition mismatch_apt : navdata := {|
  wpNavAID_txt := [";AIRAC Cycle : 2011 (08/Oct/2020 - 04/Nov/2020)"];
  wpNavFIX_txt := [];
  wpNavAPT_txt := [";AIRAC Cycle : 2012 (05/Nov/2020 - 02/Dec/2020)"];
  airports_dat := [];
  wpNavRTE_txt := []
|}.

(** A directory of empty files. *)
Definition no_lines : navdata := {|
  wpNavAID_txt := []; wpNavFIX_txt := []; wpNavAPT_txt := [];
  airports_dat := []; wpNavRTE_txt := []
|}.

(** A fix file that lists a name twice, first with a latitude that is not
    a number, and the database loaded from it. *)
Definition nan_files : navdata := {|
  wpNavAID_txt := [";AIRAC Cycle : 2011 (08/Oct/2020 - 04/Nov/2020)"];
  wpNavFIX_txt := ["TWINS                        nan         21.000000";
                   "TWINS                        10.000000   21.000000"];
  wpNavAPT_txt := [];
  airports_dat := [];
  wpNavRTE_txt := ["L9 001 ALPHA 50.0 1.0"; "L9 002 BRAVO 50.5 1.5"]
|}.

Definition twins : @NavDB.t Standin.externals :=
  match NavDB.__init__ nan_files with
  | Ok d => d
  | Raise _ => blank
  end.

(** A reference point near the second BOGNA, and four waypoints. *)
Definition ref : WayPoint.t := WayPoint.__init__ 100 "REF" 10 21.
Definition wa : WayPoint.t := WayPoint.__init__ 101 "A" 1 1.
Definition wb : WayPoint.t := WayPoint.__init__ 102 "B" 2 2.
Definition wc : WayPoint.t := WayPoint.__init__ 103 "C" 3 3.
Definition wd : WayPoint.t := WayPoint.__init__ 104 "D" 4 4.

End Example.

(** * Properties *)

(** ** The token classifier *)

Section Classifier.
Context {E : Externals}.
Implicit Types (db : NavDB.t) (elem : string).

(** The eight roles, as the strings the classifier returns. *)
Definition roles : list string :=
  ["dct"; "ufx"; "nat"; "apt"; "rwy"; "fix"; "awy"; "prc"].

Lemma alpha_not_digit (c : ascii) :
  Py.isalpha_c c = true -> Py.isdigit_c c = false.
Proof.
  destruct c as [[] [] [] [] [] [] [] []]; vm_compute; congruence.
Qed.

Lemma alpha_no_digits (s : string) :
  Py.forall_c Py.isalpha_c s = true -> Py.count_c Py.isdigit_c s = 0%nat.
Proof.
  induction s as [|c s IH]; simpl; [reflexivity|].
  intros [Hc Hs]%andb_prop.
  rewrite (alpha_not_digit c Hc), (IH Hs). reflexivity.
Qed.

Lemma contains_NAT (x : string) :
  String.length x = 3%nat -> Py.contains "NAT" x = true -> x = "NAT".
Proof.
  destruct x as [|a [|b [|c [|d x]]]]; try discriminate. intros _.
  cbn [Py.contains String.prefix].
  repeat match goal with
         | |- context [ascii_dec ?u ?v] => destruct (ascii_dec u v)
         end; cbn; try discriminate.
  all: intros _; congruence.
Qed.

(** The classifier answers with a role or with [None], and with [None]
    only in the branch of the NAT designators. *)
Lemma getFPLelemtype_cases db elem :
  (exists r, r ∈ roles /\ NavDB.getFPLelemtype db elem = Some r)
  \/ (NavDB.getFPLelemtype db elem = None
      /\ String.length elem = 4%nat /\ Py.slice 0 3 elem = "NAT").
Proof.
  unfold NavDB.getFPLelemtype, roles.
  repeat match goal with
         | |- context [if ?b then _ else _] => destruct b eqn:?
         end;
    try (left; eexists; split; [|reflexivity]; set_solver).
  right. split; [reflexivity|].
  match goal with
  | H : (_ && _) = true |- _ => apply andb_prop in H as [Hlen Hnat]
  end.
  apply Nat.eqb_eq in Hlen. split; [exact Hlen|].
  apply contains_NAT; [|exact Hnat].
  destruct elem as [|a [|b [|c [|d [|e elem]]]]]; try discriminate. reflexivity.
Qed.

(** C4 (the code at the failing input): the token "NAT1" has length 4 and
    begins with "NAT", its fourth character is not alphabetic, and the
    classifier returns [None] for it, not the procedure role, whatever the
    database holds. *)
Theorem getFPLelemtype_NAT1_is_None db :
  NavDB.getFPLelemtype db "NAT1" = None.
Proof. reflexivity. Qed.

(** C5, amended: a token of four alphabetic characters is classified
    whatever the database holds, so also when the token is the name of a
    point of the database: as an airport when it does not begin with "NAT",
    and as a NAT track when it does, that is when it is "NAT" followed by a
    letter. *)
Theorem four_letters_is_airport db elem :
  String.length elem = 4%nat ->
  Py.isalpha elem = true ->
  (Py.slice 0 3 elem <> "NAT" -> NavDB.getFPLelemtype db elem = Some "apt")
  /\ (Py.slice 0 3 elem = "NAT" -> NavDB.getFPLelemtype db elem = Some "nat").
Proof.
  intros Hlen Halpha.
  apply andb_prop in Halpha as [_ Halpha]. split; intros Hnat.
  - unfold NavDB.getFPLelemtype.
    rewrite Hlen, (alpha_no_digits elem Halpha).
    destruct (String.eqb_spec elem "DCT") as [->|_]; [discriminate|].
    destruct (Py.contains "NAT" (Py.slice 0 3 elem)) eqn:Hc.
    + exfalso. apply Hnat, contains_NAT; [|exact Hc].
      destruct elem as [|a [|b [|c [|d [|e elem]]]]]; try discriminate. reflexivity.
    + cbn. rewrite !andb_false_r. reflexivity.
  - destruct elem as [|a [|b [|c [|d [|e elem]]]]]; try discriminate.
    injection Hnat as -> -> ->.
    assert (Hd : Py.isalpha_c d = true).
    { cbn in Halpha. apply andb_prop in Halpha as [_ Halpha].
      apply andb_prop in Halpha as [_ Halpha].
      apply andb_prop in Halpha as [_ Halpha].
      apply andb_prop in Halpha as [Halpha _]. exact Halpha. }
    revert Hd. destruct d as [[] [] [] [] [] [] [] []]; vm_compute; congruence.
Qed.

End Classifier.

(** ** The unnamed-waypoint decoder *)

Section Decoder.
Context {E : Externals}.

(** C7: the decoder on the three tokens of the specification.  The
    Honeywell token gives a point whose latitude is within 1e-9 of 12.575
    and whose longitude is within 1e-4 of 167.9983; "H0123" gives latitude
    1.5 and longitude -23 exactly; "95N200E" raises the out-of-bounds
    error. *)
Theorem decoder_examples (i : N) :
  (exists w qlat qlon,
      UnnamedWaypoint.__init__ i "N1234.5/E16759.9" = Ok w
      /\ PyFloat.to_Q (WayPoint.lat w) = Some qlat
      /\ PyFloat.to_Q (WayPoint.lon w) = Some qlon
      /\ (Qabs (qlat - (12575 # 1000)) < 1 # 1000000000)%Q
      /\ (Qabs (qlon - (1679983 # 10000)) < 1 # 10000)%Q)
  /\ UnnamedWaypoint.__init__ i "H0123"
     = Ok {| WayPoint.id := i; WayPoint.name := "H0123";
             WayPoint.lat := 1.5; WayPoint.lon := -23;
             WayPoint.type := "uWPT"; WayPoint.descr := "" |}
  /\ UnnamedWaypoint.__init__ i "95N200E" = Raise (UnnamedOutOfBounds "95N200E").
Proof.
  split; [|split; reflexivity].
  eexists _, _, _. split; [reflexivity|].
  split; [vm_compute; reflexivity|].
  split; [vm_compute; reflexivity|].
  split; reflexivity.
Qed.

End Decoder.

(** ** Airway segments *)

Section Segments.
Implicit Types (r : Route.t) (names : list string) (wpts : list WayPoint.t).

(** [x] occurs in [l] at [i] and not before. *)
Definition first_at (x : string) (l : list string) (i : nat) : Prop :=
  l !! i = Some x /\ forall k, (k < i)%nat -> l !! k <> Some x.

Lemma index_first_at x names i :
  Py.index x names = Some i <-> first_at x names i.
Proof.
  revert i. induction names as [|y names IH]; intros i; cbn [Py.index].
  - split; [discriminate|]. intros [H _]. destruct i; discriminate.
  - destruct (String.eqb_spec y x) as [->|Hne].
    + split.
      * intros [= <-]. split; [reflexivity|]. intros k Hk. lia.
      * intros [Hi Hfirst]. destruct i as [|i]; [reflexivity|].
        exfalso. apply (Hfirst 0%nat); [lia|reflexivity].
    + destruct (Py.index x names) as [i'|] eqn:Hidx; cbn [option_map].
      * split.
        -- intros [= <-]. destruct (proj1 (IH i') eq_refl) as [Hi Hfirst].
           split; [exact Hi|]. intros [|k] Hk; cbn; [congruence|].
           apply Hfirst. lia.
        -- intros [Hi Hfirst]. destruct i as [|i]; cbn in Hi; [congruence|].
           f_equal. assert (Hi' : first_at x names i).
           { split; [exact Hi|]. intros k Hk. apply (Hfirst (S k)). lia. }
           apply IH in Hi'. congruence.
      * split; [discriminate|]. intros [Hi Hfirst].
        destruct i as [|i]; cbn in Hi; [congruence|].
        assert (Hi' : first_at x names i).
        { split; [exact Hi|]. intros k Hk. apply (Hfirst (S k)). lia. }
        apply IH in Hi'. discriminate.
Qed.

Lemma index_is_Some x names :
  x ∈ names -> exists i, Py.index x names = Some i.
Proof.
  induction 1 as [x names|x y names _ [i IH]]; cbn [Py.index].
  - rewrite String.eqb_refl. eauto.
  - destruct (String.eqb y x); [eauto|]. rewrite IH. cbn. eauto.
Qed.

Lemma collect_lookup wpts (indices : list nat) :
  Forall (fun i => i < length wpts)%nat indices ->
  exists seg,
    Route.collect wpts indices = Ok seg
    /\ length seg = length indices
    /\ forall k i, indices !! k = Some i -> seg !! k = wpts !! i.
Proof.
  induction 1 as [|i indices Hi _ (seg & Hseg & Hlen & Hlook)]; cbn [Route.collect].
  - exists []. split; [reflexivity|]. split; [reflexivity|]. intros k i; discriminate.
  - destruct (lookup_lt_is_Some_2 wpts i Hi) as [w Hw].
    rewrite Hw, Hseg. cbn. exists (w :: seg).
    split; [reflexivity|]. split; [cbn; congruence|].
    intros [|k] j; cbn; [intros [= <-]; congruence|]. apply Hlook.
Qed.

Lemma range_up_lookup (a b k : nat) :
  (k < b - a)%nat -> Py.range_up a b !! k = Some (a + k)%nat.
Proof. intros Hk. unfold Py.range_up. apply lookup_seq. split; [reflexivity|exact Hk]. Qed.

Lemma range_down_lookup (a b k : nat) :
  (k < a - b)%nat -> Py.range_down a b !! k = Some (a - k)%nat.
Proof.
  intros Hk. unfold Py.range_down. rewrite list_lookup_fmap.
  rewrite (proj2 (lookup_seq 0 (a - b) k k)); [reflexivity|]. split; [reflexivity|exact Hk].
Qed.

(** The route [A, B, C, D] of the specification, built as the loader builds
    a route. *)
Definition route_ABCD (a b c d : WayPoint.t) : Route.t :=
  Route.addWaypoint (Route.addWaypoint (Route.addWaypoint (Route.addWaypoint
    (Route.__init__ "R") a) b) c) d.

(** C3: on a route whose two lists are aligned, with [entry] first at
    index [i] and [exit] first at index [j] of the names, the segment has
    [|i - j|] waypoints and its [k]-th is the waypoint at index [i - k] when
    [j < i] and at [i + k] otherwise: from the entry up to, and without,
    the exit.  On a route A, B, C, D: A to D gives A, B, C; D to A gives D,
    C, B; and an entry equal to the exit gives the empty sequence. *)
Theorem getWaypoints_segment :
  (forall r entry exit i j,
      length (Route._wpts r) = length (Route._wptnames r) ->
      first_at entry (Route._wptnames r) i ->
      first_at exit (Route._wptnames r) j ->
      exists seg,
        Route.getWaypoints r entry exit = Ok seg
        /\ length seg = (if (j <? i)%nat then i - j else j - i)%nat
        /\ forall k, (k < length seg)%nat ->
             seg !! k = Route._wpts r !! (if (j <? i)%nat then i - k else i + k)%nat)
  /\ (forall a b c d,
        WayPoint.name a = "A" -> WayPoint.name b = "B" ->
        WayPoint.name c = "C" -> WayPoint.name d = "D" ->
        Route.getWaypoints (route_ABCD a b c d) "A" "D" = Ok [a; b; c]
        /\ Route.getWaypoints (route_ABCD a b c d) "D" "A" = Ok [d; c; b])
  /\ (forall r entry,
        entry ∈ Route._wptnames r ->
        Route.getWaypoints r entry entry = Ok []).
Proof.
  split; [|split].
  - intros r entry exit i j Hlen [Hi Hfi] [Hj Hfj].
    unfold Route.getWaypoints.
    rewrite (proj2 (index_first_at entry _ i) (conj Hi Hfi)).
    rewrite (proj2 (index_first_at exit _ j) (conj Hj Hfj)).
    cbn [of_option bind].
    apply lookup_lt_Some in Hi, Hj. rewrite <- Hlen in Hi, Hj.
    destruct (j <? i)%nat eqn:Hji.
    + apply Nat.ltb_lt in Hji.
      destruct (collect_lookup (Route._wpts r) (Py.range_down i j)) as (seg & -> & Hl & Hk).
      { apply Forall_forall. intros x Hx. unfold Py.range_down in Hx.
        apply list_elem_of_fmap in Hx as (k & -> & _). lia. }
      exists seg. split; [reflexivity|].
      unfold Py.range_down in Hl. rewrite length_fmap, length_seq in Hl.
      split; [exact Hl|]. intros k Hklt. apply Hk, range_down_lookup. lia.
    + apply Nat.ltb_ge in Hji.
      destruct (collect_lookup (Route._wpts r) (Py.range_up i j)) as (seg & -> & Hl & Hk).
      { apply Forall_forall. intros x Hx. unfold Py.range_up in Hx.
        apply elem_of_seq in Hx. lia. }
      exists seg. split; [reflexivity|].
      unfold Py.range_up in Hl. rewrite length_seq in Hl.
      split; [exact Hl|]. intros k Hklt. apply Hk, range_up_lookup. lia.
  - intros a b c d Ha Hb Hc Hd. unfold route_ABCD, Route.getWaypoints.
    cbn. rewrite Ha, Hb, Hc, Hd. split; reflexivity.
  - intros r entry [i Hi]%index_is_Some. unfold Route.getWaypoints.
    rewrite Hi. cbn [of_option bind]. rewrite Nat.ltb_irrefl.
    unfold Py.range_up. rewrite Nat.sub_diag. reflexivity.
Qed.

End Segments.

(** ** The order of binary64 *)

Section FloatOrder.
Import SpecFloat.

Lemma SFcompare_antisym (a b : spec_float) (c : comparison) :
  SFcompare a b = Some c -> SFcompare b a = Some (CompOpp c).
Proof.
  destruct a as [sa|sa| |sa ma ea], b as [sb|sb| |sb mb eb]; cbn;
    try discriminate; try destruct sa; try destruct sb;
    intros [= <-]; try reflexivity.
  all: rewrite (Z.compare_antisym ea eb), !Pos.compare_cont_spec,
         (Pos.compare_antisym ma mb); cbn.
  all: destruct (ea ?= eb)%Z; cbn; try reflexivity.
  all: destruct (ma ?= mb)%positive; reflexivity.
Qed.

Lemma SFcompare_total (a b : spec_float) :
  a <> S754_nan -> b <> S754_nan -> exists c, SFcompare a b = Some c.
Proof.
  destruct a as [sa|sa| |sa ma ea], b as [sb|sb| |sb mb eb]; cbn;
    try congruence; eauto.
Qed.

Lemma SFcompare_not_nan (a b : spec_float) (c : comparison) :
  SFcompare a b = Some c -> a <> S754_nan /\ b <> S754_nan.
Proof.
  destruct a as [sa|sa| |sa ma ea], b as [sb|sb| |sb mb eb]; cbn;
    try discriminate; intros _; split; discriminate.
Qed.

Lemma SFcompare_refl (a : spec_float) :
  a <> S754_nan -> SFcompare a a = Some Eq.
Proof.
  destruct a as [sa|sa| |sa ma ea]; cbn; try congruence; intros _.
  - destruct sa; reflexivity.
  - rewrite Z.compare_refl, Pos.compare_cont_refl. destruct sa; reflexivity.
Qed.

Ltac compare_cases :=
  rewrite ?Pos.compare_cont_spec in *;
  repeat match goal with
    | H : context [(?x ?= ?y)%Z] |- _ => destruct (Z.compare_spec x y)
    | |- context [(?x ?= ?y)%Z] => destruct (Z.compare_spec x y)
    | H : context [(?x ?= ?y)%positive] |- _ => destruct (Pos.compare_spec x y)
    | |- context [(?x ?= ?y)%positive] => destruct (Pos.compare_spec x y)
    end;
  cbn in *; subst; try discriminate; try reflexivity; try lia.

Lemma SFcompare_trans (a b c : spec_float) (r : comparison) :
  SFcompare a b = Some r -> SFcompare b c = Some r -> SFcompare a c = Some r.
Proof.
  destruct a as [sa|sa| |sa ma ea], b as [sb|sb| |sb mb eb],
    c as [sc|sc| |sc mc ec]; cbn; try discriminate;
    try destruct sa; try destruct sb; try destruct sc; cbn;
    intros H1 H2; try discriminate;
    apply (f_equal (default Eq)) in H1, H2; cbn in H1, H2; subst r;
    try discriminate; try reflexivity; f_equal; compare_cases.
Qed.

Lemma SFcompare_Eq_l (a b c : spec_float) (r : comparison) :
  SFcompare a b = Some Eq -> SFcompare b c = Some r -> SFcompare a c = Some r.
Proof.
  destruct a as [sa|sa| |sa ma ea], b as [sb|sb| |sb mb eb],
    c as [sc|sc| |sc mc ec]; cbn; try discriminate;
    try destruct sa; try destruct sb; try destruct sc; cbn;
    intros H1 H2; try discriminate;
    apply (f_equal (default Eq)) in H1, H2; cbn in H1, H2; subst r;
    try discriminate; try reflexivity; f_equal; compare_cases.
Qed.

Lemma SFcompare_Eq_r (a b c : spec_float) (r : comparison) :
  SFcompare a b = Some r -> SFcompare b c = Some Eq -> SFcompare a c = Some r.
Proof.
  intros Hab%SFcompare_antisym Hbc%SFcompare_antisym.
  rewrite <- (CompOpp_involutive r). apply SFcompare_antisym.
  exact (SFcompare_Eq_l _ _ _ _ Hbc Hab).
Qed.

(** The comparison of two floats. *)
Definition float_compare (x y : float) : option comparison :=
  SFcompare (Prim2SF x) (Prim2SF y).

Lemma float_ltb_compare (x y : float) :
  (x <? y)%float = true <-> float_compare x y = Some Lt.
Proof.
  rewrite FloatAxioms.ltb_spec. unfold SFltb, float_compare.
  destruct (SFcompare _ _) as [[]|]; split; congruence.
Qed.

Lemma float_eqb_compare (x y : float) :
  (x =? y)%float = true <-> float_compare x y = Some Eq.
Proof.
  rewrite FloatAxioms.eqb_spec. unfold SFeqb, float_compare.
  destruct (SFcompare _ _) as [[]|]; split; congruence.
Qed.

Lemma float_leb_compare (x y : float) :
  (x <=? y)%float = true
  <-> float_compare x y = Some Lt \/ float_compare x y = Some Eq.
Proof.
  rewrite FloatAxioms.leb_spec. unfold SFleb, float_compare.
  destruct (SFcompare _ _) as [[]|]; split; try congruence; auto;
    intros [|]; congruence.
Qed.

Lemma float_is_nan_compare (x : float) :
  is_nan x = false <-> Prim2SF x <> S754_nan.
Proof.
  unfold is_nan. rewrite negb_false_iff, float_eqb_compare. unfold float_compare.
  split.
  - intros H. exact (proj1 (SFcompare_not_nan _ _ _ H)).
  - apply SFcompare_refl.
Qed.

Lemma float_ltb_trans (x y z : float) :
  (x <? y)%float = true -> (y <? z)%float = true -> (x <? z)%float = true.
Proof. rewrite !float_ltb_compare. apply SFcompare_trans. Qed.

Lemma float_ltb_irrefl (x : float) : (x <? x)%float = false.
Proof.
  apply not_true_is_false. rewrite float_ltb_compare. intros H.
  pose proof (SFcompare_antisym _ _ _ H) as H'. unfold float_compare in H.
  rewrite H in H'. discriminate.
Qed.

Lemma float_ltb_not_nan (x y : float) :
  (x <? y)%float = true -> is_nan x = false /\ is_nan y = false.
Proof.
  rewrite float_ltb_compare, !float_is_nan_compare. apply SFcompare_not_nan.
Qed.

Lemma float_eqb_refl (x : float) : is_nan x = false -> (x =? x)%float = true.
Proof. unfold is_nan. apply negb_false_iff. Qed.

Lemma float_eqb_ltb_r (x y z : float) :
  (x <? y)%float = true -> (y =? z)%float = true -> (x <? z)%float = true.
Proof. rewrite !float_ltb_compare, float_eqb_compare. apply SFcompare_Eq_r. Qed.

Lemma float_eqb_ltb_l (x y z : float) :
  (x =? y)%float = true -> (y <? z)%float = true -> (x <? z)%float = true.
Proof. rewrite !float_ltb_compare, float_eqb_compare. apply SFcompare_Eq_l. Qed.

Lemma float_eqb_sym (x y : float) : (x =? y)%float = true -> (y =? x)%float = true.
Proof. rewrite !float_eqb_compare. apply SFcompare_antisym. Qed.

(** Two floats that are not NaN are ordered: one is below the other or
    they are equal. *)
Lemma float_trichotomy (x y : float) :
  is_nan x = false -> is_nan y = false ->
  (x <? y)%float = true \/ (x =? y)%float = true \/ (y <? x)%float = true.
Proof.
  rewrite !float_is_nan_compare, !float_ltb_compare, float_eqb_compare. intros Hx Hy.
  destruct (SFcompare_total _ _ Hx Hy) as [[] H]; auto.
  right; right. exact (SFcompare_antisym _ _ _ H).
Qed.

Lemma float_leb_of_not_ltb (x y : float) :
  is_nan x = false -> is_nan y = false ->
  (y <? x)%float = false -> (x <=? y)%float = true.
Proof.
  intros Hx Hy Hlt. apply float_leb_compare.
  destruct (float_trichotomy x y Hx Hy) as [H|[H|H]].
  - left. apply float_ltb_compare, H.
  - right. apply float_eqb_compare, H.
  - congruence.
Qed.

End FloatOrder.

(** ** The ambiguity resolver *)

Section Resolver.
Context {E : Externals}.
Implicit Types (db : NavDB.t) (w ref : WayPoint.t) (cands : list WayPoint.t).

(** The geodesic distance from [w] to [ref]. *)
Definition dist (w ref : WayPoint.t) : float :=
  geod_Inverse_s12 (WayPoint.lat w) (WayPoint.lon w)
    (WayPoint.lat ref) (WayPoint.lon ref).

Lemma distances_map cands ref :
  NavDB.distances cands (Some ref) = Ok (map (fun w => dist w ref) cands).
Proof.
  induction cands as [|w cands IH]; cbn [NavDB.distances map]; [reflexivity|].
  rewrite IH. reflexivity.
Qed.

(** The item [min] holds is an item of the list that no item is below; it
    is NaN only when the first item is, which it then still holds. *)
Lemma min_from_spec (l : list float) : forall (pre : list float) (i : nat) (m : float),
  pre !! i = Some m ->
  (forall x, x ∈ pre -> (x <? m)%float = false) ->
  (is_nan m = true -> i = 0%nat) ->
  exists p v,
    NavDB.min_from i m (length pre) l = (p, v)
    /\ (pre ++ l) !! p = Some v
    /\ (forall x, x ∈ pre ++ l -> (x <? v)%float = false)
    /\ (is_nan v = true -> p = 0%nat).
Proof.
  induction l as [|a l IH]; intros pre i m Hi Hpre Hnan; cbn [NavDB.min_from].
  - exists i, m. rewrite app_nil_r. auto.
  - replace (S (length pre)) with (length (pre ++ [a]))
      by (rewrite length_app; cbn; lia).
    replace (pre ++ a :: l) with ((pre ++ [a]) ++ l)
      by (rewrite <- app_assoc; reflexivity).
    destruct (a <? m)%float eqn:Ham.
    + apply IH.
      * rewrite lookup_app_r by lia. rewrite Nat.sub_diag. reflexivity.
      * intros x [Hx| ->%list_elem_of_singleton]%elem_of_app.
        -- apply not_true_is_false. intros Hxa.
           pose proof (float_ltb_trans _ _ _ Hxa Ham) as Hxm.
           rewrite (Hpre x Hx) in Hxm. discriminate.
        -- apply float_ltb_irrefl.
      * intros Ha. destruct (float_ltb_not_nan _ _ Ham) as [Ha' _]. congruence.
    + apply IH.
      * rewrite lookup_app_l by (eapply lookup_lt_Some; exact Hi). exact Hi.
      * intros x [Hx| ->%list_elem_of_singleton]%elem_of_app; [auto|exact Ham].
      * exact Hnan.
Qed.

(** [index] finds the item [min] returned, at its position or, when an
    earlier item is equal to it, at the first such item. *)
Lemma index_from_spec (x : float) (l : list float) : forall k0 i : nat,
  (k0 <= i)%nat -> (i - k0 < length l)%nat ->
  exists k,
    NavDB.index_from k0 i x l = Some k
    /\ (k0 <= k <= i)%nat
    /\ (k = i \/ exists y, l !! (k - k0)%nat = Some y /\ (y =? x)%float = true)
    /\ (forall j y, (k0 <= j < k)%nat -> l !! (j - k0)%nat = Some y ->
                    (y =? x)%float = false).
Proof.
  induction l as [|a l IH]; intros k0 i Hle Hlen; cbn in Hlen; [lia|].
  cbn [NavDB.index_from].
  destruct ((k0 =? i)%nat || (a =? x)%float) eqn:Hhere.
  - exists k0. split; [reflexivity|]. split; [lia|]. split; [|intros j y Hj; lia].
    apply orb_prop in Hhere as [->%Nat.eqb_eq|Hax]; [left; reflexivity|].
    right. exists a. rewrite Nat.sub_diag. auto.
  - apply orb_false_elim in Hhere as [Hne%Nat.eqb_neq Hax].
    destruct (IH (S k0) i) as (k & -> & Hk & Hat & Hbefore); [lia|lia|].
    exists k. split; [reflexivity|]. split; [lia|]. split.
    + destruct Hat as [->|(y & Hy & Hyx)]; [left; reflexivity|].
      right. exists y. split; [|exact Hyx].
      replace (k - k0)%nat with (S (k - S k0)) by lia. exact Hy.
    + intros j y Hj. destruct (decide (j = k0)) as [->|Hjk].
      * rewrite Nat.sub_diag. intros [= <-]. exact Hax.
      * replace (j - k0)%nat with (S (j - S k0)) by lia. apply Hbefore. lia.
Qed.

(** With a reference point, a non-empty candidate list always resolves, to
    one of the candidates: no candidate's distance is below its distance,
    and no candidate listed before it has a distance equal to its
    distance. *)
Lemma getClosest_nearest db _name ref cands :
  NavDB._wpts db !! _name = Some cands ->
  cands <> [] ->
  exists k w,
    NavDB.getClosest db _name (Some ref) = Ok w
    /\ cands !! k = Some w
    /\ (forall c, c ∈ cands -> (dist c ref <? dist w ref)%float = false)
    /\ (forall j c, (j < k)%nat -> cands !! j = Some c ->
                    (dist c ref =? dist w ref)%float = false).
Proof.
  intros Hlook Hne. unfold NavDB.getClosest. rewrite Hlook. cbn [of_option bind].
  destruct cands as [|w0 [|w1 cands]]; [congruence| |].
  - exists 0%nat, w0. split; [reflexivity|]. split; [reflexivity|]. split.
    + intros c ->%list_elem_of_singleton. apply float_ltb_irrefl.
    + intros j c Hj. lia.
  - rewrite distances_map. cbn [bind map NavDB.py_min].
    set (ws := w0 :: w1 :: cands).
    set (d0 := dist w0 ref). set (ds := dist w1 ref :: map (fun w => dist w ref) cands).
    assert (Hds : [d0] ++ ds = map (fun w => dist w ref) ws) by reflexivity.
    destruct (min_from_spec ds [d0] 0 d0 eq_refl) as (p & v & Hmin & Hp & Hlow & Hnan).
    { intros x ->%list_elem_of_singleton. apply float_ltb_irrefl. }
    { reflexivity. }
    cbn [length] in Hmin. rewrite Hmin. unfold NavDB.py_index. cbn [fst snd].
    change (d0 :: ds) with ([d0] ++ ds). rewrite Hds in *.
    destruct (index_from_spec v (map (fun w => dist w ref) ws) 0 p)
      as (k & -> & Hk & Hat & Hbefore); [lia| |].
    { rewrite Nat.sub_0_r. eapply lookup_lt_Some. exact Hp. }
    cbn [of_option bind].
    assert (Hkp : (k < length ws)%nat).
    { apply lookup_lt_Some in Hp. rewrite length_map in Hp. lia. }
    destruct (lookup_lt_is_Some_2 ws k Hkp) as [w Hw].
    rewrite Hw. cbn [of_option]. exists k, w.
    split; [reflexivity|]. split; [exact Hw|].
    assert (Hwv : dist w ref = v \/ (dist w ref =? v)%float = true).
    { destruct Hat as [->|(y & Hy & Hyv)].
      - left. rewrite list_lookup_fmap, Hw in Hp. cbn in Hp. congruence.
      - right. rewrite Nat.sub_0_r, list_lookup_fmap, Hw in Hy. cbn in Hy.
        congruence. }
    split.
    + intros c Hc.
      assert (Hcv : (dist c ref <? v)%float = false).
      { apply Hlow, list_elem_of_fmap. eauto. }
      destruct Hwv as [->|Heq]; [exact Hcv|].
      apply not_true_is_false. intros Hcw.
      rewrite (float_eqb_ltb_r _ _ _ Hcw Heq) in Hcv. discriminate.
    + intros j c Hj Hc.
      assert (Hcv : (dist c ref =? v)%float = false).
      { apply (Hbefore j); [lia|].
        rewrite Nat.sub_0_r, list_lookup_fmap, Hc. reflexivity. }
      destruct Hwv as [->|Heq]; [exact Hcv|].
      apply not_true_is_false. intros Hcw.
      apply float_eqb_compare in Hcw, Heq.
      pose proof (SFcompare_Eq_l _ _ _ _ Hcw Heq) as Hcv'.
      apply float_eqb_compare in Hcv'. congruence.
Qed.

(** C2, amended: for a name with two or more candidates and a reference
    point from which no candidate's geodesic distance is NaN, the resolver
    returns a candidate at least as near to the reference point as every
    candidate, and strictly nearer than every candidate listed before
    it. *)
Theorem getClosest_minimal_first db _name ref cands :
  NavDB._wpts db !! _name = Some cands ->
  (2 <= length cands)%nat ->
  (forall c, c ∈ cands -> is_nan (dist c ref) = false) ->
  exists k w,
    NavDB.getClosest db _name (Some ref) = Ok w
    /\ cands !! k = Some w
    /\ (forall c, c ∈ cands -> (dist w ref <=? dist c ref)%float = true)
    /\ (forall j c, (j < k)%nat -> cands !! j = Some c ->
                    (dist w ref <? dist c ref)%float = true).
Proof.
  intros Hlook Hlen Hnan.
  destruct (getClosest_nearest db _name ref cands Hlook)
    as (k & w & Hget & Hk & Hlow & Hbefore).
  { intros ->. cbn in Hlen. lia. }
  assert (Hw : is_nan (dist w ref) = false).
  { eapply Hnan, list_elem_of_lookup_2. exact Hk. }
  exists k, w. split; [exact Hget|]. split; [exact Hk|]. split.
  - intros c Hc. apply float_leb_of_not_ltb; auto.
  - intros j c Hj Hc.
    assert (Hcn : is_nan (dist c ref) = false).
    { eapply Hnan, list_elem_of_lookup_2. exact Hc. }
    destruct (float_trichotomy (dist c ref) (dist w ref) Hcn Hw) as [H|[H|H]].
    + rewrite Hlow in H; [discriminate|].
      eapply list_elem_of_lookup_2. exact Hc.
    + rewrite (Hbefore j c Hj Hc) in H. discriminate.
    + exact H.
Qed.

End Resolver.

(** ** Which exceptions a call can raise *)

Section Raises.
Context {A B : Type}.

(** Every exception [r] can raise satisfies [P]. *)
Definition raises_only (P : exn -> Prop) {X : Type} (r : result X) : Prop :=
  forall e, r = Raise e -> P e.

Lemma raises_Ok (P : exn -> Prop) (a : A) : raises_only P (Ok a).
Proof. intros e; discriminate. Qed.

Lemma raises_Raise (P : exn -> Prop) (e : exn) : P e -> raises_only P (@Raise A e).
Proof. intros He e' [= <-]. exact He. Qed.

Lemma raises_bind (P : exn -> Prop) (r : result A) (k : A -> result B) :
  raises_only P r -> (forall a, raises_only P (k a)) -> raises_only P (bind r k).
Proof.
  intros Hr Hk e. destruct r as [a|e']; cbn [bind].
  - apply Hk.
  - intros [= ->]. apply Hr. reflexivity.
Qed.

Lemma raises_of_option (P : exn -> Prop) (o : option A) (e : exn) :
  P e -> raises_only P (of_option o e).
Proof. intros He. destruct o; [apply raises_Ok|apply raises_Raise, He]. Qed.

Lemma raises_try_except (P : exn -> Prop) (r : result A) (e : exn) :
  P e -> raises_only P (try_except r e).
Proof. intros He. destruct r; [apply raises_Ok|apply raises_Raise, He]. Qed.

Lemma raises_weaken (P Q : exn -> Prop) (r : result A) :
  (forall e, P e -> Q e) -> raises_only P r -> raises_only Q r.
Proof. intros HPQ Hr e He. apply HPQ, Hr, He. Qed.

End Raises.

Create HintDb raises.
#[local] Hint Resolve raises_Ok : raises.

(** Peels a computation down to the calls that the hint database knows. *)
Ltac raises_step :=
  match goal with
  | |- raises_only _ (bind _ _) => apply raises_bind; [|intros ?]
  | |- raises_only _ (Ok _) => apply raises_Ok
  | |- raises_only _ (Raise _) => apply raises_Raise; cbn; now auto
  | |- raises_only _ (of_option _ _) => apply raises_of_option; cbn; now auto
  | |- raises_only _ (try_except _ _) => apply raises_try_except; cbn; now auto
  | |- raises_only _ (if ?b then _ else _) => destruct b
  | |- raises_only _ (match ?x with _ => _ end) => destruct x
  | |- raises_only _ (let _ := _ in _) => cbv zeta
  end.

Ltac raises := repeat (first [solve [eauto with raises] | raises_step]).

Section RaisesOfCalls.
Context {E : Externals}.

(** What the decoder raises for a token. *)
Definition decoder_error (_name : string) (e : exn) : Prop :=
  e = UnnamedFormatError _name \/ e = UnnamedOutOfBounds _name \/ e = ValueError.

(** What resolving may raise: anything but the illegal-character error. *)
Definition resolution_error (e : exn) : Prop :=
  match e with
  | IllegalCharacterError _ => False
  | _ => True
  end.

Lemma decoder_error_resolution _name e : decoder_error _name e -> resolution_error e.
Proof. intros [-> | [-> | ->]]; exact I. Qed.

Lemma raises_float (s : string) : raises_only (eq ValueError) (PyFloat.float s).
Proof. unfold PyFloat.float. raises. Qed.

Lemma raises_float_decoder _name (s : string) :
  raises_only (decoder_error _name) (PyFloat.float s).
Proof.
  eapply raises_weaken; [|apply raises_float]. intros e <-. right; right; reflexivity.
Qed.
#[local] Hint Resolve raises_float_decoder : raises.

Lemma raises_deg_min _name sgn d m :
  raises_only (decoder_error _name) (UnnamedWaypoint.deg_min sgn d m).
Proof. unfold UnnamedWaypoint.deg_min. raises. Qed.
#[local] Hint Resolve raises_deg_min : raises.

Lemma raises_coordinates (n : nat) _name :
  raises_only (decoder_error _name) (UnnamedWaypoint.coordinates n _name).
Proof.
  unfold UnnamedWaypoint.coordinates, decoder_error. raises.
Qed.
#[local] Hint Resolve raises_coordinates : raises.

Lemma raises_UnnamedWaypoint (i : N) _name :
  raises_only (decoder_error _name) (UnnamedWaypoint.__init__ i _name).
Proof. unfold UnnamedWaypoint.__init__, decoder_error. raises. Qed.

End RaisesOfCalls.

(** ** Flight-plan expansion *)

Section Expansion.
Context {E : Externals}.
Implicit Types (db : NavDB.t) (st : NavDB.expansion) (fpl_arr : list string).

#[local] Hint Resolve raises_Ok : raises.

Lemma raises_decoder_resolution (i : N) _name :
  raises_only resolution_error (UnnamedWaypoint.__init__ i _name).
Proof.
  eapply raises_weaken; [apply decoder_error_resolution|apply raises_UnnamedWaypoint].
Qed.

Lemma raises_distTo w (o : option WayPoint.t) :
  raises_only resolution_error (WayPoint.distTo w o).
Proof. unfold WayPoint.distTo. raises. Qed.
#[local] Hint Resolve raises_decoder_resolution raises_distTo : raises.

Lemma raises_distances (l : list WayPoint.t) (o : option WayPoint.t) :
  raises_only resolution_error (NavDB.distances l o).
Proof. induction l; cbn [NavDB.distances]; raises. Qed.
#[local] Hint Resolve raises_distances : raises.

Lemma raises_getClosest db _name (o : option WayPoint.t) :
  raises_only resolution_error (NavDB.getClosest db _name o).
Proof. unfold NavDB.getClosest, NavDB.py_min, NavDB.py_index. raises. Qed.

Lemma raises_collect (wpts : list WayPoint.t) (indices : list nat) :
  raises_only resolution_error (Route.collect wpts indices).
Proof. induction indices; cbn [Route.collect]; raises. Qed.
#[local] Hint Resolve raises_getClosest raises_collect : raises.

Lemma raises_getWaypoints (r : Route.t) _entry _exit :
  raises_only resolution_error (Route.getWaypoints r _entry _exit).
Proof. unfold Route.getWaypoints. raises. Qed.
#[local] Hint Resolve raises_getWaypoints : raises.

Lemma raises_expand_step db fpl_arr (i : nat) st :
  raises_only resolution_error (NavDB.expand_step db fpl_arr i st).
Proof.
  unfold NavDB.expand_step, NavDB.expand_awy, NavDB.expand_prc, NavDB.expand_apt,
    NavDB.expand_ufx, NavDB.expand_fix, NavDB.first_candidate, NavDB.token.
  generalize (NavDB.getFPLelemtype db). intros classify.
  raises.
Qed.
#[local] Hint Resolve raises_expand_step : raises.

Lemma raises_expand_loop db fpl_arr (indices : list nat) : forall st,
  raises_only resolution_error (NavDB.expand_loop db fpl_arr indices st).
Proof. induction indices; intros st; cbn [NavDB.expand_loop]; raises. Qed.

Lemma expand_loop_app db fpl_arr (l1 l2 : list nat) : forall st,
  NavDB.expand_loop db fpl_arr (l1 ++ l2) st
  = bind (NavDB.expand_loop db fpl_arr l1 st) (NavDB.expand_loop db fpl_arr l2).
Proof.
  induction l1 as [|i l1 IH]; intros st; cbn [NavDB.expand_loop app bind]; [reflexivity|].
  destruct (NavDB.expand_step db fpl_arr i st); cbn [bind]; [apply IH|reflexivity].
Qed.

(** *** The character check *)

(** The shape of a token that passes the check: every character is
    alphanumeric, a point or a slash, at least one is alphanumeric, and
    there is at most one slash. *)
Definition legal (elem : string) : Prop :=
  (forall c, c ∈ list_ascii_of_string elem ->
             Py.isalnum_c c = true \/ c = "."%char \/ c = "/"%char)
  /\ (exists c, c ∈ list_ascii_of_string elem /\ Py.isalnum_c c = true)
  /\ (Py.count "/" elem <= 1)%nat.

Definition strip_marks (s : string) : string := Py.remove "." (Py.remove "/" s).

Lemma strip_marks_cons (c : ascii) (s : string) :
  strip_marks (String c s)
  = if Ascii.eqb c "/" || Ascii.eqb c "." then strip_marks s
    else String c (strip_marks s).
Proof.
  unfold strip_marks. cbn [Py.remove].
  destruct (Ascii.eqb c "/"); cbn [orb Py.remove]; [reflexivity|].
  destruct (Ascii.eqb c "."); reflexivity.
Qed.

Lemma strip_marks_all_alnum (s : string) :
  Py.forall_c Py.isalnum_c (strip_marks s) = true
  <-> forall c, c ∈ list_ascii_of_string s ->
                Py.isalnum_c c = true \/ c = "."%char \/ c = "/"%char.
Proof.
  induction s as [|a s IH]; [split; [intros _ c Hc; inversion Hc|reflexivity]|].
  rewrite strip_marks_cons. cbn [list_ascii_of_string].
  destruct (Ascii.eqb_spec a "/") as [->|Hs]; cbn [orb].
  - rewrite IH. split.
    + intros H c [->|Hc]%elem_of_cons; [auto|auto].
    + intros H c Hc. apply H. right. exact Hc.
  - destruct (Ascii.eqb_spec a ".") as [->|Hp].
    + rewrite IH. split.
      * intros H c [->|Hc]%elem_of_cons; [auto|auto].
      * intros H c Hc. apply H. right. exact Hc.
    + cbn [Py.forall_c]. rewrite andb_true_iff, IH. split.
      * intros [Ha H] c [->|Hc]%elem_of_cons; [auto|auto].
      * intros H. split.
        -- destruct (H a) as [Ha|[Ha|Ha]]; [left|exact Ha|congruence|congruence].
        -- intros c Hc. apply H. right. exact Hc.
Qed.

Lemma strip_marks_nonempty (s : string) :
  Py.nonempty (strip_marks s) = true
  <-> exists c, c ∈ list_ascii_of_string s /\ c <> "."%char /\ c <> "/"%char.
Proof.
  induction s as [|a s IH].
  - split; [discriminate|]. intros (c & Hc & _). inversion Hc.
  - rewrite strip_marks_cons. cbn [list_ascii_of_string].
    destruct (Ascii.eqb_spec a "/") as [->|Hs]; cbn [orb].
    + rewrite IH. split.
      * intros (c & Hc & Hne). exists c. split; [right; exact Hc|exact Hne].
      * intros (c & [->|Hc]%elem_of_cons & Hp & Hs); [congruence|eauto].
    + destruct (Ascii.eqb_spec a ".") as [->|Hp].
      * rewrite IH. split.
        -- intros (c & Hc & Hne). exists c. split; [right; exact Hc|exact Hne].
        -- intros (c & [->|Hc]%elem_of_cons & Hp & Hs'); [congruence|eauto].
      * cbn [Py.nonempty]. split; [|reflexivity].
        intros _. exists a. split; [left|]. split; assumption.
Qed.

Lemma illegal_false_iff (elem : string) :
  NavDB.illegal elem = false <-> legal elem.
Proof.
  unfold NavDB.illegal, legal, Py.isalnum. fold (strip_marks elem).
  rewrite orb_false_iff, negb_false_iff, andb_true_iff, Nat.ltb_ge.
  rewrite strip_marks_all_alnum, strip_marks_nonempty.
  split.
  - intros [[(c & Hc & Hp & Hs) Hall] Hcount].
    split; [exact Hall|]. split; [|exact Hcount].
    exists c. split; [exact Hc|].
    destruct (Hall c Hc) as [H|[H|H]]; [exact H|contradiction|contradiction].
  - intros (Hall & (c & Hc & Halnum) & Hcount).
    split; [split; [|exact Hall]|exact Hcount].
    exists c. split; [exact Hc|]. split; intros ->; discriminate.
Qed.

Lemma validate_legal fpl_arr :
  Forall legal fpl_arr -> NavDB.validate fpl_arr = Ok tt.
Proof.
  induction 1 as [|elem rest Hl _ IH]; cbn [NavDB.validate]; [reflexivity|].
  apply illegal_false_iff in Hl. rewrite Hl. exact IH.
Qed.

Lemma validate_first_illegal (pre post : list string) (elem : string) :
  Forall legal pre -> ~ legal elem ->
  NavDB.validate (pre ++ elem :: post) = Raise (IllegalCharacterError elem).
Proof.
  induction 1 as [|x pre Hl _ IH]; intros Hbad; cbn [NavDB.validate app].
  - destruct (NavDB.illegal elem) eqn:Hi; [reflexivity|].
    apply illegal_false_iff in Hi. contradiction.
  - apply illegal_false_iff in Hl. rewrite Hl. apply IH, Hbad.
Qed.

(** C6, amended: [expandFPL] raises the illegal-character error exactly
    for the first token that is not of the legal shape, where a token is
    of the legal shape when its characters are alphanumerics, points and
    slashes, at least one is alphanumeric, and it has at most one slash;
    the number of points is free. *)
Theorem expandFPL_illegal_character db (_fpl : string) :
  (forall pre elem post,
      Py.split _fpl = pre ++ elem :: post ->
      Forall legal pre -> ~ legal elem ->
      NavDB.expandFPL db _fpl = Raise (IllegalCharacterError elem))
  /\ (Forall legal (Py.split _fpl) ->
      forall elem, NavDB.expandFPL db _fpl <> Raise (IllegalCharacterError elem)).
Proof.
  split.
  - intros pre elem post Hsplit Hpre Hbad. unfold NavDB.expandFPL.
    rewrite Hsplit, (validate_first_illegal pre post elem Hpre Hbad). reflexivity.
  - intros Hall elem Hraise. unfold NavDB.expandFPL in Hraise.
    rewrite (validate_legal _ Hall) in Hraise. cbn [bind] in Hraise.
    eapply (raises_bind resolution_error) in Hraise; [exact Hraise| |].
    + apply raises_expand_loop.
    + intros st. apply raises_Ok.
Qed.

(** *** The steps of the resolution loop *)

Lemma expand_step_inert db fpl_arr (i : nat) st elem :
  fpl_arr !! i = Some elem ->
  NavDB.getFPLelemtype db elem = Some "dct" ->
  NavDB.expand_step db fpl_arr i st = Ok st.
Proof.
  intros Htok Hty. unfold NavDB.expand_step, NavDB.token. rewrite Htok. cbn [of_option bind].
  rewrite Hty. reflexivity.
Qed.

Lemma expand_step_apt db fpl_arr (i : nat) st elem (arp : WayPoint.t) rest :
  fpl_arr !! i = Some elem ->
  NavDB.getFPLelemtype db elem = Some "apt" ->
  (NavDB.e_apts st < 2)%nat ->
  NavDB._wpts db !! elem = Some (arp :: rest) ->
  NavDB.expand_step db fpl_arr i st
  = Ok {| NavDB.e_wpts := NavDB.e_wpts st ++ [arp]; NavDB.e_last := Some arp;
          NavDB.e_apts := S (NavDB.e_apts st); NavDB.e_next := NavDB.e_next st |}.
Proof.
  intros Htok Hty Hapts Hlook. unfold NavDB.expand_step, NavDB.token.
  rewrite Htok. cbn [of_option bind]. rewrite Hty. cbn.
  unfold NavDB.expand_apt, NavDB.first_candidate.
  apply Nat.ltb_lt in Hapts. rewrite Hapts, Hlook. reflexivity.
Qed.

Lemma expand_step_fix db fpl_arr (i : nat) st elem :
  fpl_arr !! i = Some elem ->
  NavDB.getFPLelemtype db elem = Some "fix" ->
  NavDB.expand_step db fpl_arr i st = NavDB.expand_fix db elem st.
Proof.
  intros Htok Hty. unfold NavDB.expand_step, NavDB.token. rewrite Htok. cbn [of_option bind].
  rewrite Hty. reflexivity.
Qed.

Lemma expand_step_ufx db fpl_arr (i : nat) st elem :
  fpl_arr !! i = Some elem ->
  NavDB.getFPLelemtype db elem = Some "ufx" ->
  NavDB.expand_step db fpl_arr i st = NavDB.expand_ufx elem st.
Proof.
  intros Htok Hty. unfold NavDB.expand_step, NavDB.token. rewrite Htok. cbn [of_option bind].
  rewrite Hty. reflexivity.
Qed.

(** With no waypoint resolved yet, the branch of the unnamed fixes raises:
    what the decoder raises, or the attribute error of the distance to
    [None]. *)
Lemma expand_ufx_no_last elem st :
  NavDB.e_last st = None ->
  exists e,
    NavDB.expand_ufx elem st = Raise e
    /\ (e = AttributeError \/ decoder_error elem e)
    /\ (forall w, UnnamedWaypoint.__init__ (NavDB.e_next st) elem = Ok w ->
                  e = AttributeError).
Proof.
  intros Hlast. unfold NavDB.expand_ufx. rewrite Hlast.
  destruct (UnnamedWaypoint.__init__ (NavDB.e_next st) elem) as [w|e] eqn:Hinit;
    cbn [bind WayPoint.distTo].
  - exists AttributeError. split; [reflexivity|]. split; [left; reflexivity|]. reflexivity.
  - exists e. split; [reflexivity|]. split; [|discriminate].
    right. apply (raises_UnnamedWaypoint _ _ _ Hinit).
Qed.

(** C10: when the loop reaches a token classified as an unnamed fix and
    no earlier token has set the last resolved waypoint, [expandFPL] raises
    instead of returning waypoints; and when the tokens are legal, the
    earlier ones raise nothing and the decoder accepts the token, what it
    raises is the attribute error of the distance to [None]. *)
Theorem expandFPL_unnamed_fix_first db (_fpl : string) (i : nat) elem :
  Py.split _fpl !! i = Some elem ->
  NavDB.getFPLelemtype db elem = Some "ufx" ->
  (forall st,
      NavDB.expand_loop db (Py.split _fpl) (seq 0 i) (NavDB.expand_init db) = Ok st ->
      NavDB.e_last st = None) ->
  (exists e, NavDB.expandFPL db _fpl = Raise e)
  /\ (forall st w,
        NavDB.validate (Py.split _fpl) = Ok tt ->
        NavDB.expand_loop db (Py.split _fpl) (seq 0 i) (NavDB.expand_init db) = Ok st ->
        UnnamedWaypoint.__init__ (NavDB.e_next st) elem = Ok w ->
        NavDB.expandFPL db _fpl = Raise AttributeError).
Proof.
  intros Htok Hty Hnone.
  assert (Hi : (i < length (Py.split _fpl))%nat) by (eapply lookup_lt_Some; exact Htok).
  assert (Hseq : seq 0 (length (Py.split _fpl))
                 = seq 0 i ++ i :: seq (S i) (length (Py.split _fpl) - S i)).
  { replace (length (Py.split _fpl)) with (i + S (length (Py.split _fpl) - S i))%nat at 1 by lia.
    rewrite seq_app. reflexivity. }
  unfold NavDB.expandFPL. rewrite Hseq, expand_loop_app.
  split.
  - destruct (NavDB.validate (Py.split _fpl)) as [[]|e]; cbn [bind]; [|eauto].
    destruct (NavDB.expand_loop db (Py.split _fpl) (seq 0 i) (NavDB.expand_init db))
      as [st|e] eqn:Hpre; cbn [bind NavDB.expand_loop]; [|eauto].
    rewrite (expand_step_ufx db _ i _ elem Htok Hty).
    destruct (expand_ufx_no_last elem st (Hnone st eq_refl)) as (e & -> & _).
    cbn [bind]. eauto.
  - intros st w -> Hpre Hw. cbn [bind]. rewrite Hpre. cbn [bind NavDB.expand_loop].
    rewrite (expand_step_ufx db _ i _ elem Htok Hty).
    destruct (expand_ufx_no_last elem st (Hnone st Hpre)) as (e & -> & _ & He).
    rewrite (He w Hw). reflexivity.
Qed.

(** The expansion of "EGLL DCT BOGNA EGKK" in a database where no BOGNA is
    the very instance listed first for EGLL. *)
Lemma expand_EGLL_DCT_BOGNA_EGKK db
    (egll bogna egkk : WayPoint.t) (egll' bogna' egkk' : list WayPoint.t) :
  NavDB._wpts db !! "EGLL" = Some (egll :: egll') ->
  NavDB._wpts db !! "BOGNA" = Some (bogna :: bogna') ->
  NavDB._wpts db !! "EGKK" = Some (egkk :: egkk') ->
  (forall c, c ∈ bogna :: bogna' -> WayPoint.id c <> WayPoint.id egll) ->
  exists w,
    w ∈ bogna :: bogna'
    /\ NavDB.getClosest db "BOGNA" (Some egll) = Ok w
    /\ NavDB.expandFPL db "EGLL DCT BOGNA EGKK"
       = Ok [WayPoint.copy (NavDB.next_id db) egll;
             WayPoint.copy (N.succ (NavDB.next_id db)) w;
             WayPoint.copy (N.succ (N.succ (NavDB.next_id db))) egkk].
Proof.
  intros Hegll Hbogna Hegkk Hdistinct.
  destruct (getClosest_nearest db "BOGNA" egll (bogna :: bogna') Hbogna)
    as (k & w & Hget & Hk & _); [discriminate|].
  apply list_elem_of_lookup_2 in Hk.
  exists w. split; [exact Hk|]. split; [exact Hget|].
  unfold NavDB.expandFPL.
  change (Py.split "EGLL DCT BOGNA EGKK") with ["EGLL"; "DCT"; "BOGNA"; "EGKK"].
  change (NavDB.validate ["EGLL"; "DCT"; "BOGNA"; "EGKK"]) with (Ok tt).
  cbn [bind length seq NavDB.expand_loop].
  rewrite (expand_step_apt db _ 0 _ "EGLL" egll egll');
    [|reflexivity|reflexivity|cbn; lia|exact Hegll].
  cbn [bind]. rewrite (expand_step_inert db _ 1 _ "DCT"); [|reflexivity|reflexivity].
  cbn [bind]. rewrite (expand_step_fix db _ 2 _ "BOGNA"); [|reflexivity|reflexivity].
  unfold NavDB.expand_fix. cbn [NavDB.e_last NavDB.expand_init].
  rewrite Hget. cbn [bind WayPoint.eqb_opt]. unfold WayPoint.eqb.
  destruct (N.eqb_spec (WayPoint.id w) (WayPoint.id egll)) as [Heq|_];
    [exfalso; exact (Hdistinct w Hk Heq)|].
  cbn [NavDB.append_if].
  rewrite (expand_step_apt db _ 3 _ "EGKK" egkk egkk');
    [|reflexivity|reflexivity|cbn; lia|exact Hegkk].
  reflexivity.
Qed.

End Expansion.

(** ** Loading *)

Section Loading.
Context {E : Externals}.
Implicit Types (self : NavDB.t) (d : navdata) (l : string).

(** A line that begins with the comment marker. *)
Definition comment_line (l : string) : Prop := String.get 0 l = Some ";"%char.

(** What reading a header line can raise in the loop that reports [label]. *)
Definition cycle_error (label : string) (e : exn) : Prop :=
  e = AssertionError \/ e = ValueError \/ e = WrongAIRACcycleError label.

(** The same for the airways file. *)
Definition header_error (e : exn) : Prop := cycle_error "wpNavRTE.txt" e.

Lemma raises_AIRACcycle l :
  raises_only (fun e => e = AssertionError \/ e = ValueError) (AIRACcycle.__init__ l).
Proof.
  unfold AIRACcycle.__init__, Py.int.
  repeat first [solve [eauto with raises] | raises_step].
Qed.

Lemma raises_check_cycle (label : string) (a : option AIRACcycle.t) l :
  raises_only (cycle_error label) (NavDB.check_cycle label a l).
Proof.
  assert (Hinit : raises_only (cycle_error label) (AIRACcycle.__init__ l)).
  { eapply raises_weaken; [|apply raises_AIRACcycle].
    unfold cycle_error. intros e [->| ->]; auto. }
  unfold NavDB.check_cycle.
  destruct (Py.contains "AIRAC" (Py.slice 1 6 l)); [|apply raises_Ok].
  destruct a; (apply raises_bind; [exact Hinit|intros c]).
  - destruct (negb (AIRACcycle.__eq__ c t)); [|apply raises_Ok].
    apply raises_Raise. right; right; reflexivity.
  - apply raises_Ok.
Qed.

Lemma airway_step_comment (st : NavDB.airways) l :
  comment_line l ->
  match NavDB.airway_step st l with
  | Ok st' => NavDB.a_cawy st' = NavDB.a_cawy st
  | Raise e => header_error e
  end.
Proof.
  intros Hc. unfold NavDB.airway_step, NavDB.is_comment, Py.item.
  rewrite Hc. cbn [of_option bind Ascii.eqb]. cbn.
  destruct (NavDB.check_cycle "wpNavRTE.txt" (NavDB.a_airac st) l) as [a|e] eqn:Hchk;
    cbn [bind].
  - reflexivity.
  - exact (raises_check_cycle _ _ _ _ Hchk).
Qed.

Lemma airway_loop_comments (f : list string) : forall st : NavDB.airways,
  Forall comment_line f ->
  match NavDB.airway_loop st f with
  | Ok st' => NavDB.a_cawy st' = NavDB.a_cawy st
  | Raise e => header_error e
  end.
Proof.
  induction f as [|l f IH]; intros st Hf; cbn [NavDB.airway_loop]; [reflexivity|].
  apply Forall_cons in Hf as [Hl Hf].
  pose proof (airway_step_comment st l Hl) as Hstep.
  destruct (NavDB.airway_step st l) as [st'|e]; cbn [bind]; [|exact Hstep].
  specialize (IH st' Hf).
  destruct (NavDB.airway_loop st' f); [congruence|exact IH].
Qed.

(** C9: when every line of the airways file is a comment line (also when
    the file has no line), [_load] does not return a database.  The loop
    over the file leaves no open route, so the flush after it raises the
    attribute error of [None.name], unless a header line raised before. *)
Theorem load_airways_without_data self d :
  Forall comment_line (wpNavRTE_txt d) ->
  (exists e, NavDB._load self d = Raise e)
  /\ (forall st : NavDB.airways,
        NavDB.a_cawy st = None ->
        NavDB.load_airways st (wpNavRTE_txt d) = Raise AttributeError
        \/ exists e, header_error e
                     /\ NavDB.airway_loop st (wpNavRTE_txt d) = Raise e
                     /\ NavDB.load_airways st (wpNavRTE_txt d) = Raise e).
Proof.
  intros Hf.
  assert (Hair : forall st : NavDB.airways,
             NavDB.a_cawy st = None ->
             NavDB.load_airways st (wpNavRTE_txt d) = Raise AttributeError
             \/ exists e, header_error e
                          /\ NavDB.airway_loop st (wpNavRTE_txt d) = Raise e
                          /\ NavDB.load_airways st (wpNavRTE_txt d) = Raise e).
  { intros st Hnone. unfold NavDB.load_airways.
    pose proof (airway_loop_comments (wpNavRTE_txt d) st Hf) as Hloop.
    destruct (NavDB.airway_loop st (wpNavRTE_txt d)) as [st'|e]; cbn [bind].
    - left. unfold NavDB.airway_flush. rewrite Hloop, Hnone. reflexivity.
    - right. exists e. auto. }
  split; [|exact Hair].
  unfold NavDB._load.
  repeat match goal with
         | |- exists e, bind (NavDB.point_loop ?a ?b ?c ?f) _ = Raise e =>
             destruct (NavDB.point_loop a b c f) as [?st|?e]; cbn [bind]; [|eauto]
         end.
  match goal with
  | |- context [NavDB.load_airways ?s _] =>
      destruct (Hair s eq_refl) as [->|(e & _ & _ & ->)]; cbn [bind]; eauto
  end.
Qed.

(** A header line whose cycle differs from the recorded one makes the
    check raise the cycle error under the label it was given. *)
Lemma check_cycle_mismatch (label : string) (a c : AIRACcycle.t) l :
  Py.contains "AIRAC" (Py.slice 1 6 l) = true ->
  AIRACcycle.__init__ l = Ok c ->
  AIRACcycle.cycle c <> AIRACcycle.cycle a ->
  NavDB.check_cycle label (Some a) l = Raise (WrongAIRACcycleError label).
Proof.
  intros Hmark Hinit Hne. unfold NavDB.check_cycle. rewrite Hmark, Hinit. cbn [bind].
  unfold AIRACcycle.__eq__. apply Z.eqb_neq in Hne. rewrite Hne. reflexivity.
Qed.

(** The cycle errors of a loop name the label the loop reports. *)
Definition names_one_of (labels : list string) (e : exn) : Prop :=
  match e with
  | WrongAIRACcycleError file => file ∈ labels
  | _ => True
  end.

Lemma cycle_error_names (label : string) (labels : list string) (e : exn) :
  label ∈ labels -> cycle_error label e -> names_one_of labels e.
Proof. intros Hin [-> | [-> | ->]]; cbn; auto. Qed.

Lemma raises_point_loop (label : string) (labels : list string)
    (data : N -> string -> result WayPoint.t) (f : list string) :
  label ∈ labels ->
  (forall i l, raises_only (eq ValueError) (data i l)) ->
  forall st, raises_only (names_one_of labels) (NavDB.point_loop label data st f).
Proof.
  intros Hin Hdata. induction f as [|l f IH]; intros st; cbn [NavDB.point_loop].
  - apply raises_Ok.
  - apply raises_bind; [|exact IH].
    unfold NavDB.point_step, NavDB.is_comment, Py.item.
    apply raises_bind; [raises|]. intros [].
    + apply raises_bind; [|intros a; apply raises_Ok].
      eapply raises_weaken; [intros e; apply (cycle_error_names label labels e Hin)|].
      apply raises_check_cycle.
    + apply raises_bind; [|intros w; apply raises_Ok].
      eapply raises_weaken; [|apply Hdata]. intros e <-. exact I.
Qed.

Lemma raises_airway_loop (labels : list string) (f : list string) :
  "wpNavRTE.txt" ∈ labels ->
  forall st, raises_only (names_one_of labels) (NavDB.airway_loop st f).
Proof.
  intros Hin. induction f as [|l f IH]; intros st; cbn [NavDB.airway_loop].
  - apply raises_Ok.
  - apply raises_bind; [|exact IH].
    unfold NavDB.airway_step, NavDB.is_comment, Py.item.
    apply raises_bind; [raises|]. intros [].
    + apply raises_bind; [|intros a; apply raises_Ok].
      eapply raises_weaken;
        [intros e; apply (cycle_error_names "wpNavRTE.txt" labels e Hin)|].
      apply raises_check_cycle.
    + assert (Hfloat : forall x, raises_only (names_one_of labels) (PyFloat.float x)).
      { intros x. eapply raises_weaken; [|apply raises_float]. intros e <-. exact I. }
      unfold NavDB.airway_line. raises.
Qed.

(** Whatever the five files hold, a cycle error of [_load] names one of
    four files, and never the runway file [wpNavAPT.txt]. *)
Lemma load_never_names_runway_file self d (file : string) :
  NavDB._load self d = Raise (WrongAIRACcycleError file) ->
  file ∈ ["wpNavAID.txt"; "wpNavFIX.txt"; "airports.dat"; "wpNavRTE.txt"]
  /\ file <> "wpNavAPT.txt".
Proof.
  intros Hraise.
  set (labels := ["wpNavAID.txt"; "wpNavFIX.txt"; "airports.dat"; "wpNavRTE.txt"]).
  assert (Hr : raises_only (names_one_of labels) (NavDB._load self d)).
  { unfold NavDB._load, NavDB.load_airways, NavDB.airway_flush.
    repeat first
      [ apply raises_Ok
      | apply raises_bind; [|intros ?]
      | apply raises_point_loop;
          [subst labels; set_solver
          |intros i l;
           unfold NavDB.navaid_line, NavDB.fix_line, NavDB.runway_line,
             NavDB.airport_line;
           repeat first [apply raises_float | raises_step]]
      | apply raises_airway_loop; subst labels; set_solver
      | raises_step ]. }
  pose proof (Hr _ Hraise) as Hin. cbn in Hin.
  split; [exact Hin|]. intros ->. subst labels.
  repeat (apply elem_of_cons in Hin as [Hin|Hin]; [discriminate|]).
  inversion Hin.
Qed.

(** C8 (the code at the failing input): the navaid file carries a header
    of cycle 2011 and the runway file [wpNavAPT.txt] one of cycle 2012, the
    other three files are empty.  With a [strptime] that reads the four
    dates, loading raises the cycle error, and the file it names is
    [wpNavFIX.txt], not the runway file. *)
Theorem load_runway_mismatch_names_fix_file :
  (forall s, s ∈ ["08/Oct/2020"; "04/Nov/2020"; "05/Nov/2020"; "02/Dec/2020"] ->
             is_Some (strptime s "%d/%b/%Y")) ->
  NavDB.__init__ Example.mismatch_apt = Raise (WrongAIRACcycleError "wpNavFIX.txt").
Proof.
  intros Hdates.
  destruct (Hdates "08/Oct/2020") as [d1 H1]; [set_solver|].
  destruct (Hdates "04/Nov/2020") as [d2 H2]; [set_solver|].
  destruct (Hdates "05/Nov/2020") as [d3 H3]; [set_solver|].
  destruct (Hdates "02/Dec/2020") as [d4 H4]; [set_solver|].
  unfold NavDB.__init__, NavDB._load, Example.mismatch_apt.
  cbn [wpNavAID_txt wpNavFIX_txt wpNavAPT_txt airports_dat wpNavRTE_txt
       NavDB.airac NavDB.next_id NavDB.point_loop bind].
  assert (Haid : NavDB.point_step "wpNavAID.txt" NavDB.navaid_line
            {| NavDB.p_airac := None; NavDB.p_wpts := ∅; NavDB.p_nold := 0;
               NavDB.p_next := 0 |}
            ";AIRAC Cycle : 2011 (08/Oct/2020 - 04/Nov/2020)"
          = Ok {| NavDB.p_airac :=
                    Some {| AIRACcycle.cycle := 2011; AIRACcycle.date_begin := d1;
                            AIRACcycle.date_end := d2;
                            AIRACcycle.date_str :=
                              str_upper (strftime d1 "%d%b%y" +:+ " - "
                                         +:+ strftime d2 "%d%b%y") |};
                  NavDB.p_wpts := ∅; NavDB.p_nold := 0; NavDB.p_next := 0 |}).
  { unfold NavDB.point_step, NavDB.check_cycle, AIRACcycle.__init__.
    cbn [NavDB.p_airac NavDB.p_wpts NavDB.p_nold NavDB.p_next].
    change (Py.slice 21 32 ";AIRAC Cycle : 2011 (08/Oct/2020 - 04/Nov/2020)")
      with "08/Oct/2020".
    change (Py.slice 35 46 ";AIRAC Cycle : 2011 (08/Oct/2020 - 04/Nov/2020)")
      with "04/Nov/2020".
    rewrite H1, H2. reflexivity. }
  rewrite Haid. cbn [bind NavDB.p_airac NavDB.p_wpts NavDB.p_nold NavDB.p_next].
  unfold NavDB.point_step.
  change (NavDB.is_comment ";AIRAC Cycle : 2012 (05/Nov/2020 - 02/Dec/2020)")
    with (Ok true).
  cbn [bind NavDB.p_airac].
  erewrite check_cycle_mismatch; [reflexivity|reflexivity| |].
  - unfold AIRACcycle.__init__.
    change (Py.slice 21 32 ";AIRAC Cycle : 2012 (05/Nov/2020 - 02/Dec/2020)")
      with "05/Nov/2020".
    change (Py.slice 35 46 ";AIRAC Cycle : 2012 (05/Nov/2020 - 02/Dec/2020)")
      with "02/Dec/2020".
    rewrite H3, H4. reflexivity.
  - cbn. discriminate.
Qed.

End Loading.

(** ** What loading guarantees *)

Section LoadedDatabase.
Context {E : Externals}.
Implicit Types (m : gmap string (list WayPoint.t)) (w : WayPoint.t) (k : string).

(** [w] is one of the candidates listed under [k]. *)
Definition listed m k w : Prop := exists l, m !! k = Some l /\ w ∈ l.

(** The candidates are listed under their own name, were allocated before
    [next], and no two of them share an identity. *)
Definition points_inv m (next : N) : Prop :=
  (forall k w, listed m k w -> WayPoint.name w = k /\ (WayPoint.id w < next)%N)
  /\ (forall k w k' w',
        listed m k w -> listed m k' w' -> WayPoint.id w = WayPoint.id w' -> w = w').

Lemma listed_setdefault_append m k0 w0 k w :
  listed (NavDB.setdefault_append m k0 w0) k w
  <-> listed m k w \/ (k = k0 /\ w = w0).
Proof.
  unfold listed, NavDB.setdefault_append. destruct (decide (k = k0)) as [->|Hk].
  - rewrite lookup_insert_eq. split.
    + intros (l & [= <-] & Hw). apply elem_of_app in Hw as [Hw|Hw].
      * left. destruct (m !! k0) as [l0|]; [eauto|inversion Hw].
      * right. apply list_elem_of_singleton in Hw. auto.
    + intros [(l & Hl & Hw)|[_ ->]]; eexists; (split; [reflexivity|]).
      * rewrite Hl. apply elem_of_app. left. exact Hw.
      * apply elem_of_app. right. left.
  - rewrite lookup_insert_ne by congruence. split; [auto|].
    intros [H|[Hk' _]]; [exact H|contradiction].
Qed.

Lemma listed_first m k (n : nat) :
  length (default [] (m !! k)) = S n -> exists w l, m !! k = Some (w :: l).
Proof. destruct (m !! k) as [[|w l]|]; cbn; try discriminate; eauto. Qed.

Lemma points_inv_empty (next : N) : points_inv ∅ next.
Proof.
  split.
  - intros k w (l & Hl & _). rewrite lookup_empty in Hl. discriminate.
  - intros k w k' w' (l & Hl & _). rewrite lookup_empty in Hl. discriminate.
Qed.

Lemma points_inv_append m w :
  points_inv m (WayPoint.id w) ->
  points_inv (NavDB.setdefault_append m (WayPoint.name w) w) (N.succ (WayPoint.id w)).
Proof.
  intros [Hname Hid]. split.
  - intros k w' [Hold|[-> ->]]%listed_setdefault_append.
    + destruct (Hname k w' Hold) as [Hn Hlt]. split; [exact Hn|lia].
    + split; [reflexivity|lia].
  - intros k w1 k' w2 [H1|[-> ->]]%listed_setdefault_append
      [H2|[-> ->]]%listed_setdefault_append Heq.
    + exact (Hid k w1 k' w2 H1 H2 Heq).
    + destruct (Hname k w1 H1) as [_ Hlt]. lia.
    + destruct (Hname k' w2 H2) as [_ Hlt]. lia.
    + reflexivity.
Qed.

(** A parser of data lines that allocates at the identity it is given. *)
Definition allocates (data : N -> string -> result WayPoint.t) : Prop :=
  forall i l w, data i l = Ok w -> WayPoint.id w = i.

Lemma allocates_navaid_line : allocates NavDB.navaid_line.
Proof.
  intros i l w. unfold NavDB.navaid_line.
  destruct (PyFloat.float _); cbn [bind]; [|discriminate].
  destruct (PyFloat.float _); cbn [bind]; [|discriminate].
  intros [= <-]. reflexivity.
Qed.

Lemma allocates_fix_line : allocates NavDB.fix_line.
Proof.
  intros i l w. unfold NavDB.fix_line.
  destruct (PyFloat.float _); cbn [bind]; [|discriminate].
  destruct (PyFloat.float _); cbn [bind]; [|discriminate].
  intros [= <-]. reflexivity.
Qed.

Lemma allocates_runway_line : allocates NavDB.runway_line.
Proof.
  intros i l w. unfold NavDB.runway_line.
  destruct (PyFloat.float _); cbn [bind]; [|discriminate].
  destruct (PyFloat.float _); cbn [bind]; [|discriminate].
  intros [= <-]. reflexivity.
Qed.

Lemma allocates_airport_line : allocates NavDB.airport_line.
Proof.
  intros i l w. unfold NavDB.airport_line.
  destruct (PyFloat.float _); cbn [bind]; [|discriminate].
  destruct (PyFloat.float _); cbn [bind]; [|discriminate].
  intros [= <-]. reflexivity.
Qed.

Lemma point_step_inv label data (st st' : NavDB.points) (l : string) :
  allocates data ->
  points_inv (NavDB.p_wpts st) (NavDB.p_next st) ->
  NavDB.point_step label data st l = Ok st' ->
  points_inv (NavDB.p_wpts st') (NavDB.p_next st').
Proof.
  intros Hdata Hinv. unfold NavDB.point_step.
  destruct (NavDB.is_comment l) as [[]|]; cbn [bind]; [| |discriminate].
  - destruct (NavDB.check_cycle _ _ _); cbn [bind]; [|discriminate].
    intros [= <-]. exact Hinv.
  - destruct (data (NavDB.p_next st) l) as [w|] eqn:Hw; cbn [bind]; [|discriminate].
    intros [= <-]. cbn. rewrite <- (Hdata _ _ _ Hw) in *.
    apply points_inv_append, Hinv.
Qed.

Lemma point_loop_inv label data (f : list string) : forall st st' : NavDB.points,
  allocates data ->
  points_inv (NavDB.p_wpts st) (NavDB.p_next st) ->
  NavDB.point_loop label data st f = Ok st' ->
  points_inv (NavDB.p_wpts st') (NavDB.p_next st').
Proof.
  induction f as [|l f IH]; intros st st' Hdata Hinv; cbn [NavDB.point_loop].
  - intros [= <-]. exact Hinv.
  - destruct (NavDB.point_step label data st l) as [st1|] eqn:Hstep; cbn [bind];
      [|discriminate].
    apply IH; [exact Hdata|]. exact (point_step_inv _ _ _ _ _ Hdata Hinv Hstep).
Qed.

(** In a database that [_load] returned, candidates are listed under their
    own names and are distinct instances. *)
Lemma load_points_inv (self db : NavDB.t) (d : navdata) :
  NavDB._load self d = Ok db ->
  exists next, points_inv (NavDB._wpts db) next.
Proof.
  unfold NavDB._load.
  destruct (NavDB.point_loop "wpNavAID.txt" _ _ _) as [st1|] eqn:H1; cbn [bind];
    [|discriminate].
  destruct (NavDB.point_loop "wpNavFIX.txt" NavDB.fix_line _ _) as [st2|] eqn:H2;
    cbn [bind]; [|discriminate].
  destruct (NavDB.point_loop "wpNavFIX.txt" NavDB.runway_line _ _) as [st3|] eqn:H3;
    cbn [bind]; [|discriminate].
  destruct (NavDB.point_loop "airports.dat" _ _ _) as [st4|] eqn:H4; cbn [bind];
    [|discriminate].
  destruct (NavDB.load_airways _ _) as [st5|]; cbn [bind]; [|discriminate].
  intros [= <-]. cbn [NavDB._wpts]. exists (NavDB.p_next st4).
  apply point_loop_inv in H1; [|apply allocates_navaid_line|apply points_inv_empty].
  apply point_loop_inv in H2; [|apply allocates_fix_line|exact H1].
  apply point_loop_inv in H3; [|apply allocates_runway_line|exact H2].
  apply point_loop_inv in H4; [|apply allocates_airport_line|exact H3].
  exact H4.
Qed.

(** C1: in a database that [_load] returned and that lists candidates
    under EGLL, BOGNA and EGKK, [expandFPL("EGLL DCT BOGNA EGKK")] returns
    copies of three waypoints, in this order: the first EGLL, the BOGNA
    the resolver picks against it, the first EGKK, which bear these names.  The token DCT
    adds none. *)
Theorem expandFPL_EGLL_DCT_BOGNA_EGKK (self db : NavDB.t) (d : navdata)
    (egll bogna egkk : WayPoint.t) (egll' bogna' egkk' : list WayPoint.t) :
  NavDB._load self d = Ok db ->
  NavDB._wpts db !! "EGLL" = Some (egll :: egll') ->
  NavDB._wpts db !! "BOGNA" = Some (bogna :: bogna') ->
  NavDB._wpts db !! "EGKK" = Some (egkk :: egkk') ->
  exists w,
    w ∈ bogna :: bogna'
    /\ NavDB.getClosest db "BOGNA" (Some egll) = Ok w
    /\ NavDB.expandFPL db "EGLL DCT BOGNA EGKK"
       = Ok [WayPoint.copy (NavDB.next_id db) egll;
             WayPoint.copy (N.succ (NavDB.next_id db)) w;
             WayPoint.copy (N.succ (N.succ (NavDB.next_id db))) egkk]
    /\ map WayPoint.name [egll; w; egkk] = ["EGLL"; "BOGNA"; "EGKK"].
Proof.
  intros Hload Hegll Hbogna Hegkk.
  destruct (load_points_inv self db d Hload) as (next & Hname & Hid).
  assert (Hl_egll : listed (NavDB._wpts db) "EGLL" egll).
  { exists (egll :: egll'). split; [exact Hegll|left]. }
  assert (Hl_egkk : listed (NavDB._wpts db) "EGKK" egkk).
  { exists (egkk :: egkk'). split; [exact Hegkk|left]. }
  assert (Hl_bogna : forall c, c ∈ bogna :: bogna' -> listed (NavDB._wpts db) "BOGNA" c).
  { intros c Hc. exists (bogna :: bogna'). split; [exact Hbogna|exact Hc]. }
  destruct (expand_EGLL_DCT_BOGNA_EGKK db egll bogna egkk egll' bogna' egkk'
              Hegll Hbogna Hegkk) as (w & Hw & Hget & Hexp).
  { intros c Hc Heq.
    pose proof (Hid _ _ _ _ (Hl_bogna c Hc) Hl_egll Heq) as ->.
    destruct (Hname _ _ (Hl_bogna egll Hc)) as [Hn1 _].
    destruct (Hname _ _ Hl_egll) as [Hn2 _]. congruence. }
  exists w. split; [exact Hw|]. split; [exact Hget|]. split; [exact Hexp|].
  cbn [map].
  destruct (Hname _ _ Hl_egll) as [-> _].
  destruct (Hname _ _ Hl_egkk) as [-> _].
  destruct (Hname _ _ (Hl_bogna w Hw)) as [-> _].
  reflexivity.
Qed.

(** *** Routes *)

(** The names of a route are those of its waypoints, index by index. *)
Definition aligned (r : Route.t) : Prop :=
  Route._wptnames r = map WayPoint.name (Route._wpts r).

Lemma aligned_length (r : Route.t) :
  aligned r -> length (Route._wpts r) = length (Route._wptnames r).
Proof. unfold aligned. intros ->. rewrite length_map. reflexivity. Qed.

Lemma aligned_init (_name : string) : aligned (Route.__init__ _name).
Proof. reflexivity. Qed.

Lemma aligned_addWaypoint (r : Route.t) (w : WayPoint.t) :
  aligned r -> aligned (Route.addWaypoint r w).
Proof.
  unfold aligned. cbn [Route.addWaypoint Route._wpts Route._wptnames].
  intros ->. rewrite map_app. reflexivity.
Qed.

Definition airways_inv (st : NavDB.airways) : Prop :=
  (forall k r, NavDB.a_awys st !! k = Some r -> aligned r)
  /\ (forall r, NavDB.a_cawy st = Some r -> aligned r).

Lemma aligned_insert (awys : gmap string Route.t) (r : Route.t) :
  (forall k r', awys !! k = Some r' -> aligned r') ->
  aligned r ->
  forall k r', <[Route.name r := r]> awys !! k = Some r' -> aligned r'.
Proof.
  intros Hall Hr k r'. destruct (decide (k = Route.name r)) as [->|Hk].
  - rewrite lookup_insert_eq. intros [= <-]. exact Hr.
  - rewrite lookup_insert_ne by congruence. apply Hall.
Qed.

Lemma airway_step_inv (st st' : NavDB.airways) (l : string) :
  airways_inv st -> NavDB.airway_step st l = Ok st' -> airways_inv st'.
Proof.
  intros [Hawys Hcawy]. unfold NavDB.airway_step.
  destruct (NavDB.is_comment l) as [[]|]; cbn [bind]; [| |discriminate].
  - destruct (NavDB.check_cycle _ _ _); cbn [bind]; [|discriminate].
    intros [= <-]. split; assumption.
  - destruct (Py.split l) as [|name [|nr [|wptname [|lats [|lons [|]]]]]];
      try discriminate.
    unfold NavDB.airway_line.
    assert (Hopen : aligned match NavDB.a_cawy st with
                            | Some r => r
                            | None => Route.__init__ name
                            end).
    { destruct (NavDB.a_cawy st) as [r|] eqn:Hr; [apply Hcawy; reflexivity|].
      apply aligned_init. }
    destruct (String.eqb _ name);
      (destruct (PyFloat.float lats); cbn [bind]; [|discriminate]);
      (destruct (PyFloat.float lons); cbn [bind]; [|discriminate]);
      intros [= <-]; split; cbn [NavDB.a_awys NavDB.a_cawy].
    + exact Hawys.
    + intros r [= <-]. apply aligned_addWaypoint, Hopen.
    + apply aligned_insert; assumption.
    + intros r [= <-]. apply aligned_addWaypoint, aligned_init.
Qed.

Lemma airway_loop_inv (f : list string) : forall st st' : NavDB.airways,
  airways_inv st -> NavDB.airway_loop st f = Ok st' -> airways_inv st'.
Proof.
  induction f as [|l f IH]; intros st st' Hinv; cbn [NavDB.airway_loop].
  - intros [= <-]. exact Hinv.
  - destruct (NavDB.airway_step st l) as [st1|] eqn:Hstep; cbn [bind]; [|discriminate].
    apply IH. exact (airway_step_inv _ _ _ Hinv Hstep).
Qed.

(** The routes of a database that [_load] returned are aligned. *)
Lemma load_routes_aligned (self db : NavDB.t) (d : navdata) (k : string) (r : Route.t) :
  NavDB._load self d = Ok db ->
  NavDB._awys db !! k = Some r ->
  aligned r.
Proof.
  unfold NavDB._load.
  repeat match goal with
         | |- bind (NavDB.point_loop ?a ?b ?c ?f) _ = _ -> _ =>
             destruct (NavDB.point_loop a b c f); cbn [bind]; [|discriminate]
         end.
  unfold NavDB.load_airways.
  destruct (NavDB.airway_loop _ _) as [st|] eqn:Hloop; cbn [bind]; [|discriminate].
  apply airway_loop_inv in Hloop as [Hawys Hcawy].
  2:{ split; cbn; [intros k' r' Hk'; rewrite lookup_empty in Hk'|]; discriminate. }
  unfold NavDB.airway_flush. destruct (NavDB.a_cawy st) as [cawy|] eqn:Hc; [|discriminate].
  cbn [bind]. intros [= <-]. cbn [NavDB._awys NavDB.a_awys].
  apply aligned_insert; [exact Hawys|]. apply Hcawy. reflexivity.
Qed.

End LoadedDatabase.

(** ** The properties at concrete inputs *)

Lemma expandFPL_EGLL_DCT_BOGNA_EGKK_witness :
  exists db out,
    NavDB._load Example.blank Example.files = Ok db
    /\ NavDB.expandFPL db "EGLL DCT BOGNA EGKK" = Ok out
    /\ map WayPoint.name out = ["EGLL"; "BOGNA"; "EGKK"].
Proof.
  assert (Hlisted :
    match NavDB._load Example.blank Example.files with
    | Ok db => map (fun k => length (default [] (NavDB._wpts db !! k)))
                 ["EGLL"; "BOGNA"; "EGKK"]
    | Raise _ => []
    end = [1; 2; 1]%nat) by (vm_compute; reflexivity).
  destruct (NavDB._load Example.blank Example.files) as [db|e] eqn:Hload;
    [|discriminate].
  injection Hlisted as Hegll Hbogna Hegkk.
  destruct (listed_first _ _ _ Hegll) as (egll & egll' & H1).
  destruct (listed_first _ _ _ Hbogna) as (bogna & bogna' & H2).
  destruct (listed_first _ _ _ Hegkk) as (egkk & egkk' & H3).
  destruct (expandFPL_EGLL_DCT_BOGNA_EGKK Example.blank db Example.files
              egll bogna egkk egll' bogna' egkk' Hload H1 H2 H3)
    as (w & _ & _ & Hexp & Hnames).
  exists db. eexists. split; [reflexivity|]. split; [exact Hexp|]. exact Hnames.
Defined.

Lemma getClosest_minimal_first_witness :
  exists w, NavDB.getClosest Example.db "BOGNA" (Some Example.ref) = Ok w.
Proof.
  edestruct (@getClosest_minimal_first Standin.externals Example.db "BOGNA" Example.ref)
    as (k & w & Hget & _).
  - vm_compute. reflexivity.
  - cbn. lia.
  - intros c Hc.
    repeat (apply elem_of_cons in Hc as [->|Hc]; [vm_compute; reflexivity|]).
    inversion Hc.
  - exists w. exact Hget.
Defined.

(** C2, as stated, fails: the fix file lists two points TWINS, the first
    with the latitude [nan], which [float] reads as it reads a number, and
    the second at the reference point.  The distance of the first to the
    reference point is NaN and that of the second is zero; [min] holds the
    NaN, which no float is below, and the resolver returns the first
    point. *)
Lemma getClosest_minimal_first_counterexample :
  exists w c,
    NavDB._wpts Example.twins !! "TWINS" = Some [w; c]
    /\ NavDB.getClosest Example.twins "TWINS" (Some Example.ref) = Ok w
    /\ is_nan (@dist Standin.externals w Example.ref) = true
    /\ @dist Standin.externals c Example.ref = 0%float
    /\ (@dist Standin.externals w Example.ref <=? @dist Standin.externals c Example.ref)%float = false
    /\ (@dist Standin.externals c Example.ref <? @dist Standin.externals w Example.ref)%float = false.
Proof.
  do 2 eexists. split; [vm_compute; reflexivity|].
  repeat split; vm_compute; reflexivity.
Qed.

Lemma getWaypoints_segment_witness :
  exists seg,
    Route.getWaypoints
      (route_ABCD Example.wa Example.wb Example.wc Example.wd) "B" "D" = Ok seg
    /\ length seg = 2%nat.
Proof.
  destruct (proj1 getWaypoints_segment
              (route_ABCD Example.wa Example.wb Example.wc Example.wd) "B" "D"
              1%nat 3%nat) as (seg & Hseg & Hlen & _).
  - reflexivity.
  - split; [reflexivity|]. intros [|k] Hk; [cbn; discriminate|lia].
  - split; [reflexivity|]. intros [|[|[|k]]] Hk; cbn; try discriminate. lia.
  - exists seg. split; [exact Hseg|exact Hlen].
Defined.

Lemma four_letters_is_airport_witness :
  is_Some (NavDB._wpts Example.db !! "EGLL")
  /\ NavDB.getFPLelemtype Example.db "EGLL" = Some "apt"
  /\ NavDB.getFPLelemtype Example.db "NATO" = Some "nat".
Proof.
  split; [|split].
  - vm_compute. eexists. reflexivity.
  - apply (proj1 (four_letters_is_airport Example.db "EGLL" eq_refl eq_refl)).
    vm_compute. discriminate.
  - apply (proj2 (four_letters_is_airport Example.db "NATO" eq_refl eq_refl)).
    reflexivity.
Defined.

(** C5, as stated, fails: "NATO" has four alphabetic characters and no
    digit and names a point of the database, and is not classified as an
    airport but as a NAT track. *)
Lemma four_letters_counterexample :
  String.length "NATO" = 4%nat
  /\ Py.isalpha "NATO" = true
  /\ Py.count_c Py.isdigit_c "NATO" = 0%nat
  /\ is_Some (NavDB._wpts Example.db !! "NATO")
  /\ NavDB.getFPLelemtype Example.db "NATO" = Some "nat"
  /\ NavDB.getFPLelemtype Example.db "NATO" <> Some "apt".
Proof.
  repeat split; try reflexivity.
  - vm_compute. eexists. reflexivity.
  - vm_compute. discriminate.
Qed.

Lemma expandFPL_illegal_character_witness :
  NavDB.expandFPL Example.db "EGLL EG-LL EGKK" = Raise (IllegalCharacterError "EG-LL").
Proof.
  apply (proj1 (expandFPL_illegal_character Example.db "EGLL EG-LL EGKK")
           ["EGLL"] "EG-LL" ["EGKK"]).
  - reflexivity.
  - constructor; [|constructor]. apply illegal_false_iff. reflexivity.
  - intros Hlegal%illegal_false_iff. vm_compute in Hlegal. discriminate.
Defined.

(** C6, as stated, fails twice: the token "A..BC" has more than one point
    and no illegal-character error is raised for it, and the token "." is
    made of allowed characters, with one point and no slash, and the error
    is raised for it. *)
Lemma expandFPL_illegal_character_counterexample :
  (Py.split "A..BC" = ["A..BC"]
   /\ (1 < Py.count "." "A..BC")%nat
   /\ NavDB.expandFPL Example.blank "A..BC" = Ok [])
  /\ (Py.split "." = ["."]
      /\ Py.count "." "." = 1%nat /\ Py.count "/" "." = 0%nat
      /\ NavDB.expandFPL Example.blank "." = Raise (IllegalCharacterError ".")).
Proof.
  split; [split; [reflexivity|split; [cbn; lia|reflexivity]]|].
  repeat split.
Qed.

Lemma load_runway_mismatch_names_fix_file_witness :
  @NavDB.__init__ Standin.externals Example.mismatch_apt
  = Raise (WrongAIRACcycleError "wpNavFIX.txt").
Proof.
  apply (@load_runway_mismatch_names_fix_file Standin.externals).
  intros s _. eexists. reflexivity.
Defined.

Lemma load_airways_without_data_witness :
  exists e, NavDB._load Example.blank Example.no_lines = Raise e.
Proof.
  apply (proj1 (@load_airways_without_data Standin.externals Example.blank
                  Example.no_lines (Forall_nil_2 _))).
Defined.

Lemma expandFPL_unnamed_fix_first_witness :
  exists e, NavDB.expandFPL Example.db "DCT N1234.5/E16759.9 EGLL" = Raise e.
Proof.
  apply (proj1 (@expandFPL_unnamed_fix_first Standin.externals Example.db
                  "DCT N1234.5/E16759.9 EGLL" 1 "N1234.5/E16759.9"
                  eq_refl eq_refl
                  (fun st H => ltac:(vm_compute in H; injection H as <-; reflexivity)))).
Defined.

(** The threshold of the proximity test is the number that [1 / 10]
    rounds to in binary64. *)
Lemma proximity_denotes :
  NavDB.proximity = (1 / 10)%float
  /\ exists q, PyFloat.to_Q NavDB.proximity = Some q
       /\ (q == 3602879701896397 # 36028797018963968)%Q.
Proof.
  split; [vm_compute; reflexivity|].
  eexists. split; [vm_compute; reflexivity|]. reflexivity.
Qed.

(** * Further properties of the code *)

(** ** The classifier and what it hands on *)

Section ClassifierRoutes.
Context {E : Externals}.
Implicit Types (db : NavDB.t) (elem : string).

(** X1 *)
Theorem getFPLelemtype_None_iff db elem :
  (NavDB.getFPLelemtype db elem = None
   <-> exists c, elem = "NAT" +:+ String c EmptyString /\ Py.isalpha_c c = false)
  /\ (forall r, NavDB.getFPLelemtype db elem = Some r -> r ∈ roles).
Proof.
  split; [split|].
  - intros Hnone.
    destruct (getFPLelemtype_cases db elem) as [(r & _ & Hr)|(_ & Hlen & Hnat)];
      [congruence|].
    destruct elem as [|a [|b [|c [|d [|e elem]]]]]; try discriminate.
    injection Hnat as -> -> ->. exists d. split; [reflexivity|].
    destruct (Py.isalpha_c d) eqn:Hd; [|reflexivity].
    exfalso. revert Hnone Hd.
    destruct d as [[] [] [] [] [] [] [] []]; vm_compute; congruence.
  - intros (c & -> & Hc). revert Hc.
    destruct c as [[] [] [] [] [] [] [] []]; vm_compute; congruence.
  - intros r Hr.
    destruct (getFPLelemtype_cases db elem) as [(r' & Hin & Hr')|(Hn & _)];
      congruence.
Qed.

(** A token is classified as an airway only when the database has an
    airway of that name, and as a procedure only when the database has
    neither an airway nor a point of that name. *)
Lemma getFPLelemtype_known db elem :
  (NavDB.getFPLelemtype db elem = Some "awy" -> is_Some (NavDB._awys db !! elem))
  /\ (NavDB.getFPLelemtype db elem = Some "prc" ->
      NavDB._awys db !! elem = None /\ NavDB._wpts db !! elem = None).
Proof.
  unfold NavDB.getFPLelemtype.
  repeat match goal with
         | |- context [if ?b then _ else _] => destruct b eqn:?
         end;
    (split; [intros [=]|intros [=]]).
  - match goal with
    | H : bool_decide (is_Some (NavDB._awys _ !! _)) = true |- _ =>
        apply bool_decide_eq_true in H; exact H
    end.
  - split; apply eq_None_not_Some;
      match goal with
      | H : bool_decide ?P = false |- ~ ?P => apply bool_decide_eq_false in H; exact H
      end.
Qed.

End ClassifierRoutes.

(** ** The decoder and the classifier *)

Section DecoderRoutes.
Context {E : Externals}.
Implicit Types (db : NavDB.t) (elem : string).

Lemma digit_not_direction (c : ascii) :
  Py.isdigit_c c = true ->
  Ascii.eqb "N" c = false /\ Ascii.eqb "S" c = false
  /\ Ascii.eqb "W" c = false /\ Ascii.eqb "E" c = false.
Proof.
  destruct c as [[] [] [] [] [] [] [] []]; vm_compute; intros; try discriminate;
    repeat split.
Qed.

(** The two rules of the classifier for unnamed fixes, on the counts. *)
Lemma getFPLelemtype_ufx_long db elem :
  elem <> "DCT" ->
  NavDB.no_dir elem = 2%nat ->
  NavDB.mem_nat (String.length elem) [7; 11; 12; 15; 16]%nat = true ->
  (5 <= Py.count_c Py.isdigit_c elem)%nat ->
  NavDB.getFPLelemtype db elem = Some "ufx".
Proof.
  intros Hdct Hdir Hlen Hdig. unfold NavDB.getFPLelemtype.
  destruct (String.eqb_spec elem "DCT") as [?|_]; [contradiction|].
  rewrite Hdir, Hlen. apply Nat.leb_le in Hdig. rewrite Hdig. reflexivity.
Qed.

Lemma getFPLelemtype_ufx_half db elem :
  String.length elem = 5%nat ->
  Py.char_is 0 elem "H" = true ->
  Py.count_c Py.isdigit_c elem = 4%nat ->
  NavDB.getFPLelemtype db elem = Some "ufx".
Proof.
  intros Hlen HH Hdig. unfold NavDB.getFPLelemtype.
  destruct (String.eqb_spec elem "DCT") as [->|_]; [discriminate|].
  rewrite Hlen, HH, Hdig. cbn [NavDB.mem_nat existsb Nat.eqb orb].
  rewrite andb_false_r. reflexivity.
Qed.

(** Reads the format test of the decoder as facts on the characters. *)
Ltac read_format H :=
  cbv [UnnamedWaypoint.well_formed UnnamedWaypoint.one_of UnnamedWaypoint.digit_at
       Py.char_is Py.isdigit Py.slice Py.forall_c Py.nonempty
       String.length String.get substring Nat.sub] in H;
  repeat match goal with
         | H' : (_ && _) = true |- _ => apply andb_prop in H' as [? ?]
         | H' : (_ || _) = true |- _ => apply orb_prop in H' as [?|?]
         | H' : Ascii.eqb _ _ = true |- _ => apply Ascii.eqb_eq in H'; subst
         | H' : true = true |- _ => clear H'
         end.

(** Counts the digits and direction letters of a token whose characters
    are known. *)
Ltac count_marks :=
  repeat match goal with
         | H : Py.isdigit_c ?c = true |- _ =>
             destruct (digit_not_direction c H) as (? & ? & ? & ?);
             revert H
         end;
  intros;
  cbv [NavDB.no_dir Py.count Py.count_c NavDB.mem_nat existsb String.length];
  repeat match goal with
         | H : Py.isdigit_c _ = true |- _ => rewrite H
         | H : Ascii.eqb _ _ = false |- _ => rewrite H
         end.

(** A token that passes the format test of the decoder is classified as an
    unnamed fix. *)
Lemma well_formed_is_ufx db elem :
  UnnamedWaypoint.well_formed (String.length elem) elem = true ->
  NavDB.getFPLelemtype db elem = Some "ufx".
Proof.
  intros Hwf.
  assert (Hdct : elem <> "DCT") by (intros ->; discriminate).
  destruct elem as
    [|c0 [|c1 [|c2 [|c3 [|c4 [|c5 [|c6 [|c7 [|c8 [|c9 [|c10 [|c11 [|c12
      [|c13 [|c14 [|c15 [|c16 elem]]]]]]]]]]]]]]]]].
  all: try (exfalso; clear Hdct; revert Hwf;
            cbv [UnnamedWaypoint.well_formed String.length]; discriminate).
  all: read_format Hwf.
  all: first
    [ apply getFPLelemtype_ufx_half; [reflexivity|reflexivity|count_marks; reflexivity]
    | apply getFPLelemtype_ufx_long;
        [exact Hdct|count_marks; reflexivity|reflexivity|count_marks; cbn; lia] ].
Qed.

End DecoderRoutes.

Section DecoderOutcome.
Context {E : Externals}.
Implicit Types (db : NavDB.t) (elem : string).

Lemma well_formed_length (n : nat) elem :
  UnnamedWaypoint.well_formed n elem = true -> n ∈ [5; 7; 11; 12; 15; 16]%nat.
Proof.
  intros Hwf.
  do 17 (destruct n as [|n];
         [first [discriminate Hwf | repeat constructor]|]).
  discriminate Hwf.
Qed.

(** X4: when the decoder returns a waypoint, the token has one of the six
    lengths 5, 7, 11, 12, 15, 16, the waypoint bears the token as its name
    and the type "uWPT", and its coordinates pass the bounds test; a token
    of any other length raises the format error. *)
Theorem UnnamedWaypoint_outcome (i : N) elem :
  (forall w, UnnamedWaypoint.__init__ i elem = Ok w ->
     String.length elem ∈ [5; 7; 11; 12; 15; 16]%nat
     /\ WayPoint.id w = i /\ WayPoint.name w = elem
     /\ WayPoint.type w = "uWPT" /\ WayPoint.descr w = ""
     /\ UnnamedWaypoint.out_of_bounds (WayPoint.lat w) (WayPoint.lon w) = false)
  /\ (String.length elem ∉ [5; 7; 11; 12; 15; 16]%nat ->
      UnnamedWaypoint.__init__ i elem = Raise (UnnamedFormatError elem)).
Proof.
  unfold UnnamedWaypoint.__init__. split.
  - intros w.
    destruct (UnnamedWaypoint.well_formed (String.length elem) elem) eqn:Hwf;
      cbn [negb]; [|discriminate].
    destruct (UnnamedWaypoint.coordinates _ _) as [[lat lon]|]; cbn [bind fst snd];
      [|discriminate].
    destruct (UnnamedWaypoint.out_of_bounds lat lon) eqn:Hb; [discriminate|].
    intros [= <-]. cbn.
    split; [exact (well_formed_length _ _ Hwf)|].
    repeat (split; [reflexivity|]). exact Hb.
  - intros Hlen.
    destruct (UnnamedWaypoint.well_formed (String.length elem) elem) eqn:Hwf;
      [|reflexivity].
    exfalso. exact (Hlen (well_formed_length _ _ Hwf)).
Qed.

(** X3: a token that the decoder does not reject for its format is
    classified as an unnamed fix, so every token the decoder can turn into
    a waypoint reaches the decoder. *)
Theorem decoder_accepts_classified db (i : N) elem :
  UnnamedWaypoint.__init__ i elem <> Raise (UnnamedFormatError elem) ->
  NavDB.getFPLelemtype db elem = Some "ufx".
Proof.
  intros Hnot. apply well_formed_is_ufx.
  destruct (UnnamedWaypoint.well_formed (String.length elem) elem) eqn:Hwf;
    [reflexivity|].
  exfalso. apply Hnot. unfold UnnamedWaypoint.__init__. rewrite Hwf. reflexivity.
Qed.

End DecoderOutcome.

(** ** The resolver and the routes *)

Section ResolverOutcome.
Context {E : Externals}.
Implicit Types (db : NavDB.t) (w : WayPoint.t) (name : string).

(** X7: the outcomes of [getClosest].  A name the database does not list
    raises [ElementNotFoundError]; without a reference point the call
    succeeds exactly when the name has one candidate, and raises
    [ElementAmbiguousError] otherwise; whatever it returns is one of the
    candidates listed under the name. *)
Theorem getClosest_outcome db name :
  (NavDB._wpts db !! name = None ->
   forall o, NavDB.getClosest db name o = Raise (ElementNotFoundError name))
  /\ (forall w, NavDB.getClosest db name None = Ok w
               <-> NavDB._wpts db !! name = Some [w])
  /\ (forall l, NavDB._wpts db !! name = Some l -> length l <> 1%nat ->
                NavDB.getClosest db name None = Raise (ElementAmbiguousError name))
  /\ (forall o w, NavDB.getClosest db name o = Ok w ->
                  exists l, NavDB._wpts db !! name = Some l /\ w ∈ l).
Proof.
  split; [|split; [|split]].
  - intros Hnone o. unfold NavDB.getClosest. rewrite Hnone. reflexivity.
  - intros w. unfold NavDB.getClosest.
    destruct (NavDB._wpts db !! name) as [[|w0 [|w1 l]]|]; cbn; split;
      try discriminate; congruence.
  - intros l Hl Hlen. unfold NavDB.getClosest. rewrite Hl. cbn [of_option bind].
    destruct l as [|w0 [|w1 l]]; cbn in Hlen; [reflexivity|lia|reflexivity].
  - intros o w Hget.
    destruct (NavDB._wpts db !! name) as [l|] eqn:Hl.
    2:{ unfold NavDB.getClosest in Hget. rewrite Hl in Hget. discriminate. }
    exists l. split; [reflexivity|].
    destruct o as [ref|].
    + destruct l as [|w0 l].
      * unfold NavDB.getClosest in Hget. rewrite Hl in Hget. discriminate.
      * destruct (getClosest_nearest db name ref (w0 :: l) Hl)
          as (k & w' & Hget' & Hk & _); [discriminate|].
        rewrite Hget' in Hget. injection Hget as <-.
        eapply list_elem_of_lookup_2. exact Hk.
    + unfold NavDB.getClosest in Hget. rewrite Hl in Hget.
      destruct l as [|w0 [|w1 l]]; try discriminate.
      injection Hget as <-. left.
Qed.

End ResolverOutcome.

Section RouteOutcome.
Implicit Types (r : Route.t) (names : list string).

Lemma index_None x names : Py.index x names = None <-> x ∉ names.
Proof.
  split.
  - intros Hnone [i Hi]%index_is_Some. congruence.
  - intros Hnot. destruct (Py.index x names) as [i|] eqn:Hi; [|reflexivity].
    exfalso. apply Hnot. apply index_first_at in Hi as [Hi _].
    eapply list_elem_of_lookup_2. exact Hi.
Qed.

Lemma getWaypoints_between r entry exit (i j : nat) :
  length (Route._wpts r) = length (Route._wptnames r) ->
  first_at entry (Route._wptnames r) i ->
  first_at exit (Route._wptnames r) j ->
  exists seg,
    Route.getWaypoints r entry exit = Ok seg
    /\ length seg = (if (j <? i)%nat then i - j else j - i)%nat
    /\ forall k, (k < length seg)%nat ->
         seg !! k = Route._wpts r !! (if (j <? i)%nat then i - k else i + k)%nat.
Proof.
  intros Hlen Hi Hj. unfold Route.getWaypoints.
  rewrite (proj2 (index_first_at entry _ i) Hi), (proj2 (index_first_at exit _ j) Hj).
  cbn [of_option bind].
  destruct Hi as [Hi _], Hj as [Hj _].
  apply lookup_lt_Some in Hi, Hj. rewrite <- Hlen in Hi, Hj.
  destruct (j <? i)%nat eqn:Hji.
  - apply Nat.ltb_lt in Hji.
    destruct (collect_lookup (Route._wpts r) (Py.range_down i j)) as (seg & -> & Hl & Hk).
    { apply Forall_forall. intros x Hx. unfold Py.range_down in Hx.
      apply list_elem_of_fmap in Hx as (k & -> & _). lia. }
    exists seg. split; [reflexivity|].
    unfold Py.range_down in Hl. rewrite length_fmap, length_seq in Hl.
    split; [exact Hl|]. intros k Hklt. apply Hk, range_down_lookup. lia.
  - apply Nat.ltb_ge in Hji.
    destruct (collect_lookup (Route._wpts r) (Py.range_up i j)) as (seg & -> & Hl & Hk).
    { apply Forall_forall. intros x Hx. unfold Py.range_up in Hx.
      apply elem_of_seq in Hx. lia. }
    exists seg. split; [reflexivity|].
    unfold Py.range_up in Hl. rewrite length_seq in Hl.
    split; [exact Hl|]. intros k Hklt. apply Hk, range_up_lookup. lia.
Qed.

(** X8: the outcomes of [getWaypoints].  An entry that is not on the route
    raises [NotOnAirwayError] naming the entry, also when the exit is
    missing too; an exit that is not on the route raises it naming the
    exit; with both on an aligned route the call returns waypoints of the
    route. *)
Theorem getWaypoints_outcome r entry exit :
  (entry ∉ Route._wptnames r ->
   Route.getWaypoints r entry exit = Raise (NotOnAirwayError entry (Route.name r)))
  /\ (entry ∈ Route._wptnames r -> exit ∉ Route._wptnames r ->
      Route.getWaypoints r entry exit = Raise (NotOnAirwayError exit (Route.name r)))
  /\ (length (Route._wpts r) = length (Route._wptnames r) ->
      entry ∈ Route._wptnames r -> exit ∈ Route._wptnames r ->
      exists seg, Route.getWaypoints r entry exit = Ok seg
                  /\ forall w, w ∈ seg -> w ∈ Route._wpts r).
Proof.
  split; [|split].
  - intros Hnot%index_None. unfold Route.getWaypoints. rewrite Hnot. reflexivity.
  - intros [i Hi]%index_is_Some Hnot%index_None. unfold Route.getWaypoints.
    rewrite Hi, Hnot. reflexivity.
  - intros Hlen [i Hi]%index_is_Some [j Hj]%index_is_Some.
    apply index_first_at in Hi, Hj.
    destruct (getWaypoints_between r entry exit i j Hlen Hi Hj) as (seg & Hseg & _ & Hk).
    exists seg. split; [exact Hseg|].
    intros w [k Hw]%list_elem_of_lookup_1.
    rewrite Hk in Hw by (eapply lookup_lt_Some; exact Hw).
    eapply list_elem_of_lookup_2. exact Hw.
Qed.

End RouteOutcome.

(** ** The steps of the expansion *)

Section ExpansionSteps.
Context {E : Externals}.
Implicit Types (db : NavDB.t) (st : NavDB.expansion) (fpl_arr : list string).

(** The airway branch is taken for a token classified as an airway that
    has a token on each side. *)
Lemma expand_step_awy db fpl_arr (i : nat) st elem (a b : string) :
  fpl_arr !! i = Some elem ->
  NavDB.getFPLelemtype db elem = Some "awy" ->
  (1 <= i)%nat ->
  fpl_arr !! (i - 1)%nat = Some a ->
  fpl_arr !! (i + 1)%nat = Some b ->
  exists r,
    NavDB._awys db !! elem = Some r
    /\ NavDB.expand_step db fpl_arr i st
       = bind (Route.getWaypoints r a b) (fun awy_wpts =>
           bind (of_option (last awy_wpts) IndexError) (fun last_wpt =>
             Ok {| NavDB.e_wpts := NavDB.e_wpts st ++ tail awy_wpts;
                   NavDB.e_last := Some last_wpt;
                   NavDB.e_apts := NavDB.e_apts st;
                   NavDB.e_next := NavDB.e_next st |})).
Proof.
  intros Htok Hty Hi Ha Hb.
  destruct (proj1 (getFPLelemtype_known db elem) Hty) as [r Hr].
  exists r. split; [exact Hr|].
  unfold NavDB.expand_step, NavDB.token. rewrite Htok. cbn [of_option bind].
  rewrite Hty.
  assert (Hn : ((1 <=? i)%nat && (i + 1 <? length fpl_arr)%nat) = true).
  { apply lookup_lt_Some in Hb. apply andb_true_iff.
    split; [apply Nat.leb_le; exact Hi|apply Nat.ltb_lt; exact Hb]. }
  rewrite Hn. cbn [NavDB.is_type String.eqb Ascii.eqb Bool.eqb andb].
  unfold NavDB.expand_awy, NavDB.token. rewrite Ha, Hb, Htok. cbn [of_option bind].
  rewrite Hr. reflexivity.
Qed.

(** X9: the step for an airway token between two fixes of the airway, the
    entry first at index [ia] and the exit first at a different index
    [ib].  It appends the waypoints strictly between the two, in the order
    of travel, and neither the entry nor the exit; what was collected
    before stays; the last resolved waypoint becomes the waypoint of the
    airway next to the exit, on the side of the entry. *)
Theorem expand_step_awy_between db fpl_arr (i : nat) st elem (a b : string)
    (r : Route.t) (ia ib : nat) :
  fpl_arr !! i = Some elem ->
  NavDB.getFPLelemtype db elem = Some "awy" ->
  (1 <= i)%nat ->
  fpl_arr !! (i - 1)%nat = Some a ->
  fpl_arr !! (i + 1)%nat = Some b ->
  NavDB._awys db !! elem = Some r ->
  length (Route._wpts r) = length (Route._wptnames r) ->
  first_at a (Route._wptnames r) ia ->
  first_at b (Route._wptnames r) ib ->
  ia <> ib ->
  exists st',
    NavDB.expand_step db fpl_arr i st = Ok st'
    /\ length (NavDB.e_wpts st')
       = (length (NavDB.e_wpts st) + (if (ib <? ia)%nat then ia - ib else ib - ia) - 1)%nat
    /\ (forall k, (k < length (NavDB.e_wpts st))%nat ->
                  NavDB.e_wpts st' !! k = NavDB.e_wpts st !! k)
    /\ (forall k, (S k < (if (ib <? ia)%nat then ia - ib else ib - ia))%nat ->
          NavDB.e_wpts st' !! (length (NavDB.e_wpts st) + k)%nat
          = Route._wpts r !! (if (ib <? ia)%nat then ia - S k else ia + S k)%nat)
    /\ NavDB.e_last st' = Route._wpts r !! (if (ib <? ia)%nat then S ib else ib - 1)%nat
    /\ is_Some (NavDB.e_last st')
    /\ NavDB.e_apts st' = NavDB.e_apts st.
Proof.
  intros Htok Hty Hi Ha Hb Hr Hlen Hia Hib Hne.
  destruct (expand_step_awy db fpl_arr i st elem a b Htok Hty Hi Ha Hb)
    as (r' & Hr' & ->).
  rewrite Hr in Hr'. injection Hr' as <-.
  destruct (getWaypoints_between r a b ia ib Hlen Hia Hib) as (seg & -> & Hl & Hk).
  cbn [bind].
  set (n := (if (ib <? ia)%nat then ia - ib else ib - ia)%nat) in *.
  assert (Hn : (0 < n)%nat).
  { subst n. destruct (Nat.ltb_spec ib ia); lia. }
  assert (Hlast : last seg
                  = Route._wpts r !! (if (ib <? ia)%nat then S ib else ib - 1)%nat).
  { rewrite last_lookup, Hk by lia. rewrite Hl. f_equal.
    subst n. destruct (Nat.ltb_spec ib ia); lia. }
  assert (Hsome : is_Some (last seg)).
  { rewrite last_lookup. apply lookup_lt_is_Some. lia. }
  destruct Hsome as [lw Hlw]. rewrite Hlw. cbn [of_option bind].
  eexists. split; [reflexivity|]. cbn [NavDB.e_wpts NavDB.e_last NavDB.e_apts].
  split; [rewrite length_app, length_tl; lia|].
  split; [intros k Hk'; apply lookup_app_l; exact Hk'|].
  split.
  - intros k Hk'. rewrite lookup_app_r by lia.
    replace (length (NavDB.e_wpts st) + k - length (NavDB.e_wpts st))%nat with k by lia.
    rewrite lookup_tail, Hk by lia.
    f_equal.
  - split; [rewrite <- Hlw; exact Hlast|]. split; [eauto|reflexivity].
Qed.

(** X10: an airway token whose two neighbours are the same fix of the
    airway raises [IndexError]: the segment is empty and its last element
    is read. *)
Theorem expand_step_awy_same_fix db fpl_arr (i : nat) st elem (a : string)
    (r : Route.t) :
  fpl_arr !! i = Some elem ->
  NavDB.getFPLelemtype db elem = Some "awy" ->
  (1 <= i)%nat ->
  fpl_arr !! (i - 1)%nat = Some a ->
  fpl_arr !! (i + 1)%nat = Some a ->
  NavDB._awys db !! elem = Some r ->
  a ∈ Route._wptnames r ->
  NavDB.expand_step db fpl_arr i st = Raise IndexError.
Proof.
  intros Htok Hty Hi Ha Hb Hr [ia Hia]%index_is_Some.
  destruct (expand_step_awy db fpl_arr i st elem a a Htok Hty Hi Ha Hb)
    as (r' & Hr' & ->).
  rewrite Hr in Hr'. injection Hr' as <-.
  unfold Route.getWaypoints. rewrite Hia. cbn [of_option bind].
  rewrite Nat.ltb_irrefl. unfold Py.range_up. rewrite Nat.sub_diag. reflexivity.
Qed.

(** What the step for a token classified as an airway can raise. *)
Definition airway_error (e : exn) : Prop :=
  match e with
  | NotOnAirwayError _ _ | IndexError => True
  | _ => False
  end.

(** X11: the step for a token classified as an airway raises nothing but
    [NotOnAirwayError] and [IndexError]; in particular the airway is always
    found, since the classifier answers "awy" only for a name of the
    airway map. *)
Theorem expand_step_awy_raises db fpl_arr (i : nat) st elem :
  fpl_arr !! i = Some elem ->
  NavDB.getFPLelemtype db elem = Some "awy" ->
  raises_only airway_error (NavDB.expand_step db fpl_arr i st).
Proof.
  intros Htok Hty.
  destruct (proj1 (getFPLelemtype_known db elem) Hty) as [r Hr].
  unfold NavDB.expand_step, NavDB.token. rewrite Htok. cbn [of_option bind].
  rewrite Hty. cbn [NavDB.is_type String.eqb Ascii.eqb Bool.eqb andb orb].
  destruct ((1 <=? i)%nat && (i + 1 <? length fpl_arr)%nat); [|apply raises_Ok].
  unfold NavDB.expand_awy, NavDB.token.
  apply raises_bind; [raises|intros a].
  apply raises_bind; [raises|intros b].
  rewrite Htok. cbn [of_option bind]. rewrite Hr. cbn [of_option bind].
  assert (Hcollect : forall wpts indices,
             raises_only airway_error (Route.collect wpts indices)).
  { intros wpts indices. induction indices; cbn [Route.collect]; raises. }
  unfold Route.getWaypoints. raises.
Qed.

(** X12: once two airports or runways have been resolved, the loop passes
    over further tokens classified as airport or runway without changing
    anything and without looking them up, so also when the database does
    not know them. *)
Theorem expand_loop_airports_ignored db fpl_arr (indices : list nat) st :
  (2 <= NavDB.e_apts st)%nat ->
  (forall i, i ∈ indices ->
     exists elem, fpl_arr !! i = Some elem
       /\ (NavDB.getFPLelemtype db elem = Some "apt"
           \/ NavDB.getFPLelemtype db elem = Some "rwy")) ->
  NavDB.expand_loop db fpl_arr indices st = Ok st.
Proof.
  intros Hapts. induction indices as [|i indices IH]; intros Hall;
    cbn [NavDB.expand_loop]; [reflexivity|].
  destruct (Hall i) as (elem & Htok & Hty); [left|].
  assert (Hstep : NavDB.expand_step db fpl_arr i st = Ok st).
  { unfold NavDB.expand_step, NavDB.token. rewrite Htok. cbn [of_option bind].
    assert (Hlt : (NavDB.e_apts st <? 2)%nat = false) by (apply Nat.ltb_ge; exact Hapts).
    destruct Hty as [-> | ->];
      cbn [NavDB.is_type String.eqb Ascii.eqb Bool.eqb andb orb];
      unfold NavDB.expand_apt; rewrite Hlt; reflexivity. }
  rewrite Hstep. cbn [bind]. apply IH. intros j Hj. apply Hall. right. exact Hj.
Qed.

Lemma split_aux_blank (s : string) :
  Py.forall_c Py.isspace_c s = true -> Py.split_aux EmptyString s = [].
Proof.
  induction s as [|c s IH]; cbn [Py.forall_c Py.split_aux]; [reflexivity|].
  intros [Hc Hs]%andb_prop. rewrite Hc. cbn [Py.nonempty]. exact (IH Hs).
Qed.

(** X14: a flight plan of blanks only, the empty string included, expands
    to the empty list. *)
Theorem expandFPL_blank db (_fpl : string) :
  Py.forall_c Py.isspace_c _fpl = true -> NavDB.expandFPL db _fpl = Ok [].
Proof.
  intros Hblank. unfold NavDB.expandFPL, Py.split.
  rewrite (split_aux_blank _ Hblank). reflexivity.
Qed.

End ExpansionSteps.

Section RepeatedFix.
Context {E : Externals}.
Implicit Types (db : NavDB.t) (st : NavDB.expansion) (fpl_arr : list string).

(** X13: a fix with one candidate that is named by several tokens in a
    row is appended once, and not at all when it is already the last
    resolved waypoint. *)
Theorem expand_loop_fix_repeated db fpl_arr (indices : list nat) st elem
    (w : WayPoint.t) :
  NavDB.getFPLelemtype db elem = Some "fix" ->
  NavDB._wpts db !! elem = Some [w] ->
  indices <> [] ->
  (forall i, i ∈ indices -> fpl_arr !! i = Some elem) ->
  NavDB.expand_loop db fpl_arr indices st
  = Ok (NavDB.append_if st
          (if WayPoint.eqb_opt w (NavDB.e_last st) then None else Some w)).
Proof.
  intros Hty Hw.
  assert (Hstep : forall i st', fpl_arr !! i = Some elem ->
            NavDB.expand_step db fpl_arr i st'
            = Ok (NavDB.append_if st'
                    (if WayPoint.eqb_opt w (NavDB.e_last st') then None else Some w))).
  { intros i st' Htok. rewrite (expand_step_fix db fpl_arr i st' elem Htok Hty).
    unfold NavDB.expand_fix, NavDB.getClosest. rewrite Hw. reflexivity. }
  assert (Hrest : forall l st', WayPoint.eqb_opt w (NavDB.e_last st') = true ->
            (forall i, i ∈ l -> fpl_arr !! i = Some elem) ->
            NavDB.expand_loop db fpl_arr l st' = Ok st').
  { induction l as [|i l IH]; intros st' Hlast Hall; cbn [NavDB.expand_loop];
      [reflexivity|].
    rewrite (Hstep i st') by (apply Hall; left). rewrite Hlast.
    cbn [bind NavDB.append_if]. apply IH; [exact Hlast|].
    intros j Hj. apply Hall. right. exact Hj. }
  destruct indices as [|i l]; [congruence|]. intros _ Hall.
  cbn [NavDB.expand_loop]. rewrite (Hstep i st) by (apply Hall; left). cbn [bind].
  apply Hrest; [|intros j Hj; apply Hall; right; exact Hj].
  destruct (WayPoint.eqb_opt w (NavDB.e_last st)) eqn:Heq;
    cbn [NavDB.append_if NavDB.e_last]; [exact Heq|].
  cbn [WayPoint.eqb_opt]. unfold WayPoint.eqb. apply N.eqb_refl.
Qed.

End RepeatedFix.

(** ** What a loaded database holds *)

Section LoadedContents.
Context {E : Externals}.
Implicit Types (self db : NavDB.t) (d : navdata) (l : string)
  (m : gmap string (list WayPoint.t)).

(** A property of the candidate map that appending a candidate keeps is
    kept by the loop over a point file. *)
Lemma point_loop_keeps (P : gmap string (list WayPoint.t) -> Prop) label data
    (f : list string) :
  (forall m k w, P m -> P (NavDB.setdefault_append m k w)) ->
  forall st st' : NavDB.points,
    P (NavDB.p_wpts st) ->
    NavDB.point_loop label data st f = Ok st' ->
    P (NavDB.p_wpts st').
Proof.
  intros Hkeep. induction f as [|l f IH]; intros st st' HP; cbn [NavDB.point_loop].
  - intros [= <-]. exact HP.
  - unfold NavDB.point_step.
    destruct (NavDB.is_comment l) as [[]|]; cbn [bind]; [| |discriminate].
    + destruct (NavDB.check_cycle _ _ _); cbn [bind]; [|discriminate].
      apply IH. exact HP.
    + destruct (data (NavDB.p_next st) l) as [w|]; cbn [bind]; [|discriminate].
      apply IH. cbn. apply Hkeep, HP.
Qed.

(** No name is listed with an empty candidate list. *)
Definition no_empty_list m : Prop := forall k c, m !! k = Some c -> c <> [].

Lemma no_empty_list_append m k w :
  no_empty_list m -> no_empty_list (NavDB.setdefault_append m k w).
Proof.
  intros Hm k' c. unfold NavDB.setdefault_append.
  destruct (decide (k' = k)) as [->|Hk].
  - rewrite lookup_insert_eq. intros [= <-]. intros Happ.
    apply app_eq_nil in Happ as [_ Hnil]. discriminate.
  - rewrite lookup_insert_ne by congruence. apply Hm.
Qed.

Lemma load_no_empty_list self db d :
  NavDB._load self d = Ok db -> no_empty_list (NavDB._wpts db).
Proof.
  unfold NavDB._load.
  destruct (NavDB.point_loop "wpNavAID.txt" _ _ _) as [st1|] eqn:H1; cbn [bind];
    [|discriminate].
  destruct (NavDB.point_loop "wpNavFIX.txt" NavDB.fix_line _ _) as [st2|] eqn:H2;
    cbn [bind]; [|discriminate].
  destruct (NavDB.point_loop "wpNavFIX.txt" NavDB.runway_line _ _) as [st3|] eqn:H3;
    cbn [bind]; [|discriminate].
  destruct (NavDB.point_loop "airports.dat" _ _ _) as [st4|] eqn:H4; cbn [bind];
    [|discriminate].
  destruct (NavDB.load_airways _ _) as [st5|]; cbn [bind]; [|discriminate].
  intros [= <-]. cbn [NavDB._wpts].
  pose proof no_empty_list_append as Hk.
  apply (point_loop_keeps no_empty_list) in H1; [|exact Hk|].
  2:{ intros k c Hc. cbn in Hc. rewrite lookup_empty in Hc. discriminate. }
  apply (point_loop_keeps no_empty_list) in H2; [|exact Hk|exact H1].
  apply (point_loop_keeps no_empty_list) in H3; [|exact Hk|exact H2].
  apply (point_loop_keeps no_empty_list) in H4; [|exact Hk|exact H3].
  exact H4.
Qed.

(** X15: in a database that [_load] returned, every listed name has at
    least one candidate and each candidate bears the name it is listed
    under; candidates of equal identity are the same candidate under the
    same name; and [self._wpts[key][0]] either returns a candidate named
    [key] or raises [KeyError], never [IndexError]. *)
Theorem load_candidates self db d :
  NavDB._load self d = Ok db ->
  (forall k c, NavDB._wpts db !! k = Some c ->
     c <> [] /\ forall w, w ∈ c -> WayPoint.name w = k)
  /\ (forall k w k' w',
        listed (NavDB._wpts db) k w -> listed (NavDB._wpts db) k' w' ->
        WayPoint.id w = WayPoint.id w' -> k = k' /\ w = w')
  /\ (forall key,
        (exists w, NavDB.first_candidate db key = Ok w /\ WayPoint.name w = key)
        \/ (NavDB._wpts db !! key = None
            /\ NavDB.first_candidate db key = Raise (KeyError key))).
Proof.
  intros Hload.
  pose proof (load_no_empty_list self db d Hload) as Hne.
  destruct (load_points_inv self db d Hload) as (next & Hname & Hid).
  split; [|split].
  - intros k c Hc. split; [exact (Hne k c Hc)|].
    intros w Hw. apply (Hname k w). exists c. auto.
  - intros k w k' w' Hw Hw' Heq.
    pose proof (Hid k w k' w' Hw Hw' Heq) as <-.
    split; [|reflexivity].
    destruct (Hname k w Hw) as [<- _]. destruct (Hname k' w Hw') as [<- _]. reflexivity.
  - intros key. unfold NavDB.first_candidate.
    destruct (NavDB._wpts db !! key) as [c|] eqn:Hc; cbn [of_option bind].
    + left. destruct c as [|w c]; [exfalso; exact (Hne key [] Hc eq_refl)|].
      exists w. split; [reflexivity|]. apply (Hname key w).
      exists (w :: c). split; [exact Hc|left].
    + right. split; reflexivity.
Qed.

(** Every stored route bears the name it is stored under and has a
    waypoint; so has the open route. *)
Definition routes_inv (st : NavDB.airways) : Prop :=
  (forall k r, NavDB.a_awys st !! k = Some r ->
     Route.name r = k /\ Route._wpts r <> [])
  /\ (forall r, NavDB.a_cawy st = Some r -> Route._wpts r <> []).

Lemma addWaypoint_nonempty (r : Route.t) (w : WayPoint.t) :
  Route._wpts (Route.addWaypoint r w) <> [].
Proof.
  cbn. intros Happ. apply app_eq_nil in Happ as [_ Hnil]. discriminate.
Qed.

Lemma airway_step_routes_inv (st st' : NavDB.airways) l :
  routes_inv st -> NavDB.airway_step st l = Ok st' -> routes_inv st'.
Proof.
  intros [Hawys Hcawy]. unfold NavDB.airway_step.
  destruct (NavDB.is_comment l) as [[]|]; cbn [bind]; [| |discriminate].
  - destruct (NavDB.check_cycle _ _ _); cbn [bind]; [|discriminate].
    intros [= <-]. split; assumption.
  - destruct (Py.split l) as [|name [|nr [|wptname [|lats [|lons [|]]]]]];
      try discriminate.
    unfold NavDB.airway_line.
    destruct (NavDB.a_cawy st) as [cawy|] eqn:Hc.
    + destruct (String.eqb _ name);
        (destruct (PyFloat.float lats); cbn [bind]; [|discriminate]);
        (destruct (PyFloat.float lons); cbn [bind]; [|discriminate]);
        intros [= <-]; split; cbn [NavDB.a_awys NavDB.a_cawy].
      * exact Hawys.
      * intros r [= <-]. apply addWaypoint_nonempty.
      * intros k r. destruct (decide (k = Route.name cawy)) as [->|Hk].
        -- rewrite lookup_insert_eq. intros [= <-].
           split; [reflexivity|]. apply Hcawy. reflexivity.
        -- rewrite lookup_insert_ne by congruence. apply Hawys.
      * intros r [= <-]. apply addWaypoint_nonempty.
    + cbn [Route.__init__ Route.name]. rewrite String.eqb_refl.
      (destruct (PyFloat.float lats); cbn [bind]; [|discriminate]);
      (destruct (PyFloat.float lons); cbn [bind]; [|discriminate]).
      intros [= <-]; split; cbn [NavDB.a_awys NavDB.a_cawy].
      * exact Hawys.
      * intros r [= <-]. apply addWaypoint_nonempty.
Qed.

Lemma airway_loop_routes_inv (f : list string) : forall st st' : NavDB.airways,
  routes_inv st -> NavDB.airway_loop st f = Ok st' -> routes_inv st'.
Proof.
  induction f as [|l f IH]; intros st st' Hinv; cbn [NavDB.airway_loop].
  - intros [= <-]. exact Hinv.
  - destruct (NavDB.airway_step st l) as [st1|] eqn:Hstep; cbn [bind]; [|discriminate].
    apply IH. exact (airway_step_routes_inv _ _ _ Hinv Hstep).
Qed.

(** X16: a database that [_load] returned has at least one airway, and
    every airway is stored under its own name, has at least one waypoint,
    and lists the names of its waypoints index by index. *)
Theorem load_routes self db d :
  NavDB._load self d = Ok db ->
  NavDB._awys db <> ∅
  /\ (1 <= NavDB._noawys db)%nat
  /\ forall k r, NavDB._awys db !! k = Some r ->
       Route.name r = k
       /\ Route._wpts r <> []
       /\ Route._wptnames r = map WayPoint.name (Route._wpts r).
Proof.
  intros Hload.
  assert (Haligned : forall k r, NavDB._awys db !! k = Some r -> aligned r).
  { intros k r. exact (load_routes_aligned self db d k r Hload). }
  revert Hload. unfold NavDB._load.
  repeat match goal with
         | |- bind (NavDB.point_loop ?a ?b ?c ?f) _ = _ -> _ =>
             destruct (NavDB.point_loop a b c f); cbn [bind]; [|discriminate]
         end.
  unfold NavDB.load_airways.
  destruct (NavDB.airway_loop _ _) as [st|] eqn:Hloop; cbn [bind]; [|discriminate].
  apply airway_loop_routes_inv in Hloop as [Hawys Hcawy].
  2:{ split; cbn; [intros k' r' Hk'; rewrite lookup_empty in Hk'|]; discriminate. }
  unfold NavDB.airway_flush. destruct (NavDB.a_cawy st) as [cawy|] eqn:Hc; [|discriminate].
  cbn [bind]. intros [= <-]. cbn [NavDB._awys NavDB._noawys NavDB.a_awys NavDB.a_nold] in *.
  split; [apply insert_non_empty|]. split; [lia|].
  intros k r Hk. split; [|split; [|exact (Haligned k r Hk)]].
  - destruct (decide (k = Route.name cawy)) as [->|Hne].
    + rewrite lookup_insert_eq in Hk. injection Hk as <-. reflexivity.
    + rewrite lookup_insert_ne in Hk by congruence. apply (Hawys k r Hk).
  - destruct (decide (k = Route.name cawy)) as [->|Hne].
    + rewrite lookup_insert_eq in Hk. injection Hk as <-. apply Hcawy. reflexivity.
    + rewrite lookup_insert_ne in Hk by congruence. apply (Hawys k r Hk).
Qed.

End LoadedContents.

(** ** Header lines, comment lines and counters *)

Section LoadedHeaders.
Context {E : Externals}.
Implicit Types (self db : NavDB.t) (d : navdata) (l : string)
  (o : option AIRACcycle.t).

(** A comment line that carries the cycle marker. *)
Definition header_line l : Prop :=
  comment_line l /\ Py.contains "AIRAC" (Py.slice 1 6 l) = true.

(** A recorded cycle stays. *)
Definition cycle_kept o o' : Prop := forall a, o = Some a -> o' = Some a.

(** The header [l] reads as the recorded cycle. *)
Definition cycle_agrees o l : Prop :=
  exists c a, AIRACcycle.__init__ l = Ok c /\ o = Some a
              /\ AIRACcycle.cycle c = AIRACcycle.cycle a.

Lemma cycle_agrees_kept o o' l : cycle_kept o o' -> cycle_agrees o l -> cycle_agrees o' l.
Proof. intros Hk (c & a & Hc & Ha & Heq). exists c, a. auto. Qed.

Lemma check_cycle_Ok label o o' l :
  NavDB.check_cycle label o l = Ok o' ->
  cycle_kept o o'
  /\ (Py.contains "AIRAC" (Py.slice 1 6 l) = true -> cycle_agrees o' l).
Proof.
  unfold NavDB.check_cycle.
  destruct (Py.contains "AIRAC" (Py.slice 1 6 l)).
  - destruct o as [a|].
    + destruct (AIRACcycle.__init__ l) as [c|] eqn:Hc; cbn [bind]; [|discriminate].
      destruct (AIRACcycle.__eq__ c a) eqn:Heq; cbn [negb]; [|discriminate].
      intros [= <-]. split; [intros a' Ha'; exact Ha'|].
      intros _. exists c, a. split; [exact Hc|]. split; [reflexivity|].
      apply Z.eqb_eq. exact Heq.
    + destruct (AIRACcycle.__init__ l) as [c|] eqn:Hc; cbn [bind]; [|discriminate].
      intros [= <-]. split; [intros a' Ha'; discriminate|].
      intros _. exists c, c. auto.
  - intros [= <-]. split; [intros a Ha; exact Ha|discriminate].
Qed.

Lemma is_comment_true l : NavDB.is_comment l = Ok true <-> comment_line l.
Proof.
  unfold NavDB.is_comment, Py.item, comment_line.
  destruct (String.get 0 l) as [c|]; cbn [of_option bind]; [|split; discriminate].
  destruct (Ascii.eqb_spec c ";") as [->|Hne]; split; try reflexivity; try discriminate.
  intros [= ->]. contradiction.
Qed.

Lemma point_loop_cycle label data (f : list string) : forall st st' : NavDB.points,
  NavDB.point_loop label data st f = Ok st' ->
  cycle_kept (NavDB.p_airac st) (NavDB.p_airac st')
  /\ forall l, l ∈ f -> header_line l -> cycle_agrees (NavDB.p_airac st') l.
Proof.
  induction f as [|l f IH]; intros st st'; cbn [NavDB.point_loop].
  - intros [= <-]. split; [intros a Ha; exact Ha|]. intros l Hl. inversion Hl.
  - destruct (NavDB.point_step label data st l) as [st1|] eqn:Hstep; cbn [bind];
      [|discriminate].
    intros Hloop. destruct (IH st1 st' Hloop) as [Hkept Hrest].
    assert (Hfirst : cycle_kept (NavDB.p_airac st) (NavDB.p_airac st1)
                     /\ (header_line l -> cycle_agrees (NavDB.p_airac st1) l)).
    { revert Hstep. unfold NavDB.point_step.
      destruct (NavDB.is_comment l) as [[]|] eqn:Hc; cbn [bind]; [| |discriminate].
      - destruct (NavDB.check_cycle label (NavDB.p_airac st) l) as [o1|] eqn:Hchk;
          cbn [bind]; [|discriminate].
        intros [= <-]. cbn [NavDB.p_airac].
        destruct (check_cycle_Ok _ _ _ _ Hchk) as [Hk Ha].
        split; [exact Hk|]. intros [_ Hmark]. exact (Ha Hmark).
      - destruct (data (NavDB.p_next st) l) as [w|]; cbn [bind]; [|discriminate].
        intros [= <-]. cbn [NavDB.p_airac].
        split; [intros a Ha; exact Ha|].
        intros [Hcl _]. apply is_comment_true in Hcl. congruence. }
    destruct Hfirst as [Hk1 Ha1]. split.
    + intros a Ha. apply Hkept, Hk1, Ha.
    + intros l' [->|Hl']%elem_of_cons Hh.
      * eapply cycle_agrees_kept; [exact Hkept|]. exact (Ha1 Hh).
      * exact (Hrest l' Hl' Hh).
Qed.

Lemma airway_loop_cycle (f : list string) : forall st st' : NavDB.airways,
  NavDB.airway_loop st f = Ok st' ->
  cycle_kept (NavDB.a_airac st) (NavDB.a_airac st')
  /\ forall l, l ∈ f -> header_line l -> cycle_agrees (NavDB.a_airac st') l.
Proof.
  induction f as [|l f IH]; intros st st'; cbn [NavDB.airway_loop].
  - intros [= <-]. split; [intros a Ha; exact Ha|]. intros l Hl. inversion Hl.
  - destruct (NavDB.airway_step st l) as [st1|] eqn:Hstep; cbn [bind];
      [|discriminate].
    intros Hloop. destruct (IH st1 st' Hloop) as [Hkept Hrest].
    assert (Hfirst : cycle_kept (NavDB.a_airac st) (NavDB.a_airac st1)
                     /\ (header_line l -> cycle_agrees (NavDB.a_airac st1) l)).
    { revert Hstep. unfold NavDB.airway_step.
      destruct (NavDB.is_comment l) as [[]|] eqn:Hc; cbn [bind]; [| |discriminate].
      - destruct (NavDB.check_cycle _ (NavDB.a_airac st) l) as [o1|] eqn:Hchk;
          cbn [bind]; [|discriminate].
        intros [= <-]. cbn [NavDB.a_airac].
        destruct (check_cycle_Ok _ _ _ _ Hchk) as [Hk Ha].
        split; [exact Hk|]. intros [_ Hmark]. exact (Ha Hmark).
      - intros Hline.
        assert (Hsame : NavDB.a_airac st1 = NavDB.a_airac st).
        { revert Hline.
          destruct (Py.split l) as [|name [|nr [|wptname [|lats [|lons [|]]]]]];
            try discriminate.
          unfold NavDB.airway_line.
          destruct (String.eqb _ name);
            (destruct (PyFloat.float lats); cbn [bind]; [|discriminate]);
            (destruct (PyFloat.float lons); cbn [bind]; [|discriminate]);
            intros [= <-]; reflexivity. }
        rewrite Hsame. split; [intros a Ha; exact Ha|].
        intros [Hcl _]. apply is_comment_true in Hcl. congruence. }
    destruct Hfirst as [Hk1 Ha1]. split.
    + intros a Ha. apply Hkept, Hk1, Ha.
    + intros l' [->|Hl']%elem_of_cons Hh.
      * eapply cycle_agrees_kept; [exact Hkept|]. exact (Ha1 Hh).
      * exact (Hrest l' Hl' Hh).
Qed.

(** All the lines of a data directory. *)
Definition all_lines d : list string :=
  wpNavAID_txt d ++ wpNavFIX_txt d ++ wpNavAPT_txt d ++ airports_dat d
  ++ wpNavRTE_txt d.

(** X17: when [_load] returns a database, a cycle recorded before loading
    is still the recorded one, and every header line of the five files
    reads as a cycle whose number is that of the recorded cycle. *)
Theorem load_one_cycle self db d :
  NavDB._load self d = Ok db ->
  cycle_kept (NavDB.airac self) (NavDB.airac db)
  /\ forall l, l ∈ all_lines d -> header_line l -> cycle_agrees (NavDB.airac db) l.
Proof.
  unfold NavDB._load.
  destruct (NavDB.point_loop "wpNavAID.txt" _ _ _) as [st1|] eqn:H1; cbn [bind];
    [|discriminate].
  destruct (NavDB.point_loop "wpNavFIX.txt" NavDB.fix_line _ _) as [st2|] eqn:H2;
    cbn [bind]; [|discriminate].
  destruct (NavDB.point_loop "wpNavFIX.txt" NavDB.runway_line _ _) as [st3|] eqn:H3;
    cbn [bind]; [|discriminate].
  destruct (NavDB.point_loop "airports.dat" _ _ _) as [st4|] eqn:H4; cbn [bind];
    [|discriminate].
  unfold NavDB.load_airways.
  destruct (NavDB.airway_loop _ _) as [st5|] eqn:H5; cbn [bind]; [|discriminate].
  unfold NavDB.airway_flush. destruct (NavDB.a_cawy st5); [|discriminate].
  cbn [bind]. intros [= <-]. cbn [NavDB.airac NavDB.a_airac].
  apply point_loop_cycle in H1 as [K1 A1], H2 as [K2 A2], H3 as [K3 A3], H4 as [K4 A4].
  apply airway_loop_cycle in H5 as [K5 A5].
  cbn [NavDB.p_airac NavDB.a_airac] in *.
  split.
  - intros a Ha. apply K5, K4, K3, K2, K1, Ha.
  - unfold all_lines. intros l Hl Hh.
    repeat (apply elem_of_app in Hl as [Hl|Hl]).
    + eapply cycle_agrees_kept; [|exact (A1 l Hl Hh)].
      intros a Ha. apply K5, K4, K3, K2, Ha.
    + eapply cycle_agrees_kept; [|exact (A2 l Hl Hh)].
      intros a Ha. apply K5, K4, K3, Ha.
    + eapply cycle_agrees_kept; [|exact (A3 l Hl Hh)].
      intros a Ha. apply K5, K4, Ha.
    + eapply cycle_agrees_kept; [|exact (A4 l Hl Hh)].
      intros a Ha. apply K5, Ha.
    + exact (A5 l Hl Hh).
Qed.

(** *** Comment lines without the marker *)

(** [l] is a comment line without the cycle marker. *)
Definition plain_comment l : bool :=
  Py.char_is 0 l ";" && negb (Py.contains "AIRAC" (Py.slice 1 6 l)).

Definition without_plain_comments (f : list string) : list string :=
  List.filter (fun l => negb (plain_comment l)) f.

Lemma is_comment_char_is l b :
  NavDB.is_comment l = Ok b -> Py.char_is 0 l ";" = b.
Proof.
  unfold NavDB.is_comment, Py.item, Py.char_is.
  destruct (String.get 0 l); cbn [of_option bind]; [|discriminate].
  intros [= <-]. reflexivity.
Qed.

Lemma point_step_plain_comment label data (st : NavDB.points) l :
  plain_comment l = true -> NavDB.point_step label data st l = Ok st.
Proof.
  intros [Hc Hm]%andb_prop. apply negb_true_iff in Hm.
  unfold NavDB.point_step, NavDB.is_comment, Py.item, NavDB.check_cycle.
  unfold Py.char_is in Hc. destruct (String.get 0 l); [|discriminate].
  cbn [of_option bind]. rewrite Hc, Hm. destruct st. reflexivity.
Qed.

Lemma airway_step_plain_comment (st : NavDB.airways) l :
  plain_comment l = true -> NavDB.airway_step st l = Ok st.
Proof.
  intros [Hc Hm]%andb_prop. apply negb_true_iff in Hm.
  unfold NavDB.airway_step, NavDB.is_comment, Py.item, NavDB.check_cycle.
  unfold Py.char_is in Hc. destruct (String.get 0 l); [|discriminate].
  cbn [of_option bind]. rewrite Hc, Hm. destruct st. reflexivity.
Qed.

Lemma point_loop_without_plain_comments label data (f : list string) :
  forall st : NavDB.points,
    NavDB.point_loop label data st (without_plain_comments f)
    = NavDB.point_loop label data st f.
Proof.
  induction f as [|l f IH]; intros st; [reflexivity|].
  cbn [without_plain_comments List.filter NavDB.point_loop].
  destruct (plain_comment l) eqn:Hp; cbn [negb NavDB.point_loop].
  - rewrite (point_step_plain_comment label data st l Hp). cbn [bind]. apply IH.
  - destruct (NavDB.point_step label data st l); cbn [bind]; [apply IH|reflexivity].
Qed.

Lemma airway_loop_without_plain_comments (f : list string) :
  forall st : NavDB.airways,
    NavDB.airway_loop st (without_plain_comments f) = NavDB.airway_loop st f.
Proof.
  induction f as [|l f IH]; intros st; [reflexivity|].
  cbn [without_plain_comments List.filter NavDB.airway_loop].
  destruct (plain_comment l) eqn:Hp; cbn [negb NavDB.airway_loop].
  - rewrite (airway_step_plain_comment st l Hp). cbn [bind]. apply IH.
  - destruct (NavDB.airway_step st l); cbn [bind]; [apply IH|reflexivity].
Qed.

(** X18: comment lines without the cycle marker do not count: removing
    them from the five files changes neither the database that [_load]
    returns nor the exception it raises. *)
Theorem load_ignores_plain_comments self d :
  NavDB._load self
    {| wpNavAID_txt := without_plain_comments (wpNavAID_txt d);
       wpNavFIX_txt := without_plain_comments (wpNavFIX_txt d);
       wpNavAPT_txt := without_plain_comments (wpNavAPT_txt d);
       airports_dat := without_plain_comments (airports_dat d);
       wpNavRTE_txt := without_plain_comments (wpNavRTE_txt d) |}
  = NavDB._load self d.
Proof.
  unfold NavDB._load, NavDB.load_airways.
  cbn [wpNavAID_txt wpNavFIX_txt wpNavAPT_txt airports_dat wpNavRTE_txt].
  rewrite !point_loop_without_plain_comments.
  destruct (NavDB.point_loop "wpNavAID.txt" _ _ _) as [st1|]; cbn [bind]; [|reflexivity].
  rewrite !point_loop_without_plain_comments.
  destruct (NavDB.point_loop "wpNavFIX.txt" NavDB.fix_line _ _) as [st2|];
    cbn [bind]; [|reflexivity].
  rewrite !point_loop_without_plain_comments.
  destruct (NavDB.point_loop "wpNavFIX.txt" NavDB.runway_line _ _) as [st3|];
    cbn [bind]; [|reflexivity].
  rewrite !point_loop_without_plain_comments.
  destruct (NavDB.point_loop "airports.dat" _ _ _) as [st4|]; cbn [bind]; [|reflexivity].
  rewrite airway_loop_without_plain_comments. reflexivity.
Qed.

(** *** Counters *)

(** The lines of a file that do not begin with the comment marker. *)
Definition data_lines (f : list string) : list string :=
  List.filter (fun l => negb (Py.char_is 0 l ";")) f.

Lemma point_loop_counts label data (f : list string) : forall st st' : NavDB.points,
  NavDB.point_loop label data st f = Ok st' ->
  NavDB.p_nold st' = (NavDB.p_nold st + length (data_lines f))%nat
  /\ NavDB.p_next st' = (NavDB.p_next st + N.of_nat (length (data_lines f)))%N.
Proof.
  induction f as [|l f IH]; intros st st'; cbn [NavDB.point_loop].
  - intros [= <-]. cbn. split; lia.
  - unfold NavDB.point_step.
    destruct (NavDB.is_comment l) as [b|] eqn:Hc; cbn [bind]; [|discriminate].
    apply is_comment_char_is in Hc.
    cbn [data_lines List.filter]. rewrite Hc. destruct b; cbn [negb].
    + destruct (NavDB.check_cycle _ _ _); cbn [bind]; [|discriminate].
      intros Hloop. apply IH in Hloop as [H1 H2]. cbn in H1, H2. auto.
    + destruct (data (NavDB.p_next st) l); cbn [bind]; [|discriminate].
      intros Hloop. apply IH in Hloop as [H1 H2]. cbn in H1, H2.
      fold (data_lines f) in *. cbn [length]. split; lia.
Qed.

(** X19: in a database that [_load] returned, the four counters of points
    are the numbers of lines of the navaid, fix, runway and airport files
    that do not begin with the comment marker. *)
Theorem load_counters self db d :
  NavDB._load self d = Ok db ->
  NavDB._nonavaids db = length (data_lines (wpNavAID_txt d))
  /\ NavDB._nofixes db = length (data_lines (wpNavFIX_txt d))
  /\ NavDB._norwys db = length (data_lines (wpNavAPT_txt d))
  /\ NavDB._noarpts db = length (data_lines (airports_dat d)).
Proof.
  unfold NavDB._load.
  destruct (NavDB.point_loop "wpNavAID.txt" _ _ _) as [st1|] eqn:H1; cbn [bind];
    [|discriminate].
  destruct (NavDB.point_loop "wpNavFIX.txt" NavDB.fix_line _ _) as [st2|] eqn:H2;
    cbn [bind]; [|discriminate].
  destruct (NavDB.point_loop "wpNavFIX.txt" NavDB.runway_line _ _) as [st3|] eqn:H3;
    cbn [bind]; [|discriminate].
  destruct (NavDB.point_loop "airports.dat" _ _ _) as [st4|] eqn:H4; cbn [bind];
    [|discriminate].
  destruct (NavDB.load_airways _ _) as [st5|]; cbn [bind]; [|discriminate].
  intros [= <-]. cbn.
  apply point_loop_counts in H1 as [-> _], H2 as [-> _], H3 as [-> _], H4 as [-> _].
  cbn. repeat split; reflexivity.
Qed.

End LoadedHeaders.

(** ** The degree layouts of the decoder *)

Section DegreeLayouts.
Context {E : Externals}.

(** The value of a decimal digit. *)
Definition digit (c : ascii) : Z := Z.of_N (Py.code c) - 48.

Lemma decimal_cases (c : ascii) :
  Py.isdecimal_c c = true ->
  c ∈ ["0"; "1"; "2"; "3"; "4"; "5"; "6"; "7"; "8"; "9"]%char.
Proof.
  destruct c as [[] [] [] [] [] [] [] []]; vm_compute; intros H;
    try discriminate H; clear H; repeat constructor.
Qed.

(** Runs through the ten values of each decimal digit in the context. *)
Ltac each_digit :=
  repeat match goal with
         | H : Py.isdecimal_c ?c = true |- _ =>
             apply decimal_cases in H;
             repeat (apply elem_of_cons in H as [->|H]);
             [..|inversion H]
         end.

Lemma decimal_is_digit (c : ascii) : Py.isdecimal_c c = true -> Py.isdigit_c c = true.
Proof. intros H. unfold Py.isdigit_c. rewrite H. reflexivity. Qed.

Lemma float_two_digits (c0 c1 : ascii) :
  Py.isdecimal_c c0 = true -> Py.isdecimal_c c1 = true ->
  PyFloat.float (String c0 (String c1 EmptyString))
  = Ok (PyFloat.of_Z (10 * digit c0 + digit c1)).
Proof. intros H0 H1. each_digit; reflexivity. Qed.

Lemma float_three_digits (c0 c1 c2 : ascii) :
  Py.isdecimal_c c0 = true -> Py.isdecimal_c c1 = true -> Py.isdecimal_c c2 = true ->
  PyFloat.float (String c0 (String c1 (String c2 EmptyString)))
  = Ok (PyFloat.of_Z (100 * digit c0 + 10 * digit c1 + digit c2)).
Proof. intros H0 H1 H2. each_digit; reflexivity. Qed.

(** A latitude of whole degrees is out of bounds when it exceeds 90, a
    longitude when it exceeds 180, whatever the hemisphere. *)
Lemma latitude_bound (sgn : bool) (c0 c1 : ascii) :
  Py.isdecimal_c c0 = true -> Py.isdecimal_c c1 = true ->
  let lat := ((if sgn then -1 else 1) * PyFloat.of_Z (10 * digit c0 + digit c1))%float in
  ((lat <? -90) || (90 <? lat))%float = negb (10 * digit c0 + digit c1 <=? 90)%Z.
Proof. intros H0 H1. destruct sgn; each_digit; reflexivity. Qed.

Lemma longitude_bound (sgn : bool) (c0 c1 c2 : ascii) :
  Py.isdecimal_c c0 = true -> Py.isdecimal_c c1 = true -> Py.isdecimal_c c2 = true ->
  let lon := ((if sgn then -1 else 1)
              * PyFloat.of_Z (100 * digit c0 + 10 * digit c1 + digit c2))%float in
  ((lon <? -180) || (180 <? lon))%float
  = negb (100 * digit c0 + 10 * digit c1 + digit c2 <=? 180)%Z.
Proof. intros H0 H1 H2. destruct sgn; each_digit; reflexivity. Qed.

Lemma half_degree_bound (c0 c1 : ascii) :
  Py.isdecimal_c c0 = true -> Py.isdecimal_c c1 = true ->
  let lat := (1 * (PyFloat.of_Z (10 * digit c0 + digit c1) + 0.5))%float in
  ((lat <? -90) || (90 <? lat))%float = negb (10 * digit c0 + digit c1 <=? 89)%Z.
Proof. intros H0 H1. each_digit; reflexivity. Qed.

Lemma west_two_digits_bound (c0 c1 : ascii) :
  Py.isdecimal_c c0 = true -> Py.isdecimal_c c1 = true ->
  let lon := (-1 * PyFloat.of_Z (10 * digit c0 + digit c1))%float in
  ((lon <? -180) || (180 <? lon))%float = false.
Proof. intros H0 H1. each_digit; reflexivity. Qed.

(** Unfolds the decoder on a token whose characters are listed. *)
Ltac decode_layout :=
  cbv [UnnamedWaypoint.__init__ UnnamedWaypoint.well_formed UnnamedWaypoint.coordinates
       UnnamedWaypoint.one_of UnnamedWaypoint.digit_at UnnamedWaypoint.sign_at
       UnnamedWaypoint.out_of_bounds
       Py.char_is Py.isdigit Py.slice Py.forall_c Py.nonempty
       String.length String.get substring Nat.sub Ascii.eqb Bool.eqb].

(** X5: the seven-character layout [ddNdddE] with decimal digits.  The
    decoder returns the point of latitude [dd] and longitude [ddd] whole
    degrees, negative for S and for W, when [dd <= 90] and [ddd <= 180],
    and raises the out-of-bounds error otherwise. *)
Theorem UnnamedWaypoint_whole_degrees (i : N) (c0 c1 x c2 c3 c4 y : ascii) :
  Py.isdecimal_c c0 = true -> Py.isdecimal_c c1 = true ->
  Py.isdecimal_c c2 = true -> Py.isdecimal_c c3 = true -> Py.isdecimal_c c4 = true ->
  x ∈ ["N"; "S"]%char -> y ∈ ["E"; "W"]%char ->
  let elem :=
    String c0 (String c1 (String x (String c2 (String c3 (String c4
      (String y EmptyString)))))) in
  let lat := (10 * digit c0 + digit c1)%Z in
  let lon := (100 * digit c2 + 10 * digit c3 + digit c4)%Z in
  UnnamedWaypoint.__init__ i elem
  = if ((lat <=? 90) && (lon <=? 180))%Z
    then Ok {| WayPoint.id := i; WayPoint.name := elem;
               WayPoint.lat := ((if Ascii.eqb x "S" then -1 else 1)
                                * PyFloat.of_Z lat)%float;
               WayPoint.lon := ((if Ascii.eqb y "W" then -1 else 1)
                                * PyFloat.of_Z lon)%float;
               WayPoint.type := "uWPT"; WayPoint.descr := "" |}
    else Raise (UnnamedOutOfBounds elem).
Proof.
  intros H0 H1 H2 H3 H4 Hx Hy elem lat lon. subst elem lat lon.
  pose proof (decimal_is_digit _ H0) as D0. pose proof (decimal_is_digit _ H1) as D1.
  pose proof (decimal_is_digit _ H2) as D2. pose proof (decimal_is_digit _ H3) as D3.
  pose proof (decimal_is_digit _ H4) as D4.
  pose proof (float_two_digits c0 c1 H0 H1) as Flat.
  pose proof (float_three_digits c2 c3 c4 H2 H3 H4) as Flon.
  repeat (apply elem_of_cons in Hx as [->|Hx]); [| |inversion Hx];
    (repeat (apply elem_of_cons in Hy as [->|Hy]); [| |inversion Hy]).
  all: decode_layout; rewrite D0, D1, D2, D3, D4; cbn [andb orb negb];
    rewrite Flat, Flon; cbn [bind fst snd].
  1: pose proof (latitude_bound false c0 c1 H0 H1) as Blat;
     pose proof (longitude_bound false c2 c3 c4 H2 H3 H4) as Blon.
  2: pose proof (latitude_bound false c0 c1 H0 H1) as Blat;
     pose proof (longitude_bound true c2 c3 c4 H2 H3 H4) as Blon.
  3: pose proof (latitude_bound true c0 c1 H0 H1) as Blat;
     pose proof (longitude_bound false c2 c3 c4 H2 H3 H4) as Blon.
  4: pose proof (latitude_bound true c0 c1 H0 H1) as Blat;
     pose proof (longitude_bound true c2 c3 c4 H2 H3 H4) as Blon.
  all: cbv zeta iota beta in Blat, Blon;
    rewrite Blat, <- orb_assoc, Blon;
    destruct (10 * digit c0 + digit c1 <=? 90)%Z,
      (100 * digit c2 + 10 * digit c3 + digit c4 <=? 180)%Z; reflexivity.
Qed.

(** X6: the five-character layout [Hddww] with decimal digits.  The
    decoder returns the point of latitude [dd + 0.5] north and longitude
    [ww] west when [dd <= 89], and raises the out-of-bounds error for the
    latitudes 90.5 to 99.5. *)
Theorem UnnamedWaypoint_half_degrees (i : N) (c0 c1 c2 c3 : ascii) :
  Py.isdecimal_c c0 = true -> Py.isdecimal_c c1 = true ->
  Py.isdecimal_c c2 = true -> Py.isdecimal_c c3 = true ->
  let elem := String "H" (String c0 (String c1 (String c2 (String c3 EmptyString)))) in
  let lat := (10 * digit c0 + digit c1)%Z in
  let lon := (10 * digit c2 + digit c3)%Z in
  UnnamedWaypoint.__init__ i elem
  = if (lat <=? 89)%Z
    then Ok {| WayPoint.id := i; WayPoint.name := elem;
               WayPoint.lat := (1 * (PyFloat.of_Z lat + 0.5))%float;
               WayPoint.lon := (-1 * PyFloat.of_Z lon)%float;
               WayPoint.type := "uWPT"; WayPoint.descr := "" |}
    else Raise (UnnamedOutOfBounds elem).
Proof.
  intros H0 H1 H2 H3 elem lat lon. subst elem lat lon.
  pose proof (decimal_is_digit _ H0) as D0. pose proof (decimal_is_digit _ H1) as D1.
  pose proof (decimal_is_digit _ H2) as D2. pose proof (decimal_is_digit _ H3) as D3.
  pose proof (float_two_digits c0 c1 H0 H1) as Flat.
  pose proof (float_two_digits c2 c3 H2 H3) as Flon.
  pose proof (half_degree_bound c0 c1 H0 H1) as Blat.
  pose proof (west_two_digits_bound c2 c3 H2 H3) as Blon.
  cbv zeta iota beta in Blat, Blon.
  decode_layout. rewrite D0, D1, D2, D3. cbn [andb orb negb].
  rewrite Flat, Flon. cbn [bind fst snd].
  rewrite Blat, <- orb_assoc, Blon, orb_false_r.
  destruct (10 * digit c0 + digit c1 <=? 89)%Z; reflexivity.
Qed.

End DegreeLayouts.

Section Procedures.
Context {E : Externals}.
Implicit Types (db : NavDB.t) (st : NavDB.expansion) (fpl_arr : list string).

Lemma never_arp db (elem : string) :
  NavDB.is_type (NavDB.getFPLelemtype db elem) "arp" = false.
Proof.
  destruct (getFPLelemtype_cases db elem) as [(r & Hin & ->)|(-> & _)];
    [|reflexivity].
  unfold roles in Hin.
  repeat (apply elem_of_cons in Hin as [->|Hin]; [reflexivity|]). inversion Hin.
Qed.

(** X20: a procedure token does something only next to a runway.  When
    neither neighbour is classified as a runway, so also between an
    airport and a fix, and when a neighbour is missing, the step changes
    nothing and raises nothing: the test for the airport compares with
    "arp", which the classifier never returns. *)
Theorem expand_step_prc_without_runway db fpl_arr (i : nat) st elem :
  fpl_arr !! i = Some elem ->
  NavDB.getFPLelemtype db elem = Some "prc" ->
  (forall p, fpl_arr !! (i - 1)%nat = Some p ->
             NavDB.getFPLelemtype db p <> Some "rwy") ->
  (forall n, fpl_arr !! (i + 1)%nat = Some n ->
             NavDB.getFPLelemtype db n <> Some "rwy") ->
  NavDB.expand_step db fpl_arr i st = Ok st.
Proof.
  intros Htok Hty Hprev Hnext.
  unfold NavDB.expand_step, NavDB.token. rewrite Htok. cbn [of_option bind].
  rewrite Hty. cbn [NavDB.is_type String.eqb Ascii.eqb Bool.eqb andb orb].
  destruct ((1 <=? i)%nat && (i + 1 <? length fpl_arr)%nat) eqn:Hn; [|reflexivity].
  apply andb_prop in Hn as [Hi Hlt]. apply Nat.leb_le in Hi. apply Nat.ltb_lt in Hlt.
  destruct (lookup_lt_is_Some_2 fpl_arr (i - 1)) as [p Hp]; [lia|].
  destruct (lookup_lt_is_Some_2 fpl_arr (i + 1)) as [n Hnx]; [lia|].
  unfold NavDB.expand_prc, NavDB.token. rewrite Hp, Hnx. cbn [of_option bind].
  assert (Hrwy : forall x, NavDB.getFPLelemtype db x <> Some "rwy" ->
                           NavDB.is_type (NavDB.getFPLelemtype db x) "rwy" = false).
  { intros x Hx. destruct (NavDB.getFPLelemtype db x) as [r|]; [|reflexivity].
    cbn [NavDB.is_type]. destruct (String.eqb_spec r "rwy") as [->|]; [|reflexivity].
    contradiction. }
  rewrite (Hrwy p (Hprev p Hp)), (Hrwy n (Hnext n Hnx)), !never_arp.
  cbn [orb]. rewrite !andb_false_r. reflexivity.
Qed.

End Procedures.

(** ** The further properties at concrete inputs *)

(** The example directory loads. *)
Lemma example_files_load :
  exists db, NavDB._load Example.blank Example.files = Ok db.
Proof.
  assert (Hok : match NavDB._load Example.blank Example.files with
                | Ok _ => true
                | Raise _ => false
                end = true) by (vm_compute; reflexivity).
  destruct (NavDB._load Example.blank Example.files) as [db|e]; [|discriminate].
  exists db. reflexivity.
Defined.

Lemma getFPLelemtype_None_iff_witness :
  NavDB.getFPLelemtype Example.db "NAT+" = None /\ "apt" ∈ roles.
Proof.
  split.
  - apply (proj1 (@getFPLelemtype_None_iff Standin.externals Example.db "NAT+")).
    exists "+"%char. split; reflexivity.
  - apply (proj2 (@getFPLelemtype_None_iff Standin.externals Example.db "EGLL")).
    vm_compute. reflexivity.
Defined.

Lemma load_never_names_runway_file_witness :
  exists file,
    NavDB._load Example.blank Example.mismatch_apt = Raise (WrongAIRACcycleError file)
    /\ file <> "wpNavAPT.txt".
Proof.
  assert (Hfile : match NavDB._load Example.blank Example.mismatch_apt with
                  | Raise (WrongAIRACcycleError file) => file
                  | _ => ""
                  end = "wpNavFIX.txt") by (vm_compute; reflexivity).
  destruct (NavDB._load Example.blank Example.mismatch_apt) as [db|[]] eqn:Hload;
    try discriminate.
  exists file. split; [reflexivity|].
  exact (proj2 (load_never_names_runway_file Example.blank Example.mismatch_apt
                  file Hload)).
Defined.

Lemma decoder_accepts_classified_witness :
  NavDB.getFPLelemtype Example.db "95N200E" = Some "ufx".
Proof.
  apply (@decoder_accepts_classified Standin.externals Example.db 0 "95N200E").
  vm_compute. discriminate.
Defined.

Lemma UnnamedWaypoint_outcome_witness :
  @UnnamedWaypoint.__init__ Standin.externals 0 "NORTH1" = Raise (UnnamedFormatError "NORTH1").
Proof.
  apply (proj2 (@UnnamedWaypoint_outcome Standin.externals 0 "NORTH1")).
  intros Hin. cbn in Hin.
  repeat (apply elem_of_cons in Hin as [Hin|Hin]; [discriminate|]).
  inversion Hin.
Defined.

Lemma UnnamedWaypoint_whole_degrees_witness :
  exists w, @UnnamedWaypoint.__init__ Standin.externals 0 "87N060W" = Ok w
            /\ WayPoint.lat w = 87%float /\ WayPoint.lon w = (-60)%float.
Proof.
  eexists. split.
  - etransitivity.
    + apply (@UnnamedWaypoint_whole_degrees Standin.externals 0
               "8" "7" "N" "0" "6" "0" "W"); try reflexivity; repeat constructor.
    + reflexivity.
  - split; reflexivity.
Defined.

Lemma UnnamedWaypoint_half_degrees_witness :
  @UnnamedWaypoint.__init__ Standin.externals 0 "H9020"
  = Raise (UnnamedOutOfBounds "H9020").
Proof.
  etransitivity.
  - apply (@UnnamedWaypoint_half_degrees Standin.externals 0 "9" "0" "2" "0");
      reflexivity.
  - reflexivity.
Defined.

Lemma getClosest_outcome_witness :
  NavDB.getClosest Example.db "BOGNA" None = Raise (ElementAmbiguousError "BOGNA")
  /\ NavDB.getClosest Example.db "NOWHERE" None
     = Raise (ElementNotFoundError "NOWHERE").
Proof.
  split.
  - eapply (proj1 (proj2 (proj2 (@getClosest_outcome Standin.externals Example.db
                                   "BOGNA")))).
    + vm_compute. reflexivity.
    + cbn. lia.
  - apply (proj1 (@getClosest_outcome Standin.externals Example.db "NOWHERE")).
    vm_compute. reflexivity.
Defined.

Lemma getWaypoints_outcome_witness :
  Route.getWaypoints (route_ABCD Example.wa Example.wb Example.wc Example.wd) "A" "X"
  = Raise (NotOnAirwayError "X" "R").
Proof.
  apply (proj1 (proj2 (getWaypoints_outcome
                         (route_ABCD Example.wa Example.wb Example.wc Example.wd)
                         "A" "X"))).
  - left.
  - intros Hin. cbn in Hin.
    repeat (apply elem_of_cons in Hin as [Hin|Hin]; [discriminate|]).
    inversion Hin.
Defined.

(** The state after "ALPHA" of a plan has been resolved to an instance of
    the point map. *)
Definition after_entry : NavDB.expansion :=
  {| NavDB.e_wpts := [Example.wa]; NavDB.e_last := Some Example.wa;
     NavDB.e_apts := 0; NavDB.e_next := NavDB.next_id Example.db |}.

Lemma expand_step_awy_between_witness :
  exists st',
    NavDB.expand_step Example.db ["ALPHA"; "L9"; "DELTA"] 1 after_entry = Ok st'
    /\ length (NavDB.e_wpts st') = 3%nat.
Proof.
  edestruct (@expand_step_awy_between Standin.externals Example.db
               ["ALPHA"; "L9"; "DELTA"] 1 after_entry "L9" "ALPHA" "DELTA")
    as (st' & Hstep & Hlen & _).
  - reflexivity.
  - vm_compute. reflexivity.
  - lia.
  - reflexivity.
  - reflexivity.
  - vm_compute. reflexivity.
  - reflexivity.
  - instantiate (1 := 0%nat). split; [reflexivity|]. intros k Hk. lia.
  - instantiate (1 := 3%nat). split; [reflexivity|].
    intros [|[|[|k]]] Hk; cbn; try discriminate. lia.
  - lia.
  - exists st'. split; [exact Hstep|]. exact Hlen.
Defined.

Lemma expand_step_awy_same_fix_witness :
  NavDB.expand_step Example.db ["ALPHA"; "L9"; "ALPHA"] 1 after_entry
  = Raise IndexError.
Proof.
  eapply (@expand_step_awy_same_fix Standin.externals Example.db
            ["ALPHA"; "L9"; "ALPHA"] 1 after_entry "L9" "ALPHA").
  - reflexivity.
  - vm_compute. reflexivity.
  - lia.
  - reflexivity.
  - reflexivity.
  - vm_compute. reflexivity.
  - left.
Defined.

Lemma expand_step_awy_raises_witness :
  raises_only airway_error
    (NavDB.expand_step Example.db ["ALPHA"; "L9"; "OMEGA"] 1 after_entry).
Proof.
  apply (@expand_step_awy_raises Standin.externals Example.db
           ["ALPHA"; "L9"; "OMEGA"] 1 after_entry "L9").
  - reflexivity.
  - vm_compute. reflexivity.
Defined.

(** A state in which two airports have been resolved. *)
Definition two_airports : NavDB.expansion :=
  {| NavDB.e_wpts := [Example.wa; Example.wb]; NavDB.e_last := Some Example.wb;
     NavDB.e_apts := 2; NavDB.e_next := NavDB.next_id Example.db |}.

Lemma expand_loop_airports_ignored_witness :
  NavDB.expand_loop Example.db ["EGLL"; "EGKK"; "ZZZZ"] [2%nat] two_airports
  = Ok two_airports.
Proof.
  apply (@expand_loop_airports_ignored Standin.externals Example.db).
  - cbn. lia.
  - intros i Hi. apply list_elem_of_singleton in Hi as ->.
    exists "ZZZZ". split; [reflexivity|]. left. vm_compute. reflexivity.
Defined.

(** A database with one point, listed under "MID". *)
Definition one_fix : @NavDB.t Standin.externals :=
  NavDB.Make None ∅ (<["MID" := [Example.wa]]> ∅) 0 1 0 0 0 200.

Lemma expand_loop_fix_repeated_witness :
  NavDB.expand_loop one_fix ["MID"; "MID"] [0; 1]%nat (NavDB.expand_init one_fix)
  = Ok {| NavDB.e_wpts := [Example.wa]; NavDB.e_last := Some Example.wa;
          NavDB.e_apts := 0; NavDB.e_next := 200 |}.
Proof.
  etransitivity.
  - eapply (@expand_loop_fix_repeated Standin.externals one_fix
              ["MID"; "MID"] [0; 1]%nat (NavDB.expand_init one_fix) "MID").
    + vm_compute. reflexivity.
    + vm_compute. reflexivity.
    + discriminate.
    + intros i Hi.
      repeat (apply elem_of_cons in Hi as [->|Hi]; [reflexivity|]). inversion Hi.
  - reflexivity.
Defined.

Lemma expandFPL_blank_witness : NavDB.expandFPL Example.db "   " = Ok [].
Proof. apply (@expandFPL_blank Standin.externals Example.db "   "). reflexivity. Defined.

Lemma load_candidates_witness :
  exists db,
    NavDB._load Example.blank Example.files = Ok db
    /\ forall k c, NavDB._wpts db !! k = Some c -> c <> [].
Proof.
  destruct example_files_load as [db Hload]. exists db. split; [exact Hload|].
  intros k c Hc.
  exact (proj1 (proj1 (load_candidates Example.blank db Example.files Hload) k c Hc)).
Defined.

Lemma load_routes_witness :
  exists db,
    NavDB._load Example.blank Example.files = Ok db /\ NavDB._awys db <> ∅.
Proof.
  destruct example_files_load as [db Hload]. exists db. split; [exact Hload|].
  exact (proj1 (load_routes Example.blank db Example.files Hload)).
Defined.

Lemma load_one_cycle_witness :
  exists db,
    NavDB._load Example.blank Example.files = Ok db
    /\ cycle_agrees (NavDB.airac db) ";AIRAC Cycle : 2011 (08/Oct/2020 - 04/Nov/2020)".
Proof.
  destruct example_files_load as [db Hload]. exists db. split; [exact Hload|].
  apply (proj2 (load_one_cycle Example.blank db Example.files Hload)).
  - left.
  - split; reflexivity.
Defined.

Lemma load_counters_witness :
  exists db,
    NavDB._load Example.blank Example.files = Ok db
    /\ NavDB._nofixes db = 3%nat /\ NavDB._noarpts db = 2%nat.
Proof.
  destruct example_files_load as [db Hload]. exists db. split; [exact Hload|].
  destruct (load_counters Example.blank db Example.files Hload) as (_ & Hf & _ & Ha).
  split; [exact Hf|exact Ha].
Defined.

Lemma expand_step_prc_without_runway_witness :
  NavDB.expand_step Example.db ["EGLL"; "BPK7F"; "BOGNA"] 1 after_entry = Ok after_entry.
Proof.
  apply (@expand_step_prc_without_runway Standin.externals Example.db
           ["EGLL"; "BPK7F"; "BOGNA"] 1 after_entry "BPK7F").
  - reflexivity.
  - vm_compute. reflexivity.
  - intros p [= <-]. vm_compute. discriminate.
  - intros n [= <-]. vm_compute. discriminate.
Defined.
